(** * terraform-provider-sonarqube: permissions and GitLab binding resources

    A shallow embedding of [sonarqube/resource_sonarqube_permissions.go] and
    [sonarqube/resource_sonarqube_gitlab_binding.go].

    Go strings are byte strings ([string] of [ascii]); the two functions of
    Go's [strings] package that depend on the Unicode case tables are
    parameters ([CaseFolding]).  The resource handlers
    mutate a [schema.ResourceData], talk to the server through
    [httpRequestHelper] and may fail with an [error] or panic; they are
    written in a small state-and-error monad whose state holds the resource
    data, the list of HTTP requests issued so far and the random source. *)

From Stdlib Require Import ZArith Ascii String List Bool Lia.
From stdpp Require Import base option list gmap strings.

Local Open Scope Z_scope.
Local Open Scope list_scope.
Local Set Warnings "-register-all".

(** ** Go's [strings] package, on byte strings *)

(** [strings.ToLower] and [strings.EqualFold] read their arguments as
    UTF-8 and map or compare them rune by rune with the Unicode case tables
    of Go's standard library ([unicode.ToLower], [unicode.SimpleFold]).  The
    tables are not part of the provider: the two functions are parameters
    of the development, and what is proved of a handler holds for whatever
    they compute. *)
Class CaseFolding := {
  ToLower : string -> string;
  EqualFold : string -> string -> bool
}.

(** On strings of ASCII bytes the two functions need no table.
    [unicode.ToLower] on a one-byte rune: [A]-[Z] are moved to [a]-[z],
    every other byte is left as it is. *)
Definition lowerByte (c : ascii) : ascii :=
  let n := nat_of_ascii c in
  if ((65 <=? n) && (n <=? 90))%nat then ascii_of_nat (n + 32) else c.

(** [strings.ToLower] on a string of ASCII bytes. *)
Fixpoint asciiToLower (s : string) : string :=
  match s with
  | EmptyString => EmptyString
  | String c s' => String (lowerByte c) (asciiToLower s')
  end.

(** [strings.EqualFold] on two strings of ASCII bytes. *)
Fixpoint asciiEqualFold (s t : string) : bool :=
  match s, t with
  | EmptyString, EmptyString => true
  | String a s', String b t' => Ascii.eqb (lowerByte a) (lowerByte b) && asciiEqualFold s' t'
  | _, _ => false
  end.

(** The case folding the concrete runs use: their strings are ASCII. *)
Definition asciiFolding : CaseFolding :=
  {| ToLower := asciiToLower; EqualFold := asciiEqualFold |}.

(** [strings.HasPrefix] *)
Fixpoint HasPrefix (s pre : string) : bool :=
  match pre, s with
  | EmptyString, _ => true
  | String p pre', String c s' => Ascii.eqb c p && HasPrefix s' pre'
  | String _ _, EmptyString => false
  end.

(** [s[n:]] for [n <= len(s)] *)
Fixpoint dropBytes (n : nat) (s : string) : string :=
  match n, s with
  | O, _ => s
  | S n', String _ s' => dropBytes n' s'
  | S _, EmptyString => EmptyString
  end.

(** [s[:n]] for [n <= len(s)] *)
Fixpoint takeBytes (n : nat) (s : string) : string :=
  match n, s with
  | O, _ => EmptyString
  | S n', String c s' => String c (takeBytes n' s')
  | S _, EmptyString => EmptyString
  end.

(** [strings.Index]: the offset of the first occurrence of [sep], [None]
    for Go's [-1]. *)
Fixpoint Index (s sep : string) : option nat :=
  if HasPrefix s sep then Some O
  else match s with
       | EmptyString => None
       | String _ s' => S <$> Index s' sep
       end.

(** [strings.HasSuffix] *)
Definition HasSuffix (s suf : string) : bool :=
  (String.length suf <=? String.length s)%nat
  && String.eqb (dropBytes (String.length s - String.length suf) s) suf.

(** [strings.TrimSuffix] *)
Definition TrimSuffix (s suf : string) : string :=
  if HasSuffix s suf then takeBytes (String.length s - String.length suf) s else s.

(** The loop of [strings.SplitN] for a non-empty separator: at most [cuts]
    cuts, the rest of the string is the last piece. *)
Fixpoint splitLoop (cuts : nat) (s sep : string) : list string :=
  match cuts with
  | O => [s]
  | S cuts' =>
      match Index s sep with
      | None => [s]
      | Some m => takeBytes m s :: splitLoop cuts' (dropBytes (m + String.length sep) s) sep
      end
  end.

(** [strings.SplitN(s, sep, n)] for a non-empty [sep] and [n >= 0]:
    [n = 0] gives no piece at all, otherwise at most [n] pieces. *)
Definition SplitN (s sep : string) (n : nat) : list string :=
  match n with
  | O => []
  | S cuts => splitLoop cuts s sep
  end.

(** [strings.Join] *)
Fixpoint Join (l : list string) (sep : string) : string :=
  match l with
  | [] => EmptyString
  | [x] => x
  | x :: rest => x +:+ sep +:+ Join rest sep
  end.

(** [strconv.FormatBool] *)
Definition FormatBool (b : bool) : string := if b then "true"%string else "false"%string.

(** ** Go's [net/url] package *)

(** The upper-case hexadecimal digit of [n < 16]. *)
Definition hexDigit (n : nat) : ascii :=
  if (n <? 10)%nat then ascii_of_nat (48 + n) else ascii_of_nat (55 + n).

(** The bytes [url.QueryEscape] keeps: letters, digits and [-_.~]. *)
Definition unreserved (c : ascii) : bool :=
  let n := nat_of_ascii c in
  ((97 <=? n) && (n <=? 122) || (65 <=? n) && (n <=? 90) || (48 <=? n) && (n <=? 57)
   || (n =? 45) || (n =? 95) || (n =? 46) || (n =? 126))%nat.

(** [url.QueryEscape]: a space becomes [+], any other reserved byte [%XX]. *)
Fixpoint QueryEscape (s : string) : string :=
  match s with
  | EmptyString => EmptyString
  | String c s' =>
      if unreserved c then String c (QueryEscape s')
      else if Ascii.eqb c " "%char then String "+"%char (QueryEscape s')
      else let n := nat_of_ascii c in
           String "%"%char (String (hexDigit (n / 16)) (String (hexDigit (n mod 16)) (QueryEscape s')))
  end.

(** [url.Values] is [map[string][]string]. *)
Abbreviation Values := (gmap string (list string)).

(** [Values.Add]: append the value to the list stored for the key. *)
Definition Values_Add (key value : string) (v : Values) : Values :=
  <[key := default [] (v !! key) ++ [value]]> v.

(** [Values.Del] *)
Definition Values_Del (key : string) (v : Values) : Values := delete key v.

(** Insertion into a list of keys kept in increasing byte order. *)
Fixpoint insertKey (k : string) (l : list string) : list string :=
  match l with
  | [] => [k]
  | x :: rest => if String.leb k x then k :: l else x :: insertKey k rest
  end.

(** The keys of the map, sorted as [Values.Encode] sorts them. *)
Definition sortedKeys (v : Values) : list string :=
  foldr insertKey [] (fst <$> map_to_list v).

(** [Values.Encode]: [key=value] pairs, escaped, by increasing key, the
    values of one key in the order they were added, joined by [&]. *)
Definition Values_Encode (v : Values) : string :=
  Join (flat_map (fun k => (fun x => QueryEscape k +:+ "=" +:+ QueryEscape x) <$> default [] (v !! k))
                 (sortedKeys v))
       "&".

(** The fields of [url.URL] the handlers touch; scheme and host come from
    the provider configuration and are only carried along. *)
Record URL := mkURL {
  Scheme : string;
  Host : string;
  Path : string;
  RawQuery : string
}.

(** [u.Path = p] *)
Definition withPath (u : URL) (p : string) : URL :=
  {| Scheme := Scheme u; Host := Host u; Path := p; RawQuery := RawQuery u |}.

(** [u.RawQuery = q] *)
Definition withRawQuery (u : URL) (q : string) : URL :=
  {| Scheme := Scheme u; Host := Host u; Path := Path u; RawQuery := q |}.

(** ** Errors, panics and the handler monad *)

(** Why [httpRequestHelper] gave up. *)
Inductive TransportCause :=
| NetworkFailure (detail : string)
| UnexpectedStatus (got want : Z).

(** Go [error] values.  [Errorf text arg] is the error built by
    [fmt.Errorf]: [text] is the formatted message up to a trailing [%+v]
    verb, [arg] the error formatted by that verb when there is one (string
    arguments are already part of [text]). *)
Inductive error :=
| TransportError (caller : string) (cause : TransportCause)
| JSONError
| Errorf (text : string) (arg : option error)
| Joined (errs : list error).

(** Run-time panics the handlers can raise. *)
Inductive panicValue :=
| IndexOutOfRange (index len : nat)
| TypeAssertion.

(** How a handler ends: it returns a value (a nil error), returns an error,
    or panics. *)
Inductive result (A : Type) :=
| Ok (a : A)
| Err (e : error)
| Panic (p : panicValue).
Arguments Ok {A} a.
Arguments Err {A} e.
Arguments Panic {A} p.

(** One call of [httpRequestHelper] as the server sees it. *)
Record Request := mkRequest {
  method : string;
  target : URL;
  expectedStatus : Z;
  caller : string
}.

(** Modelled from the spec: the record types [Paging], [User], [GetUser],
    [PermissionTemplatePermission], [PermissionTemplate],
    [GetPermissionTemplates] and [GetBinding] are declared elsewhere in the
    package; they carry the fields the two handlers read (a user's or a
    template's permission list, a binding's key, repository, ALM and
    monorepo flag, the [paging] envelope). *)
Record Paging := mkPaging { PageIndex : Z; PageSize : Z; Total : Z }.

(** Modelled from the spec: one entry of the [users] list, a user's login
    and permission set. *)
Record User := mkUser { Login : string; UserPermissions : list string }.

(** Modelled from the spec: the body of the user searches, the [paging]
    envelope and the [users] list. *)
Record GetUser := mkGetUser { UsersPaging : Paging; Users : list User }.

(** [GroupPermission] *)
Record GroupPermission := mkGroupPermission {
  GroupId : string;
  GroupName : string;
  GroupDescription : string;
  GroupPermissions : list string
}.

(** [GetGroupPermissions] *)
Record GetGroupPermissions := mkGetGroupPermissions {
  GroupsPaging : Paging;
  Groups : list GroupPermission
}.

(** Modelled from the spec: a permission of a template, with its
    [withProjectCreator] flag. *)
Record PermissionTemplatePermission := mkPermissionTemplatePermission {
  Key : string;
  WithProjectCreator : bool
}.

(** Modelled from the spec: a permission template, identified by id or by
    name, with its permission list. *)
Record PermissionTemplate := mkPermissionTemplate {
  TemplateID : string;
  TemplateName : string;
  TemplatePermissions : list PermissionTemplatePermission
}.

(** Modelled from the spec: the body of the template search, the [paging]
    envelope and the [permissionTemplates] list. *)
Record GetPermissionTemplates := mkGetPermissionTemplates {
  TemplatesPaging : Paging;
  PermissionTemplates : list PermissionTemplate
}.

(** Modelled from the spec: the flat binding object, the ALM setting key,
    the repository, the ALM and the monorepo flag. *)
Record GetBinding := mkGetBinding {
  BindingKey : string;
  Repository : string;
  Alm : string;
  Monorepo : bool
}.

(** A response body, given by what [json.NewDecoder(body).Decode] makes of
    it for each of the four target types; [None] is a decoding error. *)
Record ResponseBody := mkBody {
  decodeGetUser : option GetUser;
  decodeGetGroupPermissions : option GetGroupPermissions;
  decodeGetPermissionTemplates : option GetPermissionTemplates;
  decodeGetBinding : option GetBinding
}.

(** The part of [http.Response] the handlers and [httpRequestHelper] look
    at. *)
Record Response := mkResponse { StatusCode : Z; Body : ResponseBody }.

(** What the HTTP client gets back for a request. *)
Inductive Transport :=
| Failed (detail : string)
| Replied (resp : Response).

(** The client together with the server behind it: the answer to a request
    may depend on all the requests issued before it. *)
Definition Client := list Request -> Request -> Transport.

(** Modelled from the spec: [ProviderConfiguration] is declared elsewhere
    in the package; it is the immutable, process-wide connection handle
    (HTTP client, base URL, server edition and version).  The handlers work
    on their own copy of the base URL. *)
Record ProviderConfiguration := mkProviderConfiguration {
  httpClient : Client;
  sonarQubeURL : URL;
  sonarQubeVersion : string;
  sonarQubeEdition : string
}.

(** The state a handler runs in: the [schema.ResourceData] it was handed,
    the requests issued so far, and the random source [uuid.NewV4] draws
    from. *)
Record State (D : Type) := mkState {
  data : D;
  history : list Request;
  entropy : nat -> string;
  drawn : nat
}.
Arguments mkState {D} data history entropy drawn.
Arguments data {D} s.
Arguments history {D} s.
Arguments entropy {D} s.
Arguments drawn {D} s.

(** A handler step: from a state to a result and the state it leaves. *)
Definition M (D A : Type) : Type := State D -> result A * State D.

(** A step that only yields a value. *)
Definition ret {D A} (a : A) : M D A := fun st => (Ok a, st).

(** Sequencing: an error or a panic of the first step ends the handler. *)
Definition bind {D A B} (c : M D A) (k : A -> M D B) : M D B :=
  fun st =>
    match c st with
    | (Ok a, st') => k a st'
    | (Err e, st') => (Err e, st')
    | (Panic p, st') => (Panic p, st')
    end.

Notation "x <- c ;; k" := (bind c (fun x => k))
  (at level 100, c at next level, right associativity).

(** [return err] *)
Definition fail {D A} (e : error) : M D A := fun st => (Err e, st).

(** A run-time panic. *)
Definition panic {D A} (p : panicValue) : M D A := fun st => (Panic p, st).

(** [if err != nil { return f(err) }] around a call. *)
Definition onError {D A} (c : M D A) (f : error -> error) : M D A :=
  fun st =>
    match c st with
    | (Err e, st') => (Err (f e), st')
    | r => r
    end.

(** The resource data as it is now. *)
Definition getData {D} : M D D := fun st => (Ok (data st), st).

(** [d.Set] and [d.SetId] *)
Definition modifyData {D} (f : D -> D) : M D unit :=
  fun st => (Ok tt, mkState (f (data st)) (history st) (entropy st) (drawn st)).

(** [uuid.NewV4().String()], of the external uuid library: a call takes
    the next string of the random source. *)
Definition NewV4String {D} : M D string :=
  fun st => (Ok (entropy st (drawn st)),
             mkState (data st) (history st) (entropy st) (S (drawn st))).

(** [a[i]] on a slice. *)
Definition index {D} (a : list string) (i : nat) : M D string :=
  match a !! i with
  | Some x => ret x
  | None => panic (IndexOutOfRange i (length a))
  end.

(** Modelled from the spec: [httpRequestHelper] is defined elsewhere in the
    package.  It is the transport invoker: it issues one HTTP request,
    validates the status code of the response against the expected one, and
    returns the response or an error; there is no retry. *)
Definition httpRequestHelper {D} (client : Client) (method : string) (u : URL)
    (expectedResponseCode : Z) (caller : string) : M D Response :=
  fun st =>
    let req := mkRequest method u expectedResponseCode caller in
    let st' := mkState (data st) (history st ++ [req]) (entropy st) (drawn st) in
    match client (history st) req with
    | Failed detail => (Err (TransportError caller (NetworkFailure detail)), st')
    | Replied resp =>
        if StatusCode resp =? expectedResponseCode then (Ok resp, st')
        else (Err (TransportError caller (UnexpectedStatus (StatusCode resp) expectedResponseCode)), st')
    end.

(** [http.StatusOK] *)
Definition StatusOK : Z := 200.

(** [http.StatusNoContent] *)
Definition StatusNoContent : Z := 204.

(** ** [schema.ResourceData] *)

(** Values of type [interface{}], as far as the schema of the two resources
    goes. *)
Inductive iface :=
| IString (s : string)
| IBool (b : bool)
| IInt (n : Z).

(** [v.(string)] *)
Definition assertString (v : iface) : option string :=
  match v with
  | IString s => Some s
  | _ => None
  end.

(** [d.GetOk] on a string field: the value counts as set when it is not the
    zero value. *)
Definition GetOk (v : string) : option string :=
  if String.eqb v "" then None else Some v.

(** The resource data of [sonarqube_permissions], typed by its schema. *)
Record PermissionsData := mkPermissionsData {
  Id : string;
  login_name : string;
  group_name : string;
  special_group_name : string;
  project_key : string;
  template_id : string;
  template_name : string;
  permissions : list string
}.

(** [d.SetId] and [d.Set] on the string fields the handlers write. *)
Definition SetId (v : string) (d : PermissionsData) : PermissionsData :=
  mkPermissionsData v (login_name d) (group_name d) (special_group_name d)
    (project_key d) (template_id d) (template_name d) (permissions d).

Definition Set_login_name (v : string) (d : PermissionsData) : PermissionsData :=
  mkPermissionsData (Id d) v (group_name d) (special_group_name d)
    (project_key d) (template_id d) (template_name d) (permissions d).

Definition Set_group_name (v : string) (d : PermissionsData) : PermissionsData :=
  mkPermissionsData (Id d) (login_name d) v (special_group_name d)
    (project_key d) (template_id d) (template_name d) (permissions d).

Definition Set_special_group_name (v : string) (d : PermissionsData) : PermissionsData :=
  mkPermissionsData (Id d) (login_name d) (group_name d) v
    (project_key d) (template_id d) (template_name d) (permissions d).

(** [d.Get("permissions")]: the stored strings, boxed. *)
Definition Get_permissions (d : PermissionsData) : list iface := IString <$> permissions d.

(** [d.Set("permissions", v)]: the schema stores a list of strings; a value
    of another shape is refused and the field keeps what it had (the handler
    ignores the error [d.Set] returns). *)
Definition Set_permissions (v : list iface) (d : PermissionsData) : PermissionsData :=
  match mapM assertString v with
  | Some l =>
      mkPermissionsData (Id d) (login_name d) (group_name d) (special_group_name d)
        (project_key d) (template_id d) (template_name d) l
  | None => d
  end.

(** The resource data of [sonarqube_gitlab_binding]. *)
Record BindingData := mkBindingData {
  BindingId : string;
  alm_setting : string;
  monorepo : string;
  project : string;
  repository : string
}.

(** [d.SetId] and the field updates behind [d.Set]. *)
Definition SetBindingId (v : string) (d : BindingData) : BindingData :=
  mkBindingData v (alm_setting d) (monorepo d) (project d) (repository d).

Definition Set_alm_setting (v : string) (d : BindingData) : BindingData :=
  mkBindingData (BindingId d) v (monorepo d) (project d) (repository d).

Definition Set_monorepo (v : string) (d : BindingData) : BindingData :=
  mkBindingData (BindingId d) (alm_setting d) v (project d) (repository d).

Definition Set_project (v : string) (d : BindingData) : BindingData :=
  mkBindingData (BindingId d) (alm_setting d) (monorepo d) v (repository d).

Definition Set_repository (v : string) (d : BindingData) : BindingData :=
  mkBindingData (BindingId d) (alm_setting d) (monorepo d) (project d) v.

(** [d.Set] on a string field of the binding: it stores the string and
    returns a nil error. *)
Definition dSet (f : BindingData -> BindingData) : M BindingData (option error) :=
  _ <- modifyData f ;; ret None.

(** [errors.Join]: nil when every error is nil. *)
Definition errors_Join {D} (errs : list (option error)) : M D unit :=
  match omap id errs with
  | [] => ret tt
  | es => fail (Joined es)
  end.

Section Handlers.

Context `{folding : CaseFolding}.

(** ** [resource_sonarqube_permissions.go] *)

(** A failed type assertion panics. *)
Definition typeAssert {D A} (v : option A) : M D A :=
  match v with
  | Some a => ret a
  | None => panic TypeAssertion
  end.

(** [json.NewDecoder(resp.Body).Decode(&x)] followed by the handler's
    [if err != nil { return fmt.Errorf(text, err) }]. *)
Definition decodeOr {D A} (v : option A) (text : string) : M D A :=
  match v with
  | Some a => ret a
  | None => fail (Errorf text (Some JSONError))
  end.

(** [sonarQubeURL.Path = strings.TrimSuffix(sonarQubeURL.Path, "/") + api] *)
Definition apiPath (sonarQubeURL : URL) (api : string) : URL :=
  withPath sonarQubeURL (TrimSuffix (Path sonarQubeURL) "/" +:+ api).

(** [expandPermissions]: every element of the declared list is asserted to
    be a string and appended. *)
Definition expandPermissions (d : PermissionsData) : option (list string) :=
  foldl (fun expandedPermissions permission =>
           l ← expandedPermissions; s ← assertString permission; Some (l ++ [s]))
        (Some []) (Get_permissions d).

(** [flattenPermissions]; [None] is the nil pointer. *)
Definition flattenPermissions (input : option (list string)) : list iface :=
  match input with
  | None => []
  | Some l => foldl (fun flatPermissions permission => flatPermissions ++ [IString permission]) [] l
  end.

(** [flattenProjectCreatorPermissions] *)
Definition flattenProjectCreatorPermissions
    (input : option (list PermissionTemplatePermission)) : list iface :=
  match input with
  | None => []
  | Some l =>
      foldl (fun flatPermissions permission =>
               if WithProjectCreator permission
               then flatPermissions ++ [IString (Key permission)]
               else flatPermissions) [] l
  end.

(** The loop over the permissions that closes [resourceSonarqubePermissionsCreate]
    and [resourceSonarqubePermissionsDelete]; the two loops differ in the
    caller name they hand to [httpRequestHelper] only.  [CurrentRawQuery]
    is the same map as [RawQuery], so the next round starts from the query
    of this one. *)
Fixpoint permissionLoop {D} (m : ProviderConfiguration) (caller : string)
    (sonarQubeURL : URL) (RawQuery : Values) (permissions : list string) : M D unit :=
  match permissions with
  | [] => ret tt
  | permission :: rest =>
      let CurrentRawQuery := Values_Del "permission" RawQuery in
      let CurrentRawQuery := Values_Add "permission" permission CurrentRawQuery in
      let sonarQubeURL := withRawQuery sonarQubeURL (Values_Encode CurrentRawQuery) in
      _ <- onError (httpRequestHelper (httpClient m) "POST" sonarQubeURL StatusNoContent caller)
                   (fun err => Errorf "error creating Sonarqube permission: " (Some err)) ;;
      permissionLoop m caller sonarQubeURL CurrentRawQuery rest
  end.

(** [RawQuery.Add("projectKey", ...)] when [project_key] is set. *)
Definition addProjectKey (d : PermissionsData) (RawQuery : Values) : Values :=
  match GetOk (project_key d) with
  | Some projectKey => Values_Add "projectKey" projectKey RawQuery
  | None => RawQuery
  end.

(** [resourceSonarqubePermissionsRead] *)
Definition resourceSonarqubePermissionsRead (m : ProviderConfiguration) : M PermissionsData unit :=
  d <- getData ;;
  let sonarQubeURL := sonarQubeURL m in
  let RawQuery : Values := addProjectKey d {[ "ps"%string := ["100"%string] ]} in
  let get u :=
    onError (httpRequestHelper (httpClient m) "GET" u StatusOK "resourceSonarqubePermissionsRead")
            (fun err => Errorf "error reading Sonarqube permissions: " (Some err)) in
  let decodeText := "resourceSonarqubePermissionsRead: Failed to decode json into struct: "%string in
  found <-
    match GetOk (login_name d) with
    | Some _ =>
        let '(sonarQubeURL, RawQuery) :=
          match GetOk (template_id d) with
          | Some templateID =>
              (apiPath sonarQubeURL "/api/permissions/template_users",
               Values_Add "templateId" templateID RawQuery)
          | None =>
              match GetOk (template_name d) with
              | Some templateName =>
                  (apiPath sonarQubeURL "/api/permissions/template_users",
                   Values_Add "templateName" templateName RawQuery)
              | None => (apiPath sonarQubeURL "/api/permissions/users", RawQuery)
              end
          end in
        let sonarQubeURL := withRawQuery sonarQubeURL (Values_Encode RawQuery) in
        resp <- get sonarQubeURL ;;
        users <- decodeOr (decodeGetUser (Body resp)) decodeText ;;
        let loginName := login_name d in
        match find (fun value => EqualFold (Login value) loginName) (Users users) with
        | Some value =>
            _ <- modifyData (Set_login_name (Login value)) ;;
            _ <- modifyData (Set_permissions (flattenPermissions (Some (UserPermissions value)))) ;;
            ret true
        | None => ret false
        end
    | None =>
        match GetOk (group_name d) with
        | Some _ =>
            let '(sonarQubeURL, RawQuery) :=
              match GetOk (template_id d) with
              | Some templateID =>
                  (apiPath sonarQubeURL "/api/permissions/template_groups",
                   Values_Add "templateId" templateID RawQuery)
              | None =>
                  match GetOk (template_name d) with
                  | Some templateName =>
                      (apiPath sonarQubeURL "/api/permissions/template_groups",
                       Values_Add "templateName" templateName RawQuery)
                  | None => (apiPath sonarQubeURL "/api/permissions/groups", RawQuery)
                  end
              end in
            let sonarQubeURL := withRawQuery sonarQubeURL (Values_Encode RawQuery) in
            resp <- get sonarQubeURL ;;
            groups <- decodeOr (decodeGetGroupPermissions (Body resp)) decodeText ;;
            let groupName := group_name d in
            match find (fun value => EqualFold (GroupName value) groupName) (Groups groups) with
            | Some value =>
                _ <- modifyData (Set_group_name (GroupName value)) ;;
                _ <- modifyData (Set_permissions (flattenPermissions (Some (GroupPermissions value)))) ;;
                ret true
            | None => ret false
            end
        | None =>
            let RawQuery :=
              match GetOk (template_name d) with
              | Some templateName => Values_Add "templateName" templateName RawQuery
              | None => RawQuery
              end in
            let sonarQubeURL := apiPath sonarQubeURL "/api/permissions/search_templates" in
            let sonarQubeURL := withRawQuery sonarQubeURL (Values_Encode RawQuery) in
            resp <- get sonarQubeURL ;;
            permissionTemplates <- decodeOr (decodeGetPermissionTemplates (Body resp)) decodeText ;;
            let templateId := template_id d in
            let templateName := template_name d in
            match find (fun value => EqualFold (TemplateID value) templateId
                                     || EqualFold (TemplateName value) templateName)
                       (PermissionTemplates permissionTemplates) with
            | Some value =>
                _ <- modifyData (Set_special_group_name "project_creator") ;;
                _ <- modifyData (Set_permissions
                       (flattenProjectCreatorPermissions (Some (TemplatePermissions value)))) ;;
                ret true
            | None => ret false
            end
        end
    end ;;
  if (found : bool) then ret tt
  else
    d <- getData ;;
    fail (Errorf ("resourceSonarqubePermissionsRead: Unable to find group permissions for group: "
                  +:+ Id d) None).

(** [resourceSonarqubePermissionsCreate] *)
Definition resourceSonarqubePermissionsCreate (m : ProviderConfiguration) : M PermissionsData unit :=
  d <- getData ;;
  let sonarQubeURL := sonarQubeURL m in
  permissions <- typeAssert (expandPermissions d) ;;
  let RawQuery : Values := addProjectKey d ∅ in
  endpoint <-
    match GetOk (login_name d) with
    | Some _ =>
        let RawQuery := Values_Add "login" (login_name d) RawQuery in
        match GetOk (template_id d) with
        | Some templateID =>
            ret (apiPath sonarQubeURL "/api/permissions/add_user_to_template",
                 Values_Add "templateId" templateID RawQuery)
        | None =>
            match GetOk (template_name d) with
            | Some templateName =>
                ret (apiPath sonarQubeURL "/api/permissions/add_user_to_template",
                     Values_Add "templateName" templateName RawQuery)
            | None => ret (apiPath sonarQubeURL "/api/permissions/add_user", RawQuery)
            end
        end
    | None =>
        match GetOk (group_name d) with
        | Some _ =>
            let RawQuery := Values_Add "groupName" (group_name d) RawQuery in
            match GetOk (template_id d) with
            | Some templateID =>
                ret (apiPath sonarQubeURL "/api/permissions/add_group_to_template",
                     Values_Add "templateId" templateID RawQuery)
            | None =>
                match GetOk (template_name d) with
                | Some templateName =>
                    ret (apiPath sonarQubeURL "/api/permissions/add_group_to_template",
                         Values_Add "templateName" templateName RawQuery)
                | None => ret (apiPath sonarQubeURL "/api/permissions/add_group", RawQuery)
                end
            end
        | None =>
            let sonarQubeURL := apiPath sonarQubeURL "/api/permissions/add_project_creator_to_template" in
            match GetOk (template_id d) with
            | Some templateID => ret (sonarQubeURL, Values_Add "templateId" templateID RawQuery)
            | None =>
                match GetOk (template_name d) with
                | Some templateName => ret (sonarQubeURL, Values_Add "templateName" templateName RawQuery)
                | None =>
                    fail (Errorf "resourceSonarqubePermissionsCreate: 'templateId' or 'templateName' must be set when 'special_group_name' is set to 'project_creator'" None)
                end
            end
        end
    end ;;
  _ <- permissionLoop m "resourceSonarqubePermissionsCreate" (fst endpoint) (snd endpoint) permissions ;;
  id <- NewV4String ;;
  _ <- modifyData (SetId id) ;;
  resourceSonarqubePermissionsRead m.

(** [resourceSonarqubePermissionsDelete] *)
Definition resourceSonarqubePermissionsDelete (m : ProviderConfiguration) : M PermissionsData unit :=
  d <- getData ;;
  let sonarQubeURL := sonarQubeURL m in
  permissions <- typeAssert (expandPermissions d) ;;
  let RawQuery : Values := addProjectKey d ∅ in
  endpoint <-
    match GetOk (login_name d) with
    | Some _ =>
        let '(sonarQubeURL, RawQuery) :=
          match GetOk (template_id d) with
          | Some templateID =>
              (apiPath sonarQubeURL "/api/permissions/remove_user_from_template",
               Values_Add "templateId" templateID RawQuery)
          | None =>
              match GetOk (template_name d) with
              | Some templateName =>
                  (apiPath sonarQubeURL "/api/permissions/remove_user_from_template",
                   Values_Add "templateName" templateName RawQuery)
              | None => (apiPath sonarQubeURL "/api/permissions/remove_user", RawQuery)
              end
          end in
        let RawQuery := Values_Add "login" (login_name d) RawQuery in
        ret (withRawQuery sonarQubeURL (Values_Encode RawQuery), RawQuery)
    | None =>
        match GetOk (group_name d) with
        | Some _ =>
            let '(sonarQubeURL, RawQuery) :=
              match GetOk (template_id d) with
              | Some templateID =>
                  (apiPath sonarQubeURL "/api/permissions/remove_group_from_template",
                   Values_Add "templateId" templateID RawQuery)
              | None =>
                  match GetOk (template_name d) with
                  | Some templateName =>
                      (apiPath sonarQubeURL "/api/permissions/remove_group_from_template",
                       Values_Add "templateName" templateName RawQuery)
                  | None => (apiPath sonarQubeURL "/api/permissions/remove_group", RawQuery)
                  end
              end in
            let RawQuery := Values_Add "groupName" (group_name d) RawQuery in
            ret (withRawQuery sonarQubeURL (Values_Encode RawQuery), RawQuery)
        | None =>
            let sonarQubeURL := apiPath sonarQubeURL "/api/permissions/remove_project_creator_from_template" in
            match GetOk (template_id d) with
            | Some templateID => ret (sonarQubeURL, Values_Add "templateId" templateID RawQuery)
            | None =>
                match GetOk (template_name d) with
                | Some templateName => ret (sonarQubeURL, Values_Add "templateName" templateName RawQuery)
                | None =>
                    fail (Errorf "resourceSonarqubePermissionsDelete: 'templateId' or 'templateName' must be set when 'special_group_name' is set to 'project_creator'" None)
                end
            end
        end
    end ;;
  permissionLoop m "resourceSonarqubePermissionsDelete" (fst endpoint) (snd endpoint) permissions.

(** ** [resource_sonarqube_gitlab_binding.go] *)

(** [checkGitlabBindingSupport]; [None] is the nil error.  The edition is
    lowered by [strings.ToLower], whatever it computes. *)
Definition checkGitlabBindingSupport (conf : ProviderConfiguration) : option error :=
  if String.eqb (ToLower (sonarQubeEdition conf)) "community"
  then Some (Errorf ("GitLab Bindings are not supported in the Community edition of SonarQube. You are using: SonarQube "
                     +:+ sonarQubeEdition conf +:+ " version " +:+ sonarQubeVersion conf) None)
  else None.

(** [if err := checkGitlabBindingSupport(...); err != nil { return err }] *)
Definition requireGitlabBindingSupport {D} (m : ProviderConfiguration) : M D unit :=
  match checkGitlabBindingSupport m with
  | Some err => fail err
  | None => ret tt
  end.

(** [resourceSonarqubeGitlabBindingRead] *)
Definition resourceSonarqubeGitlabBindingRead (m : ProviderConfiguration) : M BindingData unit :=
  _ <- requireGitlabBindingSupport m ;;
  d <- getData ;;
  let idSlice := SplitN (BindingId d) "/" 2 in
  let sonarQubeURL := apiPath (sonarQubeURL m) "/api/alm_settings/get_binding" in
  id0 <- index idSlice 0 ;;
  let sonarQubeURL :=
    withRawQuery sonarQubeURL (Values_Encode {[ "project"%string := [id0] ]}) in
  resp <- httpRequestHelper (httpClient m) "GET" sonarQubeURL StatusOK
            "resourceSonarqubeGitlabBindingRead" ;;
  BindingReadResponse <-
    decodeOr (decodeGetBinding (Body resp))
      "resourceSonarqubeGitlabBindingRead: Failed to decode json into struct: " ;;
  id1 <- index idSlice 1 ;;
  if String.eqb id1 (Repository BindingReadResponse) && String.eqb (Alm BindingReadResponse) "gitlab"
  then
    id0 <- index idSlice 0 ;;
    e1 <- dSet (Set_project id0) ;;
    id1 <- index idSlice 1 ;;
    e2 <- dSet (Set_repository id1) ;;
    e3 <- dSet (Set_alm_setting (BindingKey BindingReadResponse)) ;;
    e4 <- dSet (Set_monorepo (FormatBool (Monorepo BindingReadResponse))) ;;
    errors_Join [e1; e2; e3; e4]
  else
    fail (Errorf ("resourceSonarqubeGitlabBindingRead: Failed to find gitlab binding: "
                  +:+ BindingId d) None).

(** [resourceSonarqubeGitlabBindingCreate] *)
Definition resourceSonarqubeGitlabBindingCreate (m : ProviderConfiguration) : M BindingData unit :=
  _ <- requireGitlabBindingSupport m ;;
  d <- getData ;;
  let sonarQubeURL := apiPath (sonarQubeURL m) "/api/alm_settings/set_gitlab_binding" in
  let sonarQubeURL :=
    withRawQuery sonarQubeURL
      (Values_Encode (<[ "almSetting"%string := [alm_setting d] ]>
                     (<[ "monorepo"%string := [monorepo d] ]>
                     (<[ "project"%string := [project d] ]>
                     {[ "repository"%string := [repository d] ]})))) in
  _ <- httpRequestHelper (httpClient m) "POST" sonarQubeURL StatusNoContent
         "resourceSonarqubeGitlabBindingCreate" ;;
  let id := (project d +:+ "/" +:+ repository d)%string in
  _ <- modifyData (SetBindingId id) ;;
  resourceSonarqubeGitlabBindingRead m.

(** The resource table registers the Create handler for Update as well. *)
Definition resourceSonarqubeGitlabBindingUpdate := resourceSonarqubeGitlabBindingCreate.

(** [resourceSonarqubeGitlabBindingDelete] *)
Definition resourceSonarqubeGitlabBindingDelete (m : ProviderConfiguration) : M BindingData unit :=
  _ <- requireGitlabBindingSupport m ;;
  d <- getData ;;
  let sonarQubeURL := apiPath (sonarQubeURL m) "/api/alm_settings/delete_binding" in
  let sonarQubeURL :=
    withRawQuery sonarQubeURL (Values_Encode {[ "project"%string := [project d] ]}) in
  _ <- httpRequestHelper (httpClient m) "POST" sonarQubeURL StatusNoContent
         "resourceSonarqubeGitlabBindingDelete" ;;
  ret tt.

(** [resourceSonarqubeGitlabBindingImport] *)
Definition resourceSonarqubeGitlabBindingImport (m : ProviderConfiguration)
    : M BindingData (list BindingData) :=
  _ <- resourceSonarqubeGitlabBindingRead m ;;
  d <- getData ;;
  ret [d].

(** * Observations

    What the properties below speak about: the requests a handler issued,
    the answers of the server, the errors of the handlers, and a few
    concrete servers and declarations. *)

(** The requests a handler issued, given the state it started from and the
    state it left. *)
Definition issued {D} (before after : State D) : list Request :=
  drop (length (history before)) (history after).

(** The error of Create for the special group without a template. *)
Definition createConfigError : error :=
  Errorf "resourceSonarqubePermissionsCreate: 'templateId' or 'templateName' must be set when 'special_group_name' is set to 'project_creator'" None.

(** The error of Delete for the special group without a template. *)
Definition deleteConfigError : error :=
  Errorf "resourceSonarqubePermissionsDelete: 'templateId' or 'templateName' must be set when 'special_group_name' is set to 'project_creator'" None.

(** The error of [checkGitlabBindingSupport]. *)
Definition editionError (conf : ProviderConfiguration) : error :=
  Errorf ("GitLab Bindings are not supported in the Community edition of SonarQube. You are using: SonarQube "
          +:+ sonarQubeEdition conf +:+ " version " +:+ sonarQubeVersion conf) None.

(** The state after some more requests have been issued. *)
Definition pushRequests {D} (l : list Request) (st : State D) : State D :=
  mkState (data st) (history st ++ l) (entropy st) (drawn st).

(** The request the loop issues for one permission value, for the endpoint
    [u] and the query [q] the handler resolved. *)
Definition permissionRequest (caller : string) (u : URL) (q : Values) (permission : string) : Request :=
  mkRequest "POST"
    (withRawQuery u (Values_Encode (Values_Add "permission" permission (Values_Del "permission" q))))
    StatusNoContent caller.

(** What [httpRequestHelper] makes of the answer to a request issued after
    the requests [hist]: the response when it has the expected status, the
    reason of the failure otherwise. *)
Definition reply (client : Client) (hist : list Request) (req : Request)
    : TransportCause + Response :=
  match client hist req with
  | Failed detail => inl (NetworkFailure detail)
  | Replied resp =>
      if StatusCode resp =? expectedStatus req then inr resp
      else inl (UnexpectedStatus (StatusCode resp) (expectedStatus req))
  end.

(** Why a request fails, [None] when it succeeds. *)
Definition failure (client : Client) (hist : list Request) (req : Request) : option TransportCause :=
  match reply client hist req with
  | inl cause => Some cause
  | inr _ => None
  end.

(** The requests of [l], issued in this order after [hist], all succeed. *)
Fixpoint accepted (client : Client) (hist : list Request) (l : list Request) : bool :=
  match l with
  | [] => true
  | req :: rest =>
      match failure client hist req with
      | None => accepted client (hist ++ [req]) rest
      | Some _ => false
      end
  end.

(** The error of the loop when a request fails. *)
Definition permissionError (caller : string) (cause : TransportCause) : error :=
  Errorf "error creating Sonarqube permission: " (Some (TransportError caller cause)).

(** The special group without a template scope. *)
Definition lacksTemplateScope (d : PermissionsData) : Prop :=
  login_name d = ""%string /\ group_name d = ""%string
  /\ template_id d = ""%string /\ template_name d = ""%string.

(** What Create does once the permissions are applied. *)
Definition createEpilogue (m : ProviderConfiguration) : M PermissionsData unit :=
  id <- NewV4String ;;
  _ <- modifyData (SetId id) ;;
  resourceSonarqubePermissionsRead m.

(** The errors of Read of the permissions: the request failed, the body
    did not decode, no record matched. *)
Definition readError (cause : TransportCause) : error :=
  Errorf "error reading Sonarqube permissions: "
         (Some (TransportError "resourceSonarqubePermissionsRead" cause)).

Definition readDecodeError : error :=
  Errorf "resourceSonarqubePermissionsRead: Failed to decode json into struct: " (Some JSONError).

Definition notFoundError (id : string) : error :=
  Errorf ("resourceSonarqubePermissionsRead: Unable to find group permissions for group: " +:+ id) None.

(** A request of Read: a GET that expects 200. *)
Definition isReadRequest (g : Request) : Prop :=
  method g = "GET"%string /\ expectedStatus g = StatusOK
  /\ caller g = "resourceSonarqubePermissionsRead"%string.

(** The state with the resource data replaced. *)
Definition withData {D} (d : D) (st : State D) : State D :=
  mkState d (history st) (entropy st) (drawn st).

(** The declaration after Read matched a record: the selector field and the
    permissions are overwritten from the record. *)
Definition refreshedUser (value : User) (d : PermissionsData) : PermissionsData :=
  mkPermissionsData (Id d) (Login value) (group_name d) (special_group_name d)
    (project_key d) (template_id d) (template_name d) (UserPermissions value).

Definition refreshedGroup (value : GroupPermission) (d : PermissionsData) : PermissionsData :=
  mkPermissionsData (Id d) (login_name d) (GroupName value) (special_group_name d)
    (project_key d) (template_id d) (template_name d) (GroupPermissions value).

Definition refreshedTemplate (value : PermissionTemplate) (d : PermissionsData) : PermissionsData :=
  mkPermissionsData (Id d) (login_name d) (group_name d) "project_creator"
    (project_key d) (template_id d) (template_name d)
    (Key <$> List.filter WithProjectCreator (TemplatePermissions value)).

(** [strings.Contains] *)
Definition Contains (s substr : string) : bool :=
  match Index s substr with
  | Some _ => true
  | None => false
  end.

(** The GET of Read of the binding. *)
Definition bindingReadRequest (m : ProviderConfiguration) (projectKey : string) : Request :=
  mkRequest "GET"
    (withRawQuery (apiPath (sonarQubeURL m) "/api/alm_settings/get_binding")
                  (Values_Encode {[ "project"%string := [projectKey] ]}))
    StatusOK "resourceSonarqubeGitlabBindingRead".

(** The errors of Read of the binding: the body did not decode, the binding
    is not the one looked for. *)
Definition bindingDecodeError : error :=
  Errorf "resourceSonarqubeGitlabBindingRead: Failed to decode json into struct: " (Some JSONError).

Definition bindingNotFoundError (id : string) : error :=
  Errorf ("resourceSonarqubeGitlabBindingRead: Failed to find gitlab binding: " +:+ id) None.

(** The POST of Create of the binding. *)
Definition bindingCreateRequest (m : ProviderConfiguration) (d : BindingData) : Request :=
  mkRequest "POST"
    (withRawQuery (apiPath (sonarQubeURL m) "/api/alm_settings/set_gitlab_binding")
       (Values_Encode (<[ "almSetting"%string := [alm_setting d] ]>
                      (<[ "monorepo"%string := [monorepo d] ]>
                      (<[ "project"%string := [project d] ]>
                      {[ "repository"%string := [repository d] ]})))))
    StatusNoContent "resourceSonarqubeGitlabBindingCreate".

(** The declaration of the scenario: the user alice, the permissions
    [user] and [scan], the project [proj1]. *)
Definition aliceDeclaration (id : string) : PermissionsData :=
  mkPermissionsData id "alice" "" "" "proj1" "" "" ["user"; "scan"]%string.

(** The URL of an API call on the server at [base]. *)
Definition endpointURL (base : URL) (api query : string) : URL :=
  mkURL (Scheme base) (Host base) (TrimSuffix (Path base) "/" +:+ api) query.

(** The POST and the GET of the scenario. *)
Definition aliceAdd (base : URL) (query : string) : Request :=
  mkRequest "POST" (endpointURL base "/api/permissions/add_user" query) 204
            "resourceSonarqubePermissionsCreate".

Definition aliceGet (base : URL) : Request :=
  mkRequest "GET" (endpointURL base "/api/permissions/users" "projectKey=proj1&ps=100") 200
            "resourceSonarqubePermissionsRead".




Definition foldClasses : Prop :=
  forall a b c, EqualFold a b = true -> EqualFold c a = EqualFold c b.

Definition foldOfEmpty : Prop :=
  forall b, EqualFold "" b = true -> b = ""%string.


(** The server answers [resp] to whatever is requested next. *)
Definition answers {D} (m : ProviderConfiguration) (st : State D) (resp : Response) : Prop :=
  forall g, httpClient m (history st) g = Replied resp.

(** The body decodes to the list Read asks for, and no entry of the list
    matches the declaration. *)
Definition noMatchingRecord (d : PermissionsData) (body : ResponseBody) : Prop :=
  match GetOk (login_name d), GetOk (group_name d) with
  | Some _, _ =>
      exists users, decodeGetUser body = Some users
        /\ Forall (fun v => EqualFold (Login v) (login_name d) = false) (Users users)
  | None, Some _ =>
      exists groups, decodeGetGroupPermissions body = Some groups
        /\ Forall (fun v => EqualFold (GroupName v) (group_name d) = false) (Groups groups)
  | None, None =>
      exists templates, decodeGetPermissionTemplates body = Some templates
        /\ Forall (fun v => EqualFold (TemplateID v) (template_id d)
                            || EqualFold (TemplateName v) (template_name d) = false)
                  (PermissionTemplates templates)
  end.

(** The body decodes to a binding that is not the one the identity names:
    another repository, or an ALM that is not ["gitlab"]. *)
Definition noMatchingBinding (d : BindingData) (body : ResponseBody) : Prop :=
  exists p r b,
    SplitN (BindingId d) "/" 2 = [p; r]
    /\ decodeGetBinding body = Some b
    /\ (Repository b <> r \/ Alm b <> "gitlab"%string).

(** A provider configuration, a random source and a start state to run
    the handlers on. *)
Definition exampleURL : URL := mkURL "https" "sonar.example.com" "/" "".

Definition noBody : ResponseBody := mkBody None None None None.

Definition exampleEntropy (n : nat) : string :=
  match n with
  | O => "6ba7b810-9dad-41d1-80b4-00c04fd430c8"
  | _ => "6ba7b811-9dad-41d1-80b4-00c04fd430c8"
  end.

(** A server that answers every request the same way. *)
Definition alwaysReply (resp : Response) : Client := fun _ _ => Replied resp.

(** A server that cannot be reached. *)
Definition unreachable : Client := fun _ _ => Failed "connection refused".

(** A server that accepts every POST and answers every GET with [body]. *)
Definition exampleServer (body : ResponseBody) : Client :=
  fun _ req =>
    if String.eqb (method req) "POST" then Replied (mkResponse 204 noBody)
    else Replied (mkResponse 200 body).

Definition exampleConf (client : Client) (edition : string) : ProviderConfiguration :=
  mkProviderConfiguration client exampleURL "10.4" edition.

Definition start {D} (d : D) : State D := mkState d [] exampleEntropy 0.

(** The special group with no template scope. *)
Definition projectCreator : PermissionsData :=
  mkPermissionsData "" "" "" "project_creator" "" "" "" ["admin"%string].

(** Bodies a server may answer with. *)
Definition usersBody : ResponseBody :=
  mkBody (Some (mkGetUser (mkPaging 1 100 2)
                  [mkUser "bob" ["admin"%string]; mkUser "Alice" ["scan"; "user"]%string]))
         None None None.

Definition templatesBody : ResponseBody :=
  mkBody None None
         (Some (mkGetPermissionTemplates (mkPaging 1 100 1)
                  [mkPermissionTemplate "AU-1" "Default"
                     [mkPermissionTemplatePermission "admin" true;
                      mkPermissionTemplatePermission "scan" false]]))
         None.

Definition bindingBody : ResponseBody :=
  mkBody None None None (Some (mkGetBinding "my-gitlab" "123" "gitlab" true)).

(** A binding of the project [proj1] to the repository [123]. *)
Definition exampleBinding (id : string) : BindingData :=
  mkBindingData id "my-gitlab" "false" "proj1" "123".

(** ** The endpoints of the permissions resource *)

(** The template scope is set, by id or by name. *)
Definition templateScoped (d : PermissionsData) : bool :=
  match GetOk (template_id d), GetOk (template_name d) with
  | None, None => false
  | _, _ => true
  end.

(** The API Create posts to, by principal and scope. *)
Definition createAPI (d : PermissionsData) : string :=
  match GetOk (login_name d), GetOk (group_name d) with
  | Some _, _ =>
      if templateScoped d then "/api/permissions/add_user_to_template"
      else "/api/permissions/add_user"
  | None, Some _ =>
      if templateScoped d then "/api/permissions/add_group_to_template"
      else "/api/permissions/add_group"
  | None, None => "/api/permissions/add_project_creator_to_template"
  end.

(** The API Delete posts to. *)
Definition deleteAPI (d : PermissionsData) : string :=
  match GetOk (login_name d), GetOk (group_name d) with
  | Some _, _ =>
      if templateScoped d then "/api/permissions/remove_user_from_template"
      else "/api/permissions/remove_user"
  | None, Some _ =>
      if templateScoped d then "/api/permissions/remove_group_from_template"
      else "/api/permissions/remove_group"
  | None, None => "/api/permissions/remove_project_creator_from_template"
  end.

(** The API Read gets its list from. *)
Definition readAPI (d : PermissionsData) : string :=
  match GetOk (login_name d), GetOk (group_name d) with
  | Some _, _ =>
      if templateScoped d then "/api/permissions/template_users"
      else "/api/permissions/users"
  | None, Some _ =>
      if templateScoped d then "/api/permissions/template_groups"
      else "/api/permissions/groups"
  | None, None => "/api/permissions/search_templates"
  end.

(** The parameter that names the template: the id when it is set, else the
    name when it is set. *)
Definition scopeParams (d : PermissionsData) (q : Values) : Values :=
  match GetOk (template_id d) with
  | Some templateID => Values_Add "templateId" templateID q
  | None =>
      match GetOk (template_name d) with
      | Some templateName => Values_Add "templateName" templateName q
      | None => q
      end
  end.

(** The parameter that names the principal: the login of the user, else the
    name of the group, else nothing (the project creator). *)
Definition principalParams (d : PermissionsData) (q : Values) : Values :=
  match GetOk (login_name d) with
  | Some _ => Values_Add "login" (login_name d) q
  | None =>
      match GetOk (group_name d) with
      | Some _ => Values_Add "groupName" (group_name d) q
      | None => q
      end
  end.

(** The parameters of a declaration, but for the permission value. *)
Definition baseParams (d : PermissionsData) : Values :=
  scopeParams d (principalParams d (addProjectKey d ∅)).

(** The POST of Create and the POST of Delete for one permission value. *)
Definition addRequest (m : ProviderConfiguration) (d : PermissionsData) (permission : string)
    : Request :=
  permissionRequest "resourceSonarqubePermissionsCreate"
    (apiPath (sonarQubeURL m) (createAPI d)) (baseParams d) permission.

Definition removeRequest (m : ProviderConfiguration) (d : PermissionsData) (permission : string)
    : Request :=
  permissionRequest "resourceSonarqubePermissionsDelete"
    (apiPath (sonarQubeURL m) (deleteAPI d)) (baseParams d) permission.

(** The parameters of Read: the page size, the project, and the template
    (for the project creator, the name of the template only). *)
Definition readParams (d : PermissionsData) : Values :=
  let q := addProjectKey d {[ "ps"%string := ["100"%string] ]} in
  match GetOk (login_name d), GetOk (group_name d) with
  | None, None =>
      match GetOk (template_name d) with
      | Some templateName => Values_Add "templateName" templateName q
      | None => q
      end
  | _, _ => scopeParams d q
  end.

(** The GET of Read. *)
Definition readRequest (m : ProviderConfiguration) (d : PermissionsData) : Request :=
  mkRequest "GET"
    (withRawQuery (apiPath (sonarQubeURL m) (readAPI d)) (Values_Encode (readParams d)))
    StatusOK "resourceSonarqubePermissionsRead".

(** What Read makes of the body of a successful response: the refreshed
    declaration, or the error it returns. *)
Definition readOutcome (d : PermissionsData) (body : ResponseBody) : error + PermissionsData :=
  match GetOk (login_name d), GetOk (group_name d) with
  | Some _, _ =>
      match decodeGetUser body with
      | None => inl readDecodeError
      | Some users =>
          match find (fun value => EqualFold (Login value) (login_name d)) (Users users) with
          | Some value => inr (refreshedUser value d)
          | None => inl (notFoundError (Id d))
          end
      end
  | None, Some _ =>
      match decodeGetGroupPermissions body with
      | None => inl readDecodeError
      | Some groups =>
          match find (fun value => EqualFold (GroupName value) (group_name d)) (Groups groups) with
          | Some value => inr (refreshedGroup value d)
          | None => inl (notFoundError (Id d))
          end
      end
  | None, None =>
      match decodeGetPermissionTemplates body with
      | None => inl readDecodeError
      | Some templates =>
          match find (fun value => EqualFold (TemplateID value) (template_id d)
                                   || EqualFold (TemplateName value) (template_name d))
                     (PermissionTemplates templates) with
          | Some value => inr (refreshedTemplate value d)
          | None => inl (notFoundError (Id d))
          end
      end
  end.

(** The state in which Create starts its read-back once the loop is
    through: the requests [l] issued, the identity drawn and stored. *)
Definition afterLoop (l : list Request) (st : State PermissionsData) : State PermissionsData :=
  mkState (SetId (entropy st (drawn st)) (data st)) (history st ++ l) (entropy st) (S (drawn st)).

(** The POST of Delete of the binding. *)
Definition bindingDeleteRequest (m : ProviderConfiguration) (d : BindingData) : Request :=
  mkRequest "POST"
    (withRawQuery (apiPath (sonarQubeURL m) "/api/alm_settings/delete_binding")
                  (Values_Encode {[ "project"%string := [project d] ]}))
    StatusNoContent "resourceSonarqubeGitlabBindingDelete".

(** The identity Create of the binding stores. *)
Definition bindingIdentity (d : BindingData) : string :=
  (project d +:+ "/" +:+ repository d)%string.

(** A request to the configured server, on an API of the given area. *)
Definition onServer (m : ProviderConfiguration) (area : string) (r : Request) : Prop :=
  Scheme (target r) = Scheme (sonarQubeURL m)
  /\ Host (target r) = Host (sonarQubeURL m)
  /\ exists api, HasPrefix api area = true
                 /\ Path (target r) = (TrimSuffix (Path (sonarQubeURL m)) "/" +:+ api)%string.

(** The configuration with another path in its base URL. *)
Definition withBasePath (m : ProviderConfiguration) (p : string) : ProviderConfiguration :=
  mkProviderConfiguration (httpClient m) (withPath (sonarQubeURL m) p)
    (sonarQubeVersion m) (sonarQubeEdition m).

(** A user the server of the examples does not know. *)
Definition carolDeclaration : PermissionsData :=
  mkPermissionsData "" "carol" "" "" "proj1" "" "" ["user"%string].

(** A provider configuration whose base URL has a path. *)
Definition subPathConf (client : Client) : ProviderConfiguration :=
  mkProviderConfiguration client (mkURL "https" "example.com" "/sonar" "") "10.4" "Developer".

(** * Properties *)

(** ** Case folding of ASCII strings *)



Lemma asciiEqualFold_asciiToLower (s t : string) :
  asciiEqualFold s t = String.eqb (asciiToLower s) (asciiToLower t).
Proof.
  revert t. induction s as [|a s IH]; intros [|b t]; simpl; try reflexivity.
  rewrite IH. reflexivity.
Qed.

Lemma asciiEqualFold_same_class (a b c : string) :
  asciiEqualFold a b = true -> asciiEqualFold c a = asciiEqualFold c b.
Proof.
  rewrite !asciiEqualFold_asciiToLower. intros E. apply String.eqb_eq in E. by rewrite E.
Qed.

Lemma asciiEqualFold_empty (b : string) : asciiEqualFold "" b = true -> b = ""%string.
Proof. by destruct b. Qed.

(** ** The codec *)

Lemma mapM_assertString (l : list string) : mapM assertString (IString <$> l) = Some l.
Proof. apply mapM_fmap_Some. intros s. reflexivity. Qed.

Lemma expand_fold (xs : list string) (acc : list string) :
  foldl (fun expandedPermissions permission =>
           l ← expandedPermissions; s ← assertString permission; Some (l ++ [s]))
        (Some acc) (IString <$> xs) = Some (acc ++ xs).
Proof.
  revert acc. induction xs as [|x xs IH]; intros acc.
  - simpl. by rewrite app_nil_r.
  - simpl. rewrite IH. by rewrite <- app_assoc.
Qed.

(** On a schema-typed declaration no type assertion of [expandPermissions]
    fails, and the result is the declared list. *)
Lemma expandPermissions_total (d : PermissionsData) :
  expandPermissions d = Some (permissions d).
Proof. unfold expandPermissions, Get_permissions. apply (expand_fold _ []). Qed.

Lemma flatten_fold (xs : list string) (acc : list iface) :
  foldl (fun flatPermissions permission => flatPermissions ++ [IString permission]) acc xs
  = acc ++ (IString <$> xs).
Proof.
  revert acc. induction xs as [|x xs IH]; intros acc; simpl.
  - by rewrite app_nil_r.
  - rewrite IH. by rewrite <- app_assoc.
Qed.

Lemma flattenPermissions_boxes (l : list string) :
  flattenPermissions (Some l) = IString <$> l.
Proof. unfold flattenPermissions. apply (flatten_fold l []). Qed.

Lemma flattenCreator_fold (xs : list PermissionTemplatePermission) (acc : list iface) :
  foldl (fun flatPermissions permission =>
           if WithProjectCreator permission
           then flatPermissions ++ [IString (Key permission)]
           else flatPermissions) acc xs
  = acc ++ ((fun p => IString (Key p)) <$> List.filter WithProjectCreator xs).
Proof.
  revert acc. induction xs as [|x xs IH]; intros acc; simpl.
  - by rewrite app_nil_r.
  - rewrite IH. destruct (WithProjectCreator x); simpl; [by rewrite <- app_assoc | done].
Qed.

Lemma flattenProjectCreatorPermissions_fmap (l : list PermissionTemplatePermission) :
  flattenProjectCreatorPermissions (Some l)
  = IString <$> (Key <$> List.filter WithProjectCreator l).
Proof.
  unfold flattenProjectCreatorPermissions. rewrite (flattenCreator_fold l []). simpl.
  by rewrite <- list_fmap_compose.
Qed.

Lemma Set_permissions_strings (l : list string) (d : PermissionsData) :
  Set_permissions (IString <$> l) d
  = mkPermissionsData (Id d) (login_name d) (group_name d) (special_group_name d)
      (project_key d) (template_id d) (template_name d) l.
Proof. unfold Set_permissions. by rewrite mapM_assertString. Qed.

(** C7. Flattening the project-creator permissions of a template keeps
    exactly the entries whose [withProjectCreator] flag is true, in the order
    received, and outputs their permission keys only: an entry is kept when
    its flag is set and dropped otherwise, so every output key comes from a
    flagged entry and every flagged entry contributes its key. *)
Theorem flattenProjectCreatorPermissions_keeps_flagged
    (l : list PermissionTemplatePermission) :
  flattenProjectCreatorPermissions (Some l)
  = (fun p => IString (Key p)) <$> List.filter WithProjectCreator l
  /\ flattenProjectCreatorPermissions None = []
  /\ (forall p rest, WithProjectCreator p = true ->
        flattenProjectCreatorPermissions (Some (p :: rest))
        = IString (Key p) :: flattenProjectCreatorPermissions (Some rest))
  /\ (forall p rest, WithProjectCreator p = false ->
        flattenProjectCreatorPermissions (Some (p :: rest))
        = flattenProjectCreatorPermissions (Some rest)).
Proof.
  assert (E : forall xs, flattenProjectCreatorPermissions (Some xs)
              = (fun p => IString (Key p)) <$> List.filter WithProjectCreator xs).
  { intros xs. unfold flattenProjectCreatorPermissions. apply (flattenCreator_fold xs []). }
  split; [apply E|]. split; [reflexivity|]. split.
  - intros p rest Hp. rewrite !E. simpl. by rewrite Hp.
  - intros p rest Hp. rewrite !E. simpl. by rewrite Hp.
Qed.

(** C10. Flattening a list of permission strings boxes the same strings in
    the same order, with no sorting and no removal of duplicates (the length
    and every position are kept), and expanding the declaration the
    flattened list was stored in gives the original list back. *)
Theorem expand_after_flatten_is_identity (l : list string) (d : PermissionsData) :
  flattenPermissions (Some l) = IString <$> l
  /\ length (flattenPermissions (Some l)) = length l
  /\ (forall i, flattenPermissions (Some l) !! i = IString <$> (l !! i))
  /\ expandPermissions (Set_permissions (flattenPermissions (Some l)) d) = Some l.
Proof.
  rewrite flattenPermissions_boxes. split; [reflexivity|]. split; [|split].
  - by rewrite length_fmap.
  - intros i. by rewrite list_lookup_fmap.
  - rewrite expandPermissions_total, Set_permissions_strings. reflexivity.
Qed.

(** ** Running a handler *)

Lemma issued_app {D} (st st' : State D) (l : list Request) :
  history st' = history st ++ l -> issued st st' = l.
Proof. unfold issued. intros ->. by rewrite drop_app_length. Qed.

Lemma issued_same {D} (st : State D) : issued st st = [].
Proof. apply issued_app. by rewrite app_nil_r. Qed.

Lemma GetOk_empty : GetOk "" = None.
Proof. reflexivity. Qed.

Lemma GetOk_set (v : string) : v <> ""%string -> GetOk v = Some v.
Proof. intros H. unfold GetOk. destruct v; [done | reflexivity]. Qed.

Lemma GetOk_cases (v : string) :
  (v = ""%string /\ GetOk v = None) \/ (v <> ""%string /\ GetOk v = Some v).
Proof. destruct v; [left | right]; split; (done || reflexivity). Qed.

(** ** Validation of the special group *)

Lemma create_without_template (m : ProviderConfiguration) (st : State PermissionsData) :
  login_name (data st) = ""%string ->
  group_name (data st) = ""%string ->
  template_id (data st) = ""%string ->
  template_name (data st) = ""%string ->
  resourceSonarqubePermissionsCreate m st = (Err createConfigError, st).
Proof.
  intros Hl Hg Hi Hn. unfold resourceSonarqubePermissionsCreate, bind, getData.
  rewrite expandPermissions_total, Hl, Hg, Hi, Hn. reflexivity.
Qed.

Lemma delete_without_template (m : ProviderConfiguration) (st : State PermissionsData) :
  login_name (data st) = ""%string ->
  group_name (data st) = ""%string ->
  template_id (data st) = ""%string ->
  template_name (data st) = ""%string ->
  resourceSonarqubePermissionsDelete m st = (Err deleteConfigError, st).
Proof.
  intros Hl Hg Hi Hn. unfold resourceSonarqubePermissionsDelete, bind, getData.
  rewrite expandPermissions_total, Hl, Hg, Hi, Hn. reflexivity.
Qed.

(** C1. A declaration that selects the special group (neither [login_name]
    nor [group_name] is set) and sets neither [template_id] nor
    [template_name] makes Create and Delete return the configuration error,
    with the state as it was: no HTTP request has been issued. *)
Theorem special_group_needs_template (m : ProviderConfiguration) (st : State PermissionsData) :
  login_name (data st) = ""%string ->
  group_name (data st) = ""%string ->
  template_id (data st) = ""%string ->
  template_name (data st) = ""%string ->
  resourceSonarqubePermissionsCreate m st = (Err createConfigError, st)
  /\ resourceSonarqubePermissionsDelete m st = (Err deleteConfigError, st)
  /\ issued st (snd (resourceSonarqubePermissionsCreate m st)) = []
  /\ issued st (snd (resourceSonarqubePermissionsDelete m st)) = [].
Proof.
  intros Hl Hg Hi Hn.
  rewrite (create_without_template m st Hl Hg Hi Hn), (delete_without_template m st Hl Hg Hi Hn).
  simpl. rewrite issued_same. done.
Qed.

(** ** Edition gating of the GitLab binding *)

Lemma check_community (conf : ProviderConfiguration) :
  ToLower (sonarQubeEdition conf) = "community"%string ->
  checkGitlabBindingSupport conf = Some (editionError conf).
Proof. intros H. unfold checkGitlabBindingSupport. by rewrite H. Qed.

Lemma check_other (conf : ProviderConfiguration) :
  ToLower (sonarQubeEdition conf) <> "community"%string ->
  checkGitlabBindingSupport conf = None.
Proof.
  intros H. unfold checkGitlabBindingSupport.
  destruct (String.eqb_spec (ToLower (sonarQubeEdition conf)) "community"); [done | reflexivity].
Qed.

(** C3. When the edition of the server, lower-cased, is ["community"],
    Create, Update, Read and Delete of the GitLab binding (and Import, which
    goes through Read) return the edition error with the state as it was: no
    HTTP request has been issued. *)
Theorem community_edition_blocks_binding (m : ProviderConfiguration) (st : State BindingData) :
  ToLower (sonarQubeEdition m) = "community"%string ->
  resourceSonarqubeGitlabBindingCreate m st = (Err (editionError m), st)
  /\ resourceSonarqubeGitlabBindingUpdate m st = (Err (editionError m), st)
  /\ resourceSonarqubeGitlabBindingRead m st = (Err (editionError m), st)
  /\ resourceSonarqubeGitlabBindingDelete m st = (Err (editionError m), st)
  /\ resourceSonarqubeGitlabBindingImport m st = (Err (editionError m), st)
  /\ issued st (snd (resourceSonarqubeGitlabBindingCreate m st)) = []
  /\ issued st (snd (resourceSonarqubeGitlabBindingUpdate m st)) = []
  /\ issued st (snd (resourceSonarqubeGitlabBindingRead m st)) = []
  /\ issued st (snd (resourceSonarqubeGitlabBindingDelete m st)) = [].
Proof.
  intros H.
  assert (R : resourceSonarqubeGitlabBindingRead m st = (Err (editionError m), st)).
  { unfold resourceSonarqubeGitlabBindingRead, bind, requireGitlabBindingSupport.
    by rewrite (check_community m H). }
  assert (C : resourceSonarqubeGitlabBindingCreate m st = (Err (editionError m), st)).
  { unfold resourceSonarqubeGitlabBindingCreate, bind, requireGitlabBindingSupport.
    by rewrite (check_community m H). }
  assert (D : resourceSonarqubeGitlabBindingDelete m st = (Err (editionError m), st)).
  { unfold resourceSonarqubeGitlabBindingDelete, bind, requireGitlabBindingSupport.
    by rewrite (check_community m H). }
  assert (I : resourceSonarqubeGitlabBindingImport m st = (Err (editionError m), st)).
  { unfold resourceSonarqubeGitlabBindingImport, bind. by rewrite R. }
  unfold resourceSonarqubeGitlabBindingUpdate. rewrite C, R, D. simpl.
  rewrite issued_same. repeat split; done.
Qed.

(** ** The loop over the permission values *)

Lemma pushRequests_nil {D} (st : State D) : pushRequests [] st = st.
Proof. destruct st. unfold pushRequests. simpl. by rewrite app_nil_r. Qed.

Lemma pushRequests_app {D} (l k : list Request) (st : State D) :
  pushRequests k (pushRequests l st) = pushRequests (l ++ k) st.
Proof. unfold pushRequests. simpl. by rewrite app_assoc. Qed.

Lemma issued_push {D} (l : list Request) (st : State D) : issued st (pushRequests l st) = l.
Proof. by apply issued_app. Qed.

Lemma httpRequestHelper_run {D} (client : Client) (method : string) (u : URL)
    (code : Z) (caller : string) (st : State D) :
  httpRequestHelper client method u code caller st
  = match reply client (history st) (mkRequest method u code caller) with
    | inl cause => (Err (TransportError caller cause), pushRequests [mkRequest method u code caller] st)
    | inr resp => (Ok resp, pushRequests [mkRequest method u code caller] st)
    end.
Proof.
  unfold httpRequestHelper, reply. simpl expectedStatus.
  destruct (client (history st) (mkRequest method u code caller)) as [detail|resp]; [reflexivity|].
  destruct (StatusCode resp =? code); reflexivity.
Qed.

Lemma Values_Del_Add_Del (k v : string) (q : Values) :
  Values_Del k (Values_Add k v (Values_Del k q)) = Values_Del k q.
Proof. unfold Values_Del, Values_Add. by rewrite delete_insert_eq, delete_delete_eq. Qed.

Lemma withRawQuery_twice (u : URL) (a b : string) :
  withRawQuery (withRawQuery u a) b = withRawQuery u b.
Proof. reflexivity. Qed.

(** The next round of the loop does not see the permission value or the
    encoded query the previous round left behind. *)
Lemma permissionLoop_restart {D} (m : ProviderConfiguration) (caller : string) (u : URL)
    (q : Values) (x p : string) (perms : list string) (st : State D) :
  permissionLoop m caller (withRawQuery u x)
    (Values_Add "permission" p (Values_Del "permission" q)) perms st
  = permissionLoop m caller u q perms st.
Proof.
  destruct perms as [|p' rest]; [reflexivity|].
  simpl. by rewrite Values_Del_Add_Del, withRawQuery_twice.
Qed.

Lemma permissionLoop_cons {D} (m : ProviderConfiguration) (caller : string) (u : URL)
    (q : Values) (p : string) (rest : list string) (st : State D) :
  permissionLoop m caller u q (p :: rest) st
  = match failure (httpClient m) (history st) (permissionRequest caller u q p) with
    | None => permissionLoop m caller u q rest (pushRequests [permissionRequest caller u q p] st)
    | Some cause =>
        (Err (permissionError caller cause), pushRequests [permissionRequest caller u q p] st)
    end.
Proof.
  simpl. unfold bind, onError, failure. rewrite httpRequestHelper_run.
  fold (permissionRequest caller u q p).
  destruct (reply (httpClient m) (history st) (permissionRequest caller u q p)) as [cause|resp];
    [reflexivity|].
  apply permissionLoop_restart.
Qed.

(** When every request succeeds the loop issues one request per value. *)
Lemma permissionLoop_accepted {D} (m : ProviderConfiguration) (caller : string) (u : URL)
    (q : Values) (perms : list string) (st : State D) :
  accepted (httpClient m) (history st) (permissionRequest caller u q <$> perms) = true ->
  permissionLoop m caller u q perms st
  = (Ok tt, pushRequests (permissionRequest caller u q <$> perms) st).
Proof.
  revert st. induction perms as [|p rest IH]; intros st Hacc.
  - simpl. by rewrite pushRequests_nil.
  - rewrite permissionLoop_cons. simpl in Hacc.
    destruct (failure (httpClient m) (history st) (permissionRequest caller u q p)); [done|].
    rewrite IH; [|exact Hacc]. by rewrite pushRequests_app.
Qed.

(** When the request for the value at position [k] is the first to fail, the
    loop stops there. *)
Lemma permissionLoop_rejected {D} (m : ProviderConfiguration) (caller : string) (u : URL)
    (q : Values) (perms : list string) (k : nat) (p : string) (cause : TransportCause)
    (st : State D) :
  perms !! k = Some p ->
  accepted (httpClient m) (history st) (permissionRequest caller u q <$> take k perms) = true ->
  failure (httpClient m) (history st ++ (permissionRequest caller u q <$> take k perms))
          (permissionRequest caller u q p) = Some cause ->
  permissionLoop m caller u q perms st
  = (Err (permissionError caller cause),
     pushRequests (permissionRequest caller u q <$> take (S k) perms) st).
Proof.
  revert st k. induction perms as [|x rest IH]; intros st k Hk Hacc Hfail; [done|].
  rewrite permissionLoop_cons. destruct k as [|k].
  - simpl in Hk. injection Hk as ->. simpl in Hfail. rewrite app_nil_r in Hfail.
    rewrite Hfail. reflexivity.
  - simpl in Hk, Hacc, Hfail.
    destruct (failure (httpClient m) (history st) (permissionRequest caller u q x)); [done|].
    rewrite (IH _ k Hk); [by rewrite pushRequests_app | exact Hacc |].
    simpl. rewrite <- app_assoc. exact Hfail.
Qed.

(** ** Create and Delete of the permissions resource *)

Ltac split_GetOk v :=
  let E := fresh "E" in
  let G := fresh "G" in
  destruct (GetOk_cases v) as [[E G]|[E G]]; rewrite G.

(** Unless the special group lacks its template, Create resolves an
    endpoint and a base query and runs the loop on them. *)
Lemma create_resolves (m : ProviderConfiguration) (st : State PermissionsData) :
  ~ lacksTemplateScope (data st) ->
  exists u q,
    resourceSonarqubePermissionsCreate m st
    = (_ <- permissionLoop m "resourceSonarqubePermissionsCreate" u q (permissions (data st)) ;;
       createEpilogue m) st.
Proof.
  intros Hscope. unfold resourceSonarqubePermissionsCreate, createEpilogue.
  unfold bind at 1 2 3. unfold getData. rewrite expandPermissions_total.
  unfold typeAssert, ret at 1.
  split_GetOk (login_name (data st)); [split_GetOk (group_name (data st))|];
    split_GetOk (template_id (data st)); try split_GetOk (template_name (data st));
    try (eexists _, _; reflexivity).
  exfalso. apply Hscope. by repeat split.
Qed.

Lemma delete_resolves (m : ProviderConfiguration) (st : State PermissionsData) :
  ~ lacksTemplateScope (data st) ->
  exists u q,
    resourceSonarqubePermissionsDelete m st
    = permissionLoop m "resourceSonarqubePermissionsDelete" u q (permissions (data st)) st.
Proof.
  intros Hscope. unfold resourceSonarqubePermissionsDelete.
  unfold bind at 1 2 3. unfold getData. rewrite expandPermissions_total.
  unfold typeAssert, ret at 1.
  split_GetOk (login_name (data st)); [split_GetOk (group_name (data st))|];
    split_GetOk (template_id (data st)); try split_GetOk (template_name (data st));
    try (eexists _, _; reflexivity).
  exfalso. apply Hscope. by repeat split.
Qed.

(** ** Read of the permissions resource *)

Ltac run_request :=
  cbv zeta; unfold bind, onError; rewrite httpRequestHelper_run;
  match goal with
  | |- context [reply ?c ?h ?r] =>
      exists r; split; [repeat split|];
      destruct (reply c h r) as [?cause|?resp]; [reflexivity|]
  end.

(** Read for a user: one GET, then the scan of the users for the first
    login that matches under case folding. *)
Lemma read_user (m : ProviderConfiguration) (st : State PermissionsData) :
  login_name (data st) <> ""%string ->
  exists g, isReadRequest g /\
    resourceSonarqubePermissionsRead m st
    = match reply (httpClient m) (history st) g with
      | inl cause => (Err (readError cause), pushRequests [g] st)
      | inr resp =>
          match decodeGetUser (Body resp) with
          | None => (Err readDecodeError, pushRequests [g] st)
          | Some users =>
              match find (fun value => EqualFold (Login value) (login_name (data st))) (Users users) with
              | Some value => (Ok tt, withData (refreshedUser value (data st)) (pushRequests [g] st))
              | None => (Err (notFoundError (Id (data st))), pushRequests [g] st)
              end
          end
      end.
Proof.
  intros Hset. unfold resourceSonarqubePermissionsRead.
  unfold bind at 1 2. unfold getData. rewrite (GetOk_set _ Hset).
  split_GetOk (template_id (data st)); [split_GetOk (template_name (data st))|];
    (run_request;
     unfold decodeOr; destruct (decodeGetUser (Body resp)) as [users|]; [|reflexivity];
     unfold ret at 1;
     destruct (find _ (Users users)) as [value|]; [|reflexivity];
     unfold modifyData, ret, withData, refreshedUser;
     rewrite flattenPermissions_boxes, Set_permissions_strings; reflexivity).
Qed.

(** Read for a group. *)
Lemma read_group (m : ProviderConfiguration) (st : State PermissionsData) :
  login_name (data st) = ""%string ->
  group_name (data st) <> ""%string ->
  exists g, isReadRequest g /\
    resourceSonarqubePermissionsRead m st
    = match reply (httpClient m) (history st) g with
      | inl cause => (Err (readError cause), pushRequests [g] st)
      | inr resp =>
          match decodeGetGroupPermissions (Body resp) with
          | None => (Err readDecodeError, pushRequests [g] st)
          | Some groups =>
              match find (fun value => EqualFold (GroupName value) (group_name (data st)))
                         (Groups groups) with
              | Some value => (Ok tt, withData (refreshedGroup value (data st)) (pushRequests [g] st))
              | None => (Err (notFoundError (Id (data st))), pushRequests [g] st)
              end
          end
      end.
Proof.
  intros Hlogin Hset. unfold resourceSonarqubePermissionsRead.
  unfold bind at 1 2. unfold getData. rewrite Hlogin, GetOk_empty, (GetOk_set _ Hset).
  split_GetOk (template_id (data st)); [split_GetOk (template_name (data st))|];
    (run_request;
     unfold decodeOr; destruct (decodeGetGroupPermissions (Body resp)) as [groups|]; [|reflexivity];
     unfold ret at 1;
     destruct (find _ (Groups groups)) as [value|]; [|reflexivity];
     unfold modifyData, ret, withData, refreshedGroup;
     rewrite flattenPermissions_boxes, Set_permissions_strings; reflexivity).
Qed.

(** Read for the project creator: the templates are scanned for the first
    one whose id or name matches under case folding. *)
Lemma read_special (m : ProviderConfiguration) (st : State PermissionsData) :
  login_name (data st) = ""%string ->
  group_name (data st) = ""%string ->
  exists g, isReadRequest g /\
    resourceSonarqubePermissionsRead m st
    = match reply (httpClient m) (history st) g with
      | inl cause => (Err (readError cause), pushRequests [g] st)
      | inr resp =>
          match decodeGetPermissionTemplates (Body resp) with
          | None => (Err readDecodeError, pushRequests [g] st)
          | Some templates =>
              match find (fun value => EqualFold (TemplateID value) (template_id (data st))
                                       || EqualFold (TemplateName value) (template_name (data st)))
                         (PermissionTemplates templates) with
              | Some value => (Ok tt, withData (refreshedTemplate value (data st)) (pushRequests [g] st))
              | None => (Err (notFoundError (Id (data st))), pushRequests [g] st)
              end
          end
      end.
Proof.
  intros Hlogin Hgroup. unfold resourceSonarqubePermissionsRead.
  unfold bind at 1 2. unfold getData. rewrite Hlogin, Hgroup, GetOk_empty.
  split_GetOk (template_name (data st));
    (run_request;
     unfold decodeOr; destruct (decodeGetPermissionTemplates (Body resp)) as [templates|];
       [|reflexivity];
     unfold ret at 1;
     destruct (find _ (PermissionTemplates templates)) as [value|]; [|reflexivity];
     unfold modifyData, ret, withData, refreshedTemplate;
     rewrite flattenProjectCreatorPermissions_fmap, Set_permissions_strings; reflexivity).
Qed.

Lemma lacksTemplateScope_dec (d : PermissionsData) :
  lacksTemplateScope d \/ ~ lacksTemplateScope d.
Proof.
  unfold lacksTemplateScope.
  destruct (decide (login_name d = ""%string)); [|right; tauto].
  destruct (decide (group_name d = ""%string)); [|right; tauto].
  destruct (decide (template_id d = ""%string)); [|right; tauto].
  destruct (decide (template_name d = ""%string)); [left|right]; tauto.
Qed.

(** Read issues one GET whatever it finds, never panics, and leaves the
    identity and the random source alone. *)
Lemma read_frame (m : ProviderConfiguration) (st : State PermissionsData) :
  exists g r d,
    isReadRequest g
    /\ resourceSonarqubePermissionsRead m st = (r, withData d (pushRequests [g] st))
    /\ Id d = Id (data st)
    /\ (forall p, r <> Panic p).
Proof.
  destruct (decide (login_name (data st) = ""%string)) as [Hl|Hl];
    [destruct (decide (group_name (data st) = ""%string)) as [Hg|Hg]|].
  - destruct (read_special m st Hl Hg) as (g & Hg' & ->). exists g.
    destruct (reply (httpClient m) (history st) g) as [cause|resp];
      [|destruct (decodeGetPermissionTemplates (Body resp)) as [templates|];
        [destruct (find _ (PermissionTemplates templates)) as [value|]|]];
      (eexists _, _; split; [exact Hg'|]; split; [reflexivity|]; split; [reflexivity|done]).
  - destruct (read_group m st Hl Hg) as (g & Hg' & ->). exists g.
    destruct (reply (httpClient m) (history st) g) as [cause|resp];
      [|destruct (decodeGetGroupPermissions (Body resp)) as [groups|];
        [destruct (find _ (Groups groups)) as [value|]|]];
      (eexists _, _; split; [exact Hg'|]; split; [reflexivity|]; split; [reflexivity|done]).
  - destruct (read_user m st Hl) as (g & Hg' & ->). exists g.
    destruct (reply (httpClient m) (history st) g) as [cause|resp];
      [|destruct (decodeGetUser (Body resp)) as [users|];
        [destruct (find _ (Users users)) as [value|]|]];
      (eexists _, _; split; [exact Hg'|]; split; [reflexivity|]; split; [reflexivity|done]).
Qed.

(** The loop only adds to the history, and it ends with an error or with
    success once it went through all the values. *)
Lemma permissionLoop_frame {D} (m : ProviderConfiguration) (caller : string) (u : URL)
    (q : Values) (perms : list string) (st : State D) :
  exists k,
    (k <= length perms)%nat
    /\ snd (permissionLoop m caller u q perms st)
       = pushRequests (permissionRequest caller u q <$> take k perms) st
    /\ (forall p, fst (permissionLoop m caller u q perms st) <> Panic p)
    /\ (fst (permissionLoop m caller u q perms st) = Ok tt -> k = length perms).
Proof.
  revert st. induction perms as [|p rest IH]; intros st.
  - exists O. simpl. rewrite pushRequests_nil. repeat split; done.
  - rewrite permissionLoop_cons.
    destruct (failure (httpClient m) (history st) (permissionRequest caller u q p)) as [cause|].
    + exists 1%nat. simpl. repeat split; [lia|done|done].
    + destruct (IH (pushRequests [permissionRequest caller u q p] st)) as (k & Hk & Hs & Hp & Hok).
      exists (S k). rewrite Hs, pushRequests_app. simpl.
      repeat split; [lia|exact Hp|]. intros H. by rewrite (Hok H).
Qed.

(** C2 (amended). Unless the declaration is the special group without a
    template, Create and Delete resolve an endpoint and issue, in the order
    of the declared list, one POST per permission value that expects 204.
    When they all succeed Delete returns and Create goes on to its read-back
    (one GET); when the request for the value at position [k] is the first
    to fail, the handler returns the error at once, having issued the
    requests for the values up to position [k] and nothing else: no request
    for a later value and no request that would undo an earlier one. *)
Theorem one_request_per_permission_value (m : ProviderConfiguration) (st : State PermissionsData) :
  ~ lacksTemplateScope (data st) ->
  exists uc qc ud qd,
    let perms := permissions (data st) in
    let adds := permissionRequest "resourceSonarqubePermissionsCreate" uc qc in
    let removes := permissionRequest "resourceSonarqubePermissionsDelete" ud qd in
    (forall p, method (adds p) = "POST"%string /\ expectedStatus (adds p) = StatusNoContent
               /\ method (removes p) = "POST"%string /\ expectedStatus (removes p) = StatusNoContent)
    /\ (accepted (httpClient m) (history st) (adds <$> perms) = true ->
        exists g, isReadRequest g
          /\ issued st (snd (resourceSonarqubePermissionsCreate m st)) = (adds <$> perms) ++ [g])
    /\ (accepted (httpClient m) (history st) (removes <$> perms) = true ->
        resourceSonarqubePermissionsDelete m st = (Ok tt, pushRequests (removes <$> perms) st))
    /\ (forall k p cause,
          perms !! k = Some p ->
          accepted (httpClient m) (history st) (adds <$> take k perms) = true ->
          failure (httpClient m) (history st ++ (adds <$> take k perms)) (adds p) = Some cause ->
          resourceSonarqubePermissionsCreate m st
          = (Err (permissionError "resourceSonarqubePermissionsCreate" cause),
             pushRequests (adds <$> take (S k) perms) st))
    /\ (forall k p cause,
          perms !! k = Some p ->
          accepted (httpClient m) (history st) (removes <$> take k perms) = true ->
          failure (httpClient m) (history st ++ (removes <$> take k perms)) (removes p) = Some cause ->
          resourceSonarqubePermissionsDelete m st
          = (Err (permissionError "resourceSonarqubePermissionsDelete" cause),
             pushRequests (removes <$> take (S k) perms) st)).
Proof.
  intros Hscope.
  destruct (create_resolves m st Hscope) as (uc & qc & HC).
  destruct (delete_resolves m st Hscope) as (ud & qd & HD).
  exists uc, qc, ud, qd. cbv zeta.
  split; [intros p; repeat split|]. split; [|split; [|split]].
  - intros Hacc. rewrite HC. unfold bind at 1.
    rewrite (permissionLoop_accepted _ _ _ _ _ _ Hacc).
    unfold createEpilogue, bind, NewV4String, modifyData.
    match goal with
    | |- context [resourceSonarqubePermissionsRead m ?s] =>
        destruct (read_frame m s) as (g & r & d & Hg & -> & _ & _)
    end.
    exists g. split; [exact Hg|]. apply issued_app. simpl. by rewrite app_assoc.
  - intros Hacc. rewrite HD. by apply permissionLoop_accepted.
  - intros k p cause Hk Hacc Hfail. rewrite HC. unfold bind at 1.
    by rewrite (permissionLoop_rejected _ _ _ _ _ _ _ _ _ Hk Hacc Hfail).
  - intros k p cause Hk Hacc Hfail. rewrite HD.
    exact (permissionLoop_rejected _ _ _ _ _ _ _ _ _ Hk Hacc Hfail).
Qed.

(** ** Identity strings *)

Lemma create_identity (m : ProviderConfiguration) (st : State PermissionsData) :
  fst (resourceSonarqubePermissionsCreate m st) = Ok tt ->
  Id (data (snd (resourceSonarqubePermissionsCreate m st))) = entropy st (drawn st)
  /\ drawn (snd (resourceSonarqubePermissionsCreate m st)) = S (drawn st).
Proof.
  destruct (lacksTemplateScope_dec (data st)) as [(Hl & Hg & Hi & Hn)|Hscope].
  { by rewrite (create_without_template m st Hl Hg Hi Hn). }
  destruct (create_resolves m st Hscope) as (u & q & ->). unfold bind.
  destruct (permissionLoop_frame m "resourceSonarqubePermissionsCreate" u q
              (permissions (data st)) st) as (k & _ & Hs & _ & _).
  destruct (permissionLoop _ _ _ _ _ st) as [[[]|e|p] st']; simpl in Hs; subst st'; [|done|done].
  unfold createEpilogue, bind, NewV4String, modifyData.
  match goal with
  | |- context [resourceSonarqubePermissionsRead m ?s] =>
      destruct (read_frame m s) as (g & r & d & Hg & -> & Hid & _)
  end.
  intros _. simpl. split; [rewrite Hid; reflexivity | reflexivity].
Qed.

(** ** Read of the GitLab binding *)

Lemma SplitN_two (s sep : string) :
  SplitN s sep 2
  = match Index s sep with
    | None => [s]
    | Some i => [takeBytes i s; dropBytes (i + String.length sep) s]
    end.
Proof. unfold SplitN. simpl. destruct (Index s sep); reflexivity. Qed.

Lemma SplitN_no_separator (s sep : string) :
  Contains s sep = false -> SplitN s sep 2 = [s].
Proof. unfold Contains. rewrite SplitN_two. destruct (Index s sep); [done | reflexivity]. Qed.

Lemma SplitN_first (s sep : string) : exists x rest, SplitN s sep 2 = x :: rest.
Proof. rewrite SplitN_two. destruct (Index s sep); eauto. Qed.

(** Read of the binding on a server that is not a Community edition, step
    by step. *)
Lemma binding_read_run (m : ProviderConfiguration) (st : State BindingData)
    (id0 : string) (rest : list string) :
  checkGitlabBindingSupport m = None ->
  SplitN (BindingId (data st)) "/" 2 = id0 :: rest ->
  resourceSonarqubeGitlabBindingRead m st
  = let g := bindingReadRequest m id0 in
    match reply (httpClient m) (history st) g with
    | inl cause => (Err (TransportError "resourceSonarqubeGitlabBindingRead" cause), pushRequests [g] st)
    | inr resp =>
        match decodeGetBinding (Body resp) with
        | None => (Err bindingDecodeError, pushRequests [g] st)
        | Some b =>
            match rest with
            | [] => (Panic (IndexOutOfRange 1 1), pushRequests [g] st)
            | id1 :: _ =>
                if String.eqb id1 (Repository b) && String.eqb (Alm b) "gitlab"
                then (Ok tt,
                      withData (mkBindingData (BindingId (data st)) (BindingKey b)
                                  (FormatBool (Monorepo b)) id0 id1)
                               (pushRequests [g] st))
                else (Err (bindingNotFoundError (BindingId (data st))), pushRequests [g] st)
            end
        end
    end.
Proof.
  intros Hcheck Hsplit. unfold resourceSonarqubeGitlabBindingRead, requireGitlabBindingSupport.
  rewrite Hcheck. unfold bind, ret, getData. cbv beta iota zeta. rewrite Hsplit.
  unfold index, ret.
  change ((id0 :: rest) !! 0%nat) with (Some id0).
  change ((id0 :: rest) !! 1%nat) with (rest !! 0%nat). cbv beta iota.
  rewrite httpRequestHelper_run. fold (bindingReadRequest m id0).
  destruct (reply (httpClient m) (history st) (bindingReadRequest m id0)) as [cause|resp];
    [reflexivity|].
  unfold decodeOr. destruct (decodeGetBinding (Body resp)) as [b|]; [|reflexivity].
  unfold ret. destruct rest as [|id1 rest']; [reflexivity|].
  change ((id1 :: rest') !! 0%nat) with (Some id1). cbv beta iota.
  destruct (String.eqb id1 (Repository b) && String.eqb (Alm b) "gitlab"); reflexivity.
Qed.

Lemma reply_replied (client : Client) (hist : list Request) (g : Request) (resp : Response) :
  client hist g = Replied resp ->
  StatusCode resp = expectedStatus g ->
  reply client hist g = inr resp.
Proof. intros H1 H2. unfold reply. rewrite H1, H2. by rewrite Z.eqb_refl. Qed.

Lemma reply_failed (client : Client) (hist : list Request) (g : Request) (detail : string) :
  client hist g = Failed detail ->
  reply client hist g = inl (NetworkFailure detail).
Proof. intros H. unfold reply. by rewrite H. Qed.

Lemma reply_unexpected (client : Client) (hist : list Request) (g : Request) (resp : Response) :
  client hist g = Replied resp ->
  StatusCode resp <> expectedStatus g ->
  reply client hist g = inl (UnexpectedStatus (StatusCode resp) (expectedStatus g)).
Proof.
  intros H1 H2. unfold reply. rewrite H1.
  destruct (Z.eqb_spec (StatusCode resp) (expectedStatus g)); [done | reflexivity].
Qed.

(** Create of the binding on a server that is not a Community edition. *)
Lemma binding_create_run (m : ProviderConfiguration) (st : State BindingData) :
  checkGitlabBindingSupport m = None ->
  resourceSonarqubeGitlabBindingCreate m st
  = let g := bindingCreateRequest m (data st) in
    match reply (httpClient m) (history st) g with
    | inl cause => (Err (TransportError "resourceSonarqubeGitlabBindingCreate" cause), pushRequests [g] st)
    | inr _ =>
        resourceSonarqubeGitlabBindingRead m
          (withData (SetBindingId (project (data st) +:+ "/" +:+ repository (data st)) (data st))
                    (pushRequests [g] st))
    end.
Proof.
  intros Hcheck. unfold resourceSonarqubeGitlabBindingCreate, requireGitlabBindingSupport.
  rewrite Hcheck. unfold bind, ret, getData. cbv beta iota zeta.
  rewrite httpRequestHelper_run. fold (bindingCreateRequest m (data st)).
  destruct (reply (httpClient m) (history st) (bindingCreateRequest m (data st))); reflexivity.
Qed.

Lemma check_cases (m : ProviderConfiguration) :
  checkGitlabBindingSupport m = None \/ checkGitlabBindingSupport m = Some (editionError m).
Proof.
  unfold checkGitlabBindingSupport, editionError.
  destruct (String.eqb (ToLower (sonarQubeEdition m)) "community"); auto.
Qed.

(** Read of the binding never touches the identity. *)
Lemma binding_read_identity (m : ProviderConfiguration) (st : State BindingData) :
  BindingId (data (snd (resourceSonarqubeGitlabBindingRead m st))) = BindingId (data st).
Proof.
  destruct (check_cases m) as [Hc|Hc].
  - destruct (SplitN_first (BindingId (data st)) "/") as (id0 & rest & Hs).
    rewrite (binding_read_run m st id0 rest Hc Hs). cbv zeta.
    destruct (reply _ _ _) as [cause|resp]; [reflexivity|].
    destruct (decodeGetBinding (Body resp)) as [b|]; [|reflexivity].
    destruct rest as [|id1 rest']; [reflexivity|].
    destruct (String.eqb id1 (Repository b) && String.eqb (Alm b) "gitlab"); reflexivity.
  - unfold resourceSonarqubeGitlabBindingRead, requireGitlabBindingSupport, bind.
    by rewrite Hc.
Qed.

(** C8. When Create of the permissions resource succeeds, the stored
    identity is the UUID string it has just drawn from the random source
    (which moves on by one); when Create of the GitLab binding succeeds, the
    stored identity is the declared project key, a slash, and the declared
    repository. *)
Theorem identity_after_create (m : ProviderConfiguration) (st : State PermissionsData)
    (mb : ProviderConfiguration) (stb : State BindingData) :
  fst (resourceSonarqubePermissionsCreate m st) = Ok tt ->
  fst (resourceSonarqubeGitlabBindingCreate mb stb) = Ok tt ->
  Id (data (snd (resourceSonarqubePermissionsCreate m st))) = entropy st (drawn st)
  /\ drawn (snd (resourceSonarqubePermissionsCreate m st)) = S (drawn st)
  /\ BindingId (data (snd (resourceSonarqubeGitlabBindingCreate mb stb)))
     = (project (data stb) +:+ "/" +:+ repository (data stb))%string.
Proof.
  intros HP HB. destruct (create_identity m st HP) as [H1 H2].
  split; [exact H1|]. split; [exact H2|].
  destruct (check_cases mb) as [Hc|Hc].
  - rewrite (binding_create_run mb stb Hc) in *. cbv zeta in *.
    destruct (reply _ _ _) as [cause|resp]; [done|].
    by rewrite binding_read_identity.
  - unfold resourceSonarqubeGitlabBindingCreate, requireGitlabBindingSupport, bind in HB.
    by rewrite Hc in HB.
Qed.

(** ** An identity without a slash *)

(** With an identity without a slash, Read still returns an error when the
    request fails or when the body does not decode: the index 1 comes
    later. *)
Lemma identity_without_slash_error_paths (m : ProviderConfiguration) (st : State BindingData) :
  Contains (BindingId (data st)) "/" = false ->
  ToLower (sonarQubeEdition m) <> "community"%string ->
  let g := bindingReadRequest m (BindingId (data st)) in
  (forall detail,
     httpClient m (history st) g = Failed detail ->
     fst (resourceSonarqubeGitlabBindingRead m st)
     = Err (TransportError "resourceSonarqubeGitlabBindingRead" (NetworkFailure detail)))
  /\ (forall resp,
        httpClient m (history st) g = Replied resp ->
        StatusCode resp <> StatusOK ->
        fst (resourceSonarqubeGitlabBindingRead m st)
        = Err (TransportError "resourceSonarqubeGitlabBindingRead"
                 (UnexpectedStatus (StatusCode resp) StatusOK)))
  /\ (forall resp,
        httpClient m (history st) g = Replied resp ->
        StatusCode resp = StatusOK ->
        decodeGetBinding (Body resp) = None ->
        fst (resourceSonarqubeGitlabBindingRead m st) = Err bindingDecodeError).
Proof.
  intros Hno Hed g.
  pose proof (binding_read_run m st _ [] (check_other m Hed) (SplitN_no_separator _ _ Hno)) as R.
  cbv zeta in R. fold g in R. rewrite R. split; [|split].
  - intros detail H. by rewrite (reply_failed _ _ _ _ H).
  - intros resp H Hs. by rewrite (reply_unexpected _ _ _ _ H Hs).
  - intros resp H Hs Hd. by rewrite (reply_replied _ _ _ _ H Hs), Hd.
Qed.

(** C9 (amended). When the identity contains no slash, the edition is not
    Community, and the GET of the binding is answered with status 200 and a
    body that decodes, Read has split the identity into a single piece and
    panics on the index 1, after its request; Import, which goes through
    Read, panics with it. *)
Theorem identity_without_slash_panics (m : ProviderConfiguration) (st : State BindingData)
    (resp : Response) (b : GetBinding) :
  Contains (BindingId (data st)) "/" = false ->
  ToLower (sonarQubeEdition m) <> "community"%string ->
  httpClient m (history st) (bindingReadRequest m (BindingId (data st))) = Replied resp ->
  StatusCode resp = StatusOK ->
  decodeGetBinding (Body resp) = Some b ->
  SplitN (BindingId (data st)) "/" 2 = [BindingId (data st)]
  /\ resourceSonarqubeGitlabBindingRead m st
     = (Panic (IndexOutOfRange 1 1),
        pushRequests [bindingReadRequest m (BindingId (data st))] st)
  /\ resourceSonarqubeGitlabBindingImport m st
     = (Panic (IndexOutOfRange 1 1),
        pushRequests [bindingReadRequest m (BindingId (data st))] st).
Proof.
  intros Hno Hed Hresp Hstatus Hdec.
  pose proof (SplitN_no_separator _ _ Hno) as Hs.
  assert (R : resourceSonarqubeGitlabBindingRead m st
              = (Panic (IndexOutOfRange 1 1),
                 pushRequests [bindingReadRequest m (BindingId (data st))] st)).
  { rewrite (binding_read_run m st _ [] (check_other m Hed) Hs). cbv zeta.
    rewrite (reply_replied _ _ _ _ Hresp Hstatus), Hdec. reflexivity. }
  split; [exact Hs|]. split; [exact R|].
  unfold resourceSonarqubeGitlabBindingImport, bind. by rewrite R.
Qed.

(** ** The scenario of the user alice *)

(** Create for a user with a direct (global or project) permission. *)
Lemma create_user_direct (m : ProviderConfiguration) (st : State PermissionsData) :
  login_name (data st) <> ""%string ->
  template_id (data st) = ""%string ->
  template_name (data st) = ""%string ->
  resourceSonarqubePermissionsCreate m st
  = (_ <- permissionLoop m "resourceSonarqubePermissionsCreate"
            (apiPath (sonarQubeURL m) "/api/permissions/add_user")
            (Values_Add "login" (login_name (data st)) (addProjectKey (data st) ∅))
            (permissions (data st)) ;;
     createEpilogue m) st.
Proof.
  intros Hl Hi Hn. unfold resourceSonarqubePermissionsCreate, createEpilogue.
  unfold bind at 1 2 3. unfold getData. rewrite expandPermissions_total.
  unfold typeAssert, ret at 1. rewrite (GetOk_set _ Hl), Hi, Hn, GetOk_empty. reflexivity.
Qed.

(** Read for a user with a direct permission. *)
Lemma read_user_direct (m : ProviderConfiguration) (st : State PermissionsData)
    (resp : Response) (users : GetUser) (value : User) :
  let g := mkRequest "GET"
             (withRawQuery (apiPath (sonarQubeURL m) "/api/permissions/users")
                (Values_Encode (addProjectKey (data st) {[ "ps"%string := ["100"%string] ]})))
             StatusOK "resourceSonarqubePermissionsRead" in
  login_name (data st) <> ""%string ->
  template_id (data st) = ""%string ->
  template_name (data st) = ""%string ->
  reply (httpClient m) (history st) g = inr resp ->
  decodeGetUser (Body resp) = Some users ->
  find (fun v => EqualFold (Login v) (login_name (data st))) (Users users) = Some value ->
  resourceSonarqubePermissionsRead m st
  = (Ok tt, withData (refreshedUser value (data st)) (pushRequests [g] st)).
Proof.
  intros g Hl Hi Hn Hr Hd Hf. unfold resourceSonarqubePermissionsRead.
  unfold bind at 1 2. unfold getData. rewrite (GetOk_set _ Hl), Hi, Hn, GetOk_empty.
  cbv zeta. unfold bind, onError. rewrite httpRequestHelper_run. fold g. rewrite Hr.
  unfold decodeOr. rewrite Hd. unfold ret at 1. rewrite Hf.
  unfold modifyData, ret, withData, refreshedUser.
  rewrite flattenPermissions_boxes, Set_permissions_strings. reflexivity.
Qed.

Lemma alice_add_request (base : URL) (permission query : string) :
  Values_Encode (Values_Add "permission" permission (Values_Del "permission"
     (Values_Add "login" "alice" (Values_Add "projectKey" "proj1" ∅)))) = query ->
  permissionRequest "resourceSonarqubePermissionsCreate"
    (apiPath base "/api/permissions/add_user")
    (Values_Add "login" "alice" (Values_Add "projectKey" "proj1" ∅)) permission
  = aliceAdd base query.
Proof. intros <-. reflexivity. Qed.

Lemma alice_query_user :
  Values_Encode (Values_Add "permission" "user" (Values_Del "permission"
     (Values_Add "login" "alice" (Values_Add "projectKey" "proj1" ∅))))
  = "login=alice&permission=user&projectKey=proj1"%string.
Proof. vm_compute. reflexivity. Qed.

Lemma alice_query_scan :
  Values_Encode (Values_Add "permission" "scan" (Values_Del "permission"
     (Values_Add "login" "alice" (Values_Add "projectKey" "proj1" ∅))))
  = "login=alice&permission=scan&projectKey=proj1"%string.
Proof. vm_compute. reflexivity. Qed.

Lemma alice_query_read :
  Values_Encode (Values_Add "projectKey" "proj1" {[ "ps"%string := ["100"%string] ]})
  = "projectKey=proj1&ps=100"%string.
Proof. vm_compute. reflexivity. Qed.

(** C5. For the declaration of alice with the permissions [user] and
    [scan] on the project [proj1], on a server that answers as expected:
    Create issues the two POSTs to [/api/permissions/add_user] with the
    queries [login=alice&permission=user&projectKey=proj1] and
    [login=alice&permission=scan&projectKey=proj1], each expecting 204, then
    its Read issues the one GET to
    [/api/permissions/users?projectKey=proj1&ps=100], finds the first entry
    whose login equals [alice] under case folding, and stores that entry's
    login and permission list in the declaration. *)
Theorem alice_scenario (client : Client) (base : URL) (version edition : string)
    (hist : list Request) (ent : nat -> string) (n : nat) (id : string)
    (b1 b2 b3 : ResponseBody) (users : GetUser) (value : User) :
  client hist (aliceAdd base "login=alice&permission=user&projectKey=proj1")
  = Replied (mkResponse 204 b1) ->
  client (hist ++ [aliceAdd base "login=alice&permission=user&projectKey=proj1"])
         (aliceAdd base "login=alice&permission=scan&projectKey=proj1")
  = Replied (mkResponse 204 b2) ->
  client (hist ++ [aliceAdd base "login=alice&permission=user&projectKey=proj1";
                   aliceAdd base "login=alice&permission=scan&projectKey=proj1"])
         (aliceGet base)
  = Replied (mkResponse 200 b3) ->
  decodeGetUser b3 = Some users ->
  find (fun v => EqualFold (Login v) "alice") (Users users) = Some value ->
  resourceSonarqubePermissionsCreate (mkProviderConfiguration client base version edition)
    (mkState (aliceDeclaration id) hist ent n)
  = (Ok tt,
     mkState (mkPermissionsData (ent n) (Login value) "" "" "proj1" "" "" (UserPermissions value))
             (hist ++ [aliceAdd base "login=alice&permission=user&projectKey=proj1";
                       aliceAdd base "login=alice&permission=scan&projectKey=proj1";
                       aliceGet base])
             ent (S n)).
Proof.
  intros H1 H2 H3 H4 H5.
  set (add1 := aliceAdd base "login=alice&permission=user&projectKey=proj1") in *.
  set (add2 := aliceAdd base "login=alice&permission=scan&projectKey=proj1") in *.
  unfold aliceDeclaration.
  rewrite create_user_direct; [|done|reflexivity|reflexivity].
  unfold bind at 1. cbn [data history httpClient sonarQubeURL login_name permissions].
  change (addProjectKey _ ∅) with (Values_Add "projectKey" "proj1" (∅ : Values)).
  assert (E : permissionRequest "resourceSonarqubePermissionsCreate"
                (apiPath base "/api/permissions/add_user")
                (Values_Add "login" "alice" (Values_Add "projectKey" "proj1" ∅))
              <$> ["user"; "scan"]%string = [add1; add2]).
  { cbn [fmap list_fmap].
    by rewrite (alice_add_request base "user" _ alice_query_user),
      (alice_add_request base "scan" _ alice_query_scan). }
  rewrite permissionLoop_accepted; rewrite E.
  2:{ cbn [history httpClient accepted]. unfold failure.
      rewrite (reply_replied client hist add1 _ H1 eq_refl).
      rewrite (reply_replied client (hist ++ [add1]) add2 _ H2 eq_refl). reflexivity. }
  unfold createEpilogue, bind, NewV4String, modifyData.
  cbn [data history entropy drawn pushRequests].
  rewrite (read_user_direct _ _ (mkResponse 200 b3) users value);
    [| done | reflexivity | reflexivity | | exact H4 | exact H5].
  - unfold withData, pushRequests, refreshedUser.
    cbn [data history entropy drawn sonarQubeURL Id login_name group_name special_group_name
         project_key template_id template_name permissions SetId aliceDeclaration].
    change (addProjectKey _ _)
      with (Values_Add "projectKey" "proj1" ({[ "ps"%string := ["100"%string] ]} : Values)).
    rewrite alice_query_read, <- app_assoc. reflexivity.
  - unfold pushRequests. cbn [data history httpClient sonarQubeURL].
    change (addProjectKey _ _)
      with (Values_Add "projectKey" "proj1" ({[ "ps"%string := ["100"%string] ]} : Values)).
    rewrite alice_query_read.
    apply (reply_replied client _ _ (mkResponse 200 b3)); [|reflexivity].
    exact H3.
Qed.

(** ** Matching a record *)


Lemma find_no_match {A} (f : A -> bool) (l : list A) :
  Forall (fun v => f v = false) l -> find f l = None.
Proof. induction 1 as [|v l Hv _ IH]; simpl; [done | by rewrite Hv]. Qed.

Lemma answers_reply {D} (m : ProviderConfiguration) (st : State D) (resp : Response) (g : Request) :
  answers m st resp -> StatusCode resp = expectedStatus g ->
  reply (httpClient m) (history st) g = inr resp.
Proof. intros H Hs. by apply reply_replied. Qed.






(** ** A record that is not there *)

Lemma read_not_found (m : ProviderConfiguration) (st : State PermissionsData) (resp : Response) :
  answers m st resp -> StatusCode resp = StatusOK ->
  noMatchingRecord (data st) (Body resp) ->
  exists g, isReadRequest g
    /\ resourceSonarqubePermissionsRead m st
       = (Err (notFoundError (Id (data st))), pushRequests [g] st).
Proof.
  intros Ha Hs Hno. unfold noMatchingRecord in Hno.
  destruct (GetOk_cases (login_name (data st))) as [[Hl Gl]|[Hl Gl]]; rewrite Gl in Hno;
    [destruct (GetOk_cases (group_name (data st))) as [[Hg Gg]|[Hg Gg]]; rewrite Gg in Hno|].
  - destruct Hno as (templates & Hd & Hall).
    destruct (read_special m st Hl Hg) as (g & Hg' & ->). exists g. split; [exact Hg'|].
    destruct Hg' as (_ & Hcode & _).
    rewrite (answers_reply m st resp g Ha), Hd, (find_no_match _ _ Hall); [done|congruence].
  - destruct Hno as (groups & Hd & Hall).
    destruct (read_group m st Hl Hg) as (g & Hg' & ->). exists g. split; [exact Hg'|].
    destruct Hg' as (_ & Hcode & _).
    rewrite (answers_reply m st resp g Ha), Hd, (find_no_match _ _ Hall); [done|congruence].
  - destruct Hno as (users & Hd & Hall).
    destruct (read_user m st Hl) as (g & Hg' & ->). exists g. split; [exact Hg'|].
    destruct Hg' as (_ & Hcode & _).
    rewrite (answers_reply m st resp g Ha), Hd, (find_no_match _ _ Hall); [done|congruence].
Qed.

Lemma binding_read_not_found (m : ProviderConfiguration) (st : State BindingData)
    (resp : Response) :
  answers m st resp -> StatusCode resp = StatusOK ->
  ToLower (sonarQubeEdition m) <> "community"%string ->
  noMatchingBinding (data st) (Body resp) ->
  fst (resourceSonarqubeGitlabBindingRead m st)
  = Err (bindingNotFoundError (BindingId (data st))).
Proof.
  intros Ha Hs Hed (p & r & b & Hsplit & Hd & Hne).
  rewrite (binding_read_run m st p [r] (check_other m Hed) Hsplit). cbv zeta.
  rewrite (answers_reply m st resp (bindingReadRequest m p) Ha Hs), Hd.
  destruct (String.eqb_spec r (Repository b)) as [->|_]; [|reflexivity].
  destruct (String.eqb_spec (Alm b) "gitlab") as [Halm|_]; [|reflexivity].
  destruct Hne; done.
Qed.

(** * Further properties of the handlers *)

(** ** The endpoint table *)

Lemma Values_Add_comm (k1 v1 k2 v2 : string) (q : Values) :
  k1 <> k2 ->
  Values_Add k1 v1 (Values_Add k2 v2 q) = Values_Add k2 v2 (Values_Add k1 v1 q).
Proof.
  intros Hne. unfold Values_Add.
  rewrite (lookup_insert_ne q k2 k1) by done.
  rewrite (lookup_insert_ne q k1 k2) by done.
  by apply insert_insert_ne.
Qed.

(** The principal and the template are named by different keys, so the
    order in which a handler adds them does not matter. *)
Lemma principal_scope_comm (d : PermissionsData) (q : Values) :
  principalParams d (scopeParams d q) = scopeParams d (principalParams d q).
Proof.
  unfold principalParams, scopeParams.
  destruct (GetOk (login_name d)); [|destruct (GetOk (group_name d))];
    destruct (GetOk (template_id d)); try destruct (GetOk (template_name d));
    try reflexivity; by apply Values_Add_comm.
Qed.

(** The loop overwrites the query of the URL it is given. *)
Lemma permissionLoop_query {D} (m : ProviderConfiguration) (caller : string) (u : URL)
    (q : Values) (x : string) (perms : list string) (st : State D) :
  permissionLoop m caller (withRawQuery u x) q perms st = permissionLoop m caller u q perms st.
Proof. destruct perms as [|p rest]; reflexivity. Qed.

(** Create, on the endpoint of the table. *)
Lemma create_endpoint (m : ProviderConfiguration) (st : State PermissionsData) :
  ~ lacksTemplateScope (data st) ->
  resourceSonarqubePermissionsCreate m st
  = (_ <- permissionLoop m "resourceSonarqubePermissionsCreate"
            (apiPath (sonarQubeURL m) (createAPI (data st))) (baseParams (data st))
            (permissions (data st)) ;;
     createEpilogue m) st.
Proof.
  intros Hscope. unfold resourceSonarqubePermissionsCreate, createEpilogue.
  unfold bind at 1 2 3. unfold getData. rewrite expandPermissions_total.
  unfold typeAssert, ret at 1.
  unfold createAPI, baseParams, scopeParams, principalParams, templateScoped.
  split_GetOk (login_name (data st)); [split_GetOk (group_name (data st))|];
    split_GetOk (template_id (data st)); try split_GetOk (template_name (data st));
    try reflexivity.
  exfalso. apply Hscope. by repeat split.
Qed.

(** Delete, on the endpoint of the table. *)
Lemma delete_endpoint (m : ProviderConfiguration) (st : State PermissionsData) :
  ~ lacksTemplateScope (data st) ->
  resourceSonarqubePermissionsDelete m st
  = permissionLoop m "resourceSonarqubePermissionsDelete"
      (apiPath (sonarQubeURL m) (deleteAPI (data st))) (baseParams (data st))
      (permissions (data st)) st.
Proof.
  intros Hscope. unfold baseParams. rewrite <- principal_scope_comm.
  unfold resourceSonarqubePermissionsDelete.
  unfold bind at 1 2 3. unfold getData. rewrite expandPermissions_total.
  unfold typeAssert, ret at 1.
  unfold deleteAPI, scopeParams, principalParams, templateScoped.
  split_GetOk (login_name (data st)); [split_GetOk (group_name (data st))|];
    split_GetOk (template_id (data st)); try split_GetOk (template_name (data st));
    try reflexivity; try apply permissionLoop_query.
  exfalso. apply Hscope. by repeat split.
Qed.

(** Read, step by step: its one request, then what it makes of the body. *)
Lemma read_run (m : ProviderConfiguration) (st : State PermissionsData) :
  resourceSonarqubePermissionsRead m st
  = match reply (httpClient m) (history st) (readRequest m (data st)) with
    | inl cause => (Err (readError cause), pushRequests [readRequest m (data st)] st)
    | inr resp =>
        match readOutcome (data st) (Body resp) with
        | inl e => (Err e, pushRequests [readRequest m (data st)] st)
        | inr d => (Ok tt, withData d (pushRequests [readRequest m (data st)] st))
        end
    end.
Proof.
  unfold resourceSonarqubePermissionsRead.
  unfold bind at 1 2. unfold getData.
  unfold readRequest, readOutcome, readAPI, readParams, scopeParams, templateScoped.
  split_GetOk (login_name (data st)); [split_GetOk (group_name (data st))|].
  - split_GetOk (template_name (data st));
      (cbv zeta; unfold bind, onError; rewrite httpRequestHelper_run;
       match goal with
       | |- context [reply ?c ?h ?r] => destruct (reply c h r) as [cause|resp]; [reflexivity|]
       end;
       unfold decodeOr; destruct (decodeGetPermissionTemplates (Body resp)) as [templates|];
         [|reflexivity];
       unfold ret at 1;
       destruct (find _ (PermissionTemplates templates)) as [value|]; [|reflexivity];
       unfold modifyData, ret, withData, refreshedTemplate;
       rewrite flattenProjectCreatorPermissions_fmap, Set_permissions_strings;
       simpl; rewrite E, E0; reflexivity).
  - split_GetOk (template_id (data st)); [split_GetOk (template_name (data st))|];
      (cbv zeta; unfold bind, onError; rewrite httpRequestHelper_run;
       match goal with
       | |- context [reply ?c ?h ?r] => destruct (reply c h r) as [cause|resp]; [reflexivity|]
       end;
       unfold decodeOr; destruct (decodeGetGroupPermissions (Body resp)) as [groups|];
         [|reflexivity];
       unfold ret at 1;
       destruct (find _ (Groups groups)) as [value|]; [|reflexivity];
       unfold modifyData, ret, withData, refreshedGroup;
       rewrite flattenPermissions_boxes, Set_permissions_strings; reflexivity).
  - split_GetOk (template_id (data st)); [split_GetOk (template_name (data st))|];
      (cbv zeta; unfold bind, onError; rewrite httpRequestHelper_run;
       match goal with
       | |- context [reply ?c ?h ?r] => destruct (reply c h r) as [cause|resp]; [reflexivity|]
       end;
       unfold decodeOr; destruct (decodeGetUser (Body resp)) as [users|]; [|reflexivity];
       unfold ret at 1;
       destruct (find _ (Users users)) as [value|]; [|reflexivity];
       unfold modifyData, ret, withData, refreshedUser;
       rewrite flattenPermissions_boxes, Set_permissions_strings; reflexivity).
Qed.

(** A Read whose request fails, on the network or on the status code,
    returns the error of the transport: wrapped in the message
    ["error reading Sonarqube permissions: "] for the permissions, as it is
    for the binding. *)
Lemma read_transport_error (m : ProviderConfiguration) (st : State PermissionsData)
    (cause : TransportCause) :
  reply (httpClient m) (history st) (readRequest m (data st)) = inl cause ->
  fst (resourceSonarqubePermissionsRead m st) = Err (readError cause).
Proof. intros E. by rewrite read_run, E. Qed.

Lemma binding_read_transport_error (m : ProviderConfiguration) (st : State BindingData)
    (id0 : string) (rest : list string) (cause : TransportCause) :
  checkGitlabBindingSupport m = None ->
  SplitN (BindingId (data st)) "/" 2 = id0 :: rest ->
  reply (httpClient m) (history st) (bindingReadRequest m id0) = inl cause ->
  fst (resourceSonarqubeGitlabBindingRead m st)
  = Err (TransportError "resourceSonarqubeGitlabBindingRead" cause).
Proof.
  intros Hcheck Hsplit E. rewrite (binding_read_run m st id0 rest Hcheck Hsplit). cbv zeta.
  by rewrite E.
Qed.

(** ** How Create and Delete end *)

(** When the requests are not all accepted, one of them is the first to
    fail. *)
Lemma first_rejected (client : Client) (f : string -> Request) (perms : list string)
    (hist : list Request) :
  accepted client hist (f <$> perms) = false ->
  exists k p cause,
    perms !! k = Some p
    /\ accepted client hist (f <$> take k perms) = true
    /\ failure client (hist ++ (f <$> take k perms)) (f p) = Some cause.
Proof.
  revert hist. induction perms as [|x rest IH]; intros hist Hacc; [done|].
  simpl in Hacc. destruct (failure client hist (f x)) as [cause|] eqn:Hf.
  - exists O, x, cause. simpl. rewrite app_nil_r. done.
  - destruct (IH _ Hacc) as (k & p & cause & Hk & Ha & Hfail).
    exists (S k), p, cause. simpl. rewrite Hf. rewrite <- app_assoc in Hfail. done.
Qed.

(** The loop ends well exactly when every request is accepted. *)
Lemma permissionLoop_ok {D} (m : ProviderConfiguration) (caller : string) (u : URL)
    (q : Values) (perms : list string) (st : State D) :
  fst (permissionLoop m caller u q perms st) = Ok tt
  <-> accepted (httpClient m) (history st) (permissionRequest caller u q <$> perms) = true.
Proof.
  split.
  - intros Hok.
    destruct (accepted (httpClient m) (history st) (permissionRequest caller u q <$> perms))
      eqn:Hacc; [done|].
    destruct (first_rejected _ _ _ _ Hacc) as (k & p & cause & Hk & Ha & Hf).
    by rewrite (permissionLoop_rejected _ _ _ _ _ _ _ _ _ Hk Ha Hf) in Hok.
  - intros Hacc. by rewrite (permissionLoop_accepted _ _ _ _ _ _ Hacc).
Qed.

(** Create either stops in its loop, the declaration and the random source
    as they were, or draws the identity and reads back. *)
Lemma create_run (m : ProviderConfiguration) (st : State PermissionsData) :
  ~ lacksTemplateScope (data st) ->
  (accepted (httpClient m) (history st) (addRequest m (data st) <$> permissions (data st)) = true
   /\ resourceSonarqubePermissionsCreate m st
      = resourceSonarqubePermissionsRead m
          (afterLoop (addRequest m (data st) <$> permissions (data st)) st))
  \/ (accepted (httpClient m) (history st) (addRequest m (data st) <$> permissions (data st)) = false
      /\ exists k p cause,
           permissions (data st) !! k = Some p
           /\ resourceSonarqubePermissionsCreate m st
              = (Err (permissionError "resourceSonarqubePermissionsCreate" cause),
                 pushRequests (addRequest m (data st) <$> take (S k) (permissions (data st))) st)).
Proof.
  intros Hscope. rewrite (create_endpoint m st Hscope). unfold bind.
  fold (addRequest m (data st)).
  destruct (accepted (httpClient m) (history st) (addRequest m (data st) <$> permissions (data st)))
    eqn:Hacc.
  - left. split; [reflexivity|].
    unfold addRequest in *. rewrite (permissionLoop_accepted _ _ _ _ _ _ Hacc).
    reflexivity.
  - right. split; [reflexivity|].
    destruct (first_rejected _ _ _ _ Hacc) as (k & p & cause & Hk & Ha & Hf).
    exists k, p, cause. split; [exact Hk|].
    unfold addRequest in *. by rewrite (permissionLoop_rejected _ _ _ _ _ _ _ _ _ Hk Ha Hf).
Qed.

(** Delete is its loop. *)
Lemma delete_run (m : ProviderConfiguration) (st : State PermissionsData) :
  ~ lacksTemplateScope (data st) ->
  (accepted (httpClient m) (history st) (removeRequest m (data st) <$> permissions (data st)) = true
   /\ resourceSonarqubePermissionsDelete m st
      = (Ok tt, pushRequests (removeRequest m (data st) <$> permissions (data st)) st))
  \/ (accepted (httpClient m) (history st) (removeRequest m (data st) <$> permissions (data st)) = false
      /\ exists k p cause,
           permissions (data st) !! k = Some p
           /\ resourceSonarqubePermissionsDelete m st
              = (Err (permissionError "resourceSonarqubePermissionsDelete" cause),
                 pushRequests (removeRequest m (data st) <$> take (S k) (permissions (data st))) st)).
Proof.
  intros Hscope. rewrite (delete_endpoint m st Hscope).
  fold (removeRequest m (data st)).
  destruct (accepted (httpClient m) (history st) (removeRequest m (data st) <$> permissions (data st)))
    eqn:Hacc.
  - left. split; [reflexivity|]. unfold removeRequest in *.
    by rewrite (permissionLoop_accepted _ _ _ _ _ _ Hacc).
  - right. split; [reflexivity|].
    destruct (first_rejected _ _ _ _ Hacc) as (k & p & cause & Hk & Ha & Hf).
    exists k, p, cause. split; [exact Hk|].
    unfold removeRequest in *. by rewrite (permissionLoop_rejected _ _ _ _ _ _ _ _ _ Hk Ha Hf).
Qed.

Lemma readRequest_SetId (m : ProviderConfiguration) (id : string) (d : PermissionsData) :
  readRequest m (SetId id d) = readRequest m d.
Proof. reflexivity. Qed.

(** Read leaves the state as it was but for its one request and, when it
    succeeds, the refreshed declaration. *)
Lemma read_state (m : ProviderConfiguration) (st : State PermissionsData) :
  exists d,
    snd (resourceSonarqubePermissionsRead m st)
    = withData d (pushRequests [readRequest m (data st)] st)
    /\ (fst (resourceSonarqubePermissionsRead m st) <> Ok tt -> d = data st)
    /\ (forall p, fst (resourceSonarqubePermissionsRead m st) <> Panic p).
Proof.
  rewrite read_run.
  destruct (reply _ _ _) as [cause|resp]; [by exists (data st)|].
  destruct (readOutcome (data st) (Body resp)) as [e|d]; [by exists (data st)|].
  exists d. by repeat split.
Qed.

(** X1. Whatever the server does, the requests Create issues are an
    initial part of its plan -- one POST per declared value on the add
    endpoint of the principal, then the GET of the read-back -- and the
    requests Delete issues are an initial part of one POST per declared
    value on the matching remove endpoint: neither handler ever issues a
    request outside that plan or out of order. *)
Theorem requests_follow_the_plan (m : ProviderConfiguration) (st : State PermissionsData) :
  issued st (snd (resourceSonarqubePermissionsCreate m st))
    `prefix_of` (addRequest m (data st) <$> permissions (data st)) ++ [readRequest m (data st)]
  /\ issued st (snd (resourceSonarqubePermissionsDelete m st))
       `prefix_of` (removeRequest m (data st) <$> permissions (data st))
  /\ issued st (snd (resourceSonarqubePermissionsRead m st)) = [readRequest m (data st)].
Proof.
  split; [|split].
  - destruct (lacksTemplateScope_dec (data st)) as [(Hl & Hg & Hi & Hn)|Hscope].
    { rewrite (create_without_template m st Hl Hg Hi Hn). simpl. rewrite issued_same.
      apply prefix_nil. }
    destruct (create_run m st Hscope) as [[_ ->]|[_ (k & p & cause & _ & ->)]].
    + destruct (read_state m (afterLoop (addRequest m (data st) <$> permissions (data st)) st))
        as (d & -> & _).
      rewrite (issued_app st _ ((addRequest m (data st) <$> permissions (data st))
                                ++ [readRequest m (data st)])).
      * done.
      * simpl. by rewrite <- app_assoc.
    + simpl. rewrite issued_push. apply prefix_app_r. rewrite fmap_take. apply prefix_take.
  - destruct (lacksTemplateScope_dec (data st)) as [(Hl & Hg & Hi & Hn)|Hscope].
    { rewrite (delete_without_template m st Hl Hg Hi Hn). simpl. rewrite issued_same.
      apply prefix_nil. }
    destruct (delete_run m st Hscope) as [[_ ->]|[_ (k & p & cause & _ & ->)]]; simpl;
      rewrite issued_push; [done|]. rewrite fmap_take. apply prefix_take.
  - destruct (read_state m st) as (d & -> & _). by apply issued_app.
Qed.

(** X2. When Create returns without error it has issued its whole plan,
    every POST was accepted, and the read-back found the principal; when
    Delete returns without error it has issued one accepted POST per
    declared value and has left the declaration and the random source as
    they were. *)
Theorem success_means_all_values_applied
    (m : ProviderConfiguration) (st : State PermissionsData)
    (m' : ProviderConfiguration) (st' : State PermissionsData) :
  fst (resourceSonarqubePermissionsCreate m st) = Ok tt ->
  fst (resourceSonarqubePermissionsDelete m' st') = Ok tt ->
  (issued st (snd (resourceSonarqubePermissionsCreate m st))
   = (addRequest m (data st) <$> permissions (data st)) ++ [readRequest m (data st)]
   /\ accepted (httpClient m) (history st) (addRequest m (data st) <$> permissions (data st)) = true
   /\ fst (resourceSonarqubePermissionsRead m
             (afterLoop (addRequest m (data st) <$> permissions (data st)) st)) = Ok tt)
  /\ (resourceSonarqubePermissionsDelete m' st'
      = (Ok tt, pushRequests (removeRequest m' (data st') <$> permissions (data st')) st')
      /\ accepted (httpClient m') (history st')
           (removeRequest m' (data st') <$> permissions (data st')) = true).
Proof.
  intros HC HD. split.
  - destruct (lacksTemplateScope_dec (data st)) as [(Hl & Hg & Hi & Hn)|Hscope].
    { by rewrite (create_without_template m st Hl Hg Hi Hn) in HC. }
    destruct (create_run m st Hscope) as [[Hacc E]|[_ (k & p & cause & _ & E)]];
      rewrite E in *; [|done].
    split; [|by split].
    destruct (read_state m (afterLoop (addRequest m (data st) <$> permissions (data st)) st))
      as (d & -> & _).
    apply issued_app. simpl. by rewrite <- app_assoc.
  - destruct (lacksTemplateScope_dec (data st')) as [(Hl & Hg & Hi & Hn)|Hscope].
    { by rewrite (delete_without_template m' st' Hl Hg Hi Hn) in HD. }
    destruct (delete_run m' st' Hscope) as [[Hacc E]|[_ (k & p & cause & _ & E)]];
      rewrite E in *; done.
Qed.

(** X3. A Delete that succeeds sends, value by value, the parameters a
    Create of the same declaration that succeeds has sent: the two handlers
    add the principal and the template to the query in a different order,
    but the encoded queries are the same. *)
Theorem delete_mirrors_create
    (m : ProviderConfiguration) (st : State PermissionsData)
    (m' : ProviderConfiguration) (st' : State PermissionsData) :
  data st' = data st ->
  fst (resourceSonarqubePermissionsCreate m st) = Ok tt ->
  fst (resourceSonarqubePermissionsDelete m' st') = Ok tt ->
  (RawQuery ∘ target) <$> issued st' (snd (resourceSonarqubePermissionsDelete m' st'))
  = take (length (permissions (data st)))
      ((RawQuery ∘ target) <$> issued st (snd (resourceSonarqubePermissionsCreate m st))).
Proof.
  intros Hd HC HD.
  destruct (lacksTemplateScope_dec (data st)) as [(Hl & Hg & Hi & Hn)|Hscope].
  { by rewrite (create_without_template m st Hl Hg Hi Hn) in HC. }
  assert (Hscope' : ~ lacksTemplateScope (data st')) by (by rewrite Hd).
  destruct (create_run m st Hscope) as [[Hacc E]|[_ (k & p & cause & _ & E)]];
    rewrite E in *; [|done].
  destruct (delete_run m' st' Hscope') as [[Hacc' E']|[_ (k & p & cause & _ & E')]];
    rewrite E' in *; [|done].
  destruct (read_state m (afterLoop (addRequest m (data st) <$> permissions (data st)) st))
    as (d & -> & _).
  simpl. rewrite issued_push.
  rewrite (issued_app st _ ((addRequest m (data st) <$> permissions (data st))
                            ++ [readRequest m (data st)])) by (simpl; by rewrite <- app_assoc).
  rewrite Hd, fmap_app, <- !list_fmap_compose.
  rewrite take_app_length' by (by rewrite length_fmap).
  reflexivity.
Qed.

(** A refreshed declaration keeps the identity and the scope. *)
Lemma readOutcome_frame (d d' : PermissionsData) (body : ResponseBody) :
  readOutcome d body = inr d' ->
  Id d' = Id d /\ project_key d' = project_key d
  /\ template_id d' = template_id d /\ template_name d' = template_name d.
Proof.
  unfold readOutcome.
  destruct (GetOk (login_name d)); [|destruct (GetOk (group_name d))].
  - destruct (decodeGetUser body) as [users|]; [|done].
    destruct (find _ (Users users)); [|done]. by intros [= <-].
  - destruct (decodeGetGroupPermissions body) as [groups|]; [|done].
    destruct (find _ (Groups groups)); [|done]. by intros [= <-].
  - destruct (decodeGetPermissionTemplates body) as [templates|]; [|done].
    destruct (find _ (PermissionTemplates templates)); [|done]. by intros [= <-].
Qed.

(** What Read does to the state. *)
Lemma read_effect (m : ProviderConfiguration) (st : State PermissionsData) :
  exists d,
    snd (resourceSonarqubePermissionsRead m st)
    = withData d (pushRequests [readRequest m (data st)] st)
    /\ (Id d = Id (data st) /\ project_key d = project_key (data st)
        /\ template_id d = template_id (data st) /\ template_name d = template_name (data st))
    /\ (fst (resourceSonarqubePermissionsRead m st) <> Ok tt -> d = data st).
Proof.
  rewrite read_run.
  destruct (reply _ _ _) as [cause|resp]; [by exists (data st)|].
  destruct (readOutcome (data st) (Body resp)) as [e|d] eqn:Ho; [by exists (data st)|].
  exists d. split; [reflexivity|]. split; [by apply (readOutcome_frame _ _ _ Ho)|done].
Qed.

(** X4. Create stores the identity before it reads back.  Once every POST
    is accepted the identity drawn from the random source is stored,
    whatever the read-back does: when the read-back fails Create returns its
    error with the identity already set and nothing else changed.  When a
    POST fails, the declaration and the random source are as they were. *)
Theorem create_stores_identity_before_read_back
    (m : ProviderConfiguration) (st : State PermissionsData) :
  ~ lacksTemplateScope (data st) ->
  (accepted (httpClient m) (history st) (addRequest m (data st) <$> permissions (data st)) = true ->
   Id (data (snd (resourceSonarqubePermissionsCreate m st))) = entropy st (drawn st)
   /\ drawn (snd (resourceSonarqubePermissionsCreate m st)) = S (drawn st)
   /\ (fst (resourceSonarqubePermissionsCreate m st) <> Ok tt ->
       data (snd (resourceSonarqubePermissionsCreate m st))
       = SetId (entropy st (drawn st)) (data st)))
  /\ (accepted (httpClient m) (history st) (addRequest m (data st) <$> permissions (data st)) = false ->
      fst (resourceSonarqubePermissionsCreate m st) <> Ok tt
      /\ data (snd (resourceSonarqubePermissionsCreate m st)) = data st
      /\ drawn (snd (resourceSonarqubePermissionsCreate m st)) = drawn st).
Proof.
  intros Hscope.
  destruct (create_run m st Hscope) as [[Hacc E]|[Hacc (k & p & cause & _ & E)]].
  - split; [intros _|intros H; congruence]. rewrite E.
    destruct (read_effect m (afterLoop (addRequest m (data st) <$> permissions (data st)) st))
      as (d & -> & (Hid & _) & Hfail).
    simpl. split; [exact Hid|]. split; [reflexivity|]. intros Hko. exact (Hfail Hko).
  - split; [intros H; congruence|intros _]. rewrite E. simpl. done.
Qed.

(** X5. Read of the permissions never panics and never draws from the
    random source; it leaves the identity, the project key and the template
    of the declaration alone, and when it returns an error the whole
    declaration is as it was. *)
Theorem read_keeps_identity_and_scope (m : ProviderConfiguration) (st : State PermissionsData) :
  (forall p, fst (resourceSonarqubePermissionsRead m st) <> Panic p)
  /\ drawn (snd (resourceSonarqubePermissionsRead m st)) = drawn st
  /\ Id (data (snd (resourceSonarqubePermissionsRead m st))) = Id (data st)
  /\ project_key (data (snd (resourceSonarqubePermissionsRead m st))) = project_key (data st)
  /\ template_id (data (snd (resourceSonarqubePermissionsRead m st))) = template_id (data st)
  /\ template_name (data (snd (resourceSonarqubePermissionsRead m st))) = template_name (data st)
  /\ (fst (resourceSonarqubePermissionsRead m st) <> Ok tt ->
      data (snd (resourceSonarqubePermissionsRead m st)) = data st).
Proof.
  destruct (read_state m st) as (d0 & _ & _ & Hp).
  destruct (read_effect m st) as (d & -> & (Hid & Hk & Hti & Htn) & Hfail).
  simpl. repeat split; done.
Qed.

(** ** Reading twice *)

Lemma EqualFold_set (a b : string) :
  foldOfEmpty -> EqualFold a b = true -> b <> ""%string -> GetOk a = Some a.
Proof.
  intros He E Hb. apply GetOk_set. intros ->. apply Hb. by apply He.
Qed.

Lemma find_same_predicate {A} (f g : A -> bool) (l : list A) :
  (forall x, f x = g x) -> find f l = find g l.
Proof. intros H. induction l as [|x l IH]; simpl; [done|]. by rewrite H, IH. Qed.

Lemma GetOk_Some_set (v w : string) : GetOk v = Some w -> v <> ""%string.
Proof. destruct v; done. Qed.

(** A declaration Read has refreshed from a body is left as it is by a
    second refresh from the same body. *)
Lemma readOutcome_again (d d' : PermissionsData) (body : ResponseBody) :
  foldClasses -> foldOfEmpty ->
  readOutcome d body = inr d' -> readOutcome d' body = inr d'.
Proof.
  intros Hclass Hempty. unfold readOutcome.
  destruct (GetOk (login_name d)) as [l|] eqn:Gl;
    [|destruct (GetOk (group_name d)) as [g|] eqn:Gg].
  - destruct (decodeGetUser body) as [users|] eqn:Hd; [|done].
    destruct (find _ (Users users)) as [value|] eqn:Hf; [|done].
    intros [= <-]. simpl.
    destruct (find_some _ _ Hf) as [_ Hm].
    rewrite (EqualFold_set _ _ Hempty Hm (GetOk_Some_set _ _ Gl)).
    rewrite (find_same_predicate _ (fun v => EqualFold (Login v) (login_name d)))
      by (intros v; by apply Hclass).
    by rewrite Hf.
  - destruct (decodeGetGroupPermissions body) as [groups|] eqn:Hd; [|done].
    destruct (find _ (Groups groups)) as [value|] eqn:Hf; [|done].
    intros [= <-]. simpl.
    destruct (find_some _ _ Hf) as [_ Hm].
    rewrite Gl, (EqualFold_set _ _ Hempty Hm (GetOk_Some_set _ _ Gg)).
    rewrite (find_same_predicate _ (fun v => EqualFold (GroupName v) (group_name d)))
      by (intros v; by apply Hclass).
    by rewrite Hf.
  - destruct (decodeGetPermissionTemplates body) as [templates|] eqn:Hd; [|done].
    destruct (find _ (PermissionTemplates templates)) as [value|] eqn:Hf; [|done].
    intros [= <-]. simpl. by rewrite Gl, Gg, Hf.
Qed.

Lemma steady_reply (m : ProviderConfiguration) (resp : Response) (hist : list Request)
    (d : PermissionsData) :
  (forall hist g, httpClient m hist g = Replied resp) ->
  StatusCode resp = StatusOK ->
  reply (httpClient m) hist (readRequest m d) = inr resp.
Proof. intros Hsrv Hs. by apply reply_replied. Qed.

(** X6. Read is idempotent on a server that keeps answering the same: once
    Read has succeeded, a second Read succeeds too and leaves the
    declaration exactly as the first one left it, although the first one
    may have replaced the declared login or group name by the server's
    spelling of it.  This rests on [strings.EqualFold] being an equivalence
    that only the empty string relates to the empty string. *)
Theorem read_twice_changes_nothing (m : ProviderConfiguration) (st : State PermissionsData)
    (resp : Response) :
  foldClasses -> foldOfEmpty ->
  (forall hist g, httpClient m hist g = Replied resp) ->
  StatusCode resp = StatusOK ->
  fst (resourceSonarqubePermissionsRead m st) = Ok tt ->
  fst (resourceSonarqubePermissionsRead m (snd (resourceSonarqubePermissionsRead m st))) = Ok tt
  /\ data (snd (resourceSonarqubePermissionsRead m (snd (resourceSonarqubePermissionsRead m st))))
     = data (snd (resourceSonarqubePermissionsRead m st)).
Proof.
  intros Hclass Hempty Hsrv Hs. rewrite (read_run m st).
  rewrite (steady_reply m resp _ _ Hsrv Hs).
  destruct (readOutcome (data st) (Body resp)) as [e|d] eqn:Ho; [done|].
  intros _. simpl. rewrite read_run.
  rewrite (steady_reply m resp _ _ Hsrv Hs). simpl.
  by rewrite (readOutcome_again _ _ _ Hclass Hempty Ho).
Qed.

(** ** The identity of a binding *)

Lemma HasPrefix_slash (s : string) :
  HasPrefix s "/" = match s with
                    | String c _ => Ascii.eqb c "/"
                    | EmptyString => false
                    end.
Proof. destruct s as [|c s]; simpl; [done|]. destruct s; by rewrite andb_true_r. Qed.

Lemma Index_slash_cons (c : ascii) (s : string) :
  Index (String c s) "/" = if Ascii.eqb c "/" then Some O else S <$> Index s "/".
Proof.
  change (Index (String c s) "/")
    with (if HasPrefix (String c s) "/" then Some O else S <$> Index s "/").
  by rewrite HasPrefix_slash.
Qed.

Lemma Index_slash_empty : Index "" "/" = None.
Proof. reflexivity. Qed.

(** Without a slash in [p], the first slash of [p/x] is the one after
    [p]. *)
Lemma Index_slash_after (p x : string) :
  Index p "/" = None -> Index (p +:+ "/" +:+ x) "/" = Some (String.length p).
Proof.
  induction p as [|c p IH]; intros H.
  { change ("" +:+ "/" +:+ x) with (String "/" x). by rewrite Index_slash_cons. }
  rewrite Index_slash_cons in H. change (String c p +:+ "/" +:+ x) with (String c (p +:+ "/" +:+ x)).
  rewrite Index_slash_cons. destruct (Ascii.eqb c "/"); [done|].
  destruct (Index p "/"); [done|]. by rewrite IH.
Qed.

(** With a slash in [p], the first slash of [p/x] is inside [p]. *)
Lemma Index_slash_inside (p x : string) (i : nat) :
  Index p "/" = Some i -> Index (p +:+ x) "/" = Some i /\ (i < String.length p)%nat.
Proof.
  revert i. induction p as [|c p IH]; intros i H; [done|].
  rewrite Index_slash_cons in H. change (String c p +:+ x) with (String c (p +:+ x)).
  rewrite Index_slash_cons. destruct (Ascii.eqb c "/").
  - injection H as <-. split; [done|simpl; lia].
  - destruct (Index p "/") as [j|]; [|done]. injection H as <-.
    destruct (IH j eq_refl) as [-> Hj]. split; [done|simpl; lia].
Qed.

Lemma takeBytes_app (p x : string) : takeBytes (String.length p) (p +:+ x) = p.
Proof. induction p as [|c p IH]; simpl; [by destruct x | by rewrite IH]. Qed.

Lemma dropBytes_app (p x : string) : dropBytes (String.length p) (p +:+ x) = x.
Proof. induction p as [|c p IH]; simpl; done. Qed.

Lemma dropBytes_slash (p r : string) :
  dropBytes (String.length p + String.length "/") (p +:+ "/" +:+ r) = r.
Proof. induction p as [|c p IH]; simpl; done. Qed.

Lemma length_takeBytes (i : nat) (s : string) : (String.length (takeBytes i s) <= i)%nat.
Proof.
  revert s. induction i as [|i IH]; intros [|c s]; simpl; try lia.
  specialize (IH s). lia.
Qed.

(** An identity with a slash splits in two. *)
Lemma SplitN_with_slash (id : string) :
  Contains id "/" = true -> exists p r, SplitN id "/" 2 = [p; r].
Proof.
  unfold Contains. rewrite SplitN_two. destruct (Index id "/"); [eauto | done].
Qed.

Lemma Contains_identity (p r : string) : Contains (p +:+ "/" +:+ r) "/" = true.
Proof.
  unfold Contains. destruct (Index p "/") as [i|] eqn:H.
  - by destruct (Index_slash_inside p ("/" +:+ r) i H) as [-> _].
  - by rewrite (Index_slash_after p r H).
Qed.

(** X7. The identity Create builds, [project/repository], splits back into
    the project and the repository exactly when the project key holds no
    slash: with a slash in the project key, Read would take a proper prefix
    of it for the project. *)
Theorem identity_round_trip (p r : string) :
  SplitN (p +:+ "/" +:+ r) "/" 2 = [p; r] <-> Contains p "/" = false.
Proof.
  rewrite SplitN_two. unfold Contains. split.
  - intros H. destruct (Index p "/") as [i|] eqn:Hi; [|done].
    destruct (Index_slash_inside p ("/" +:+ r) i Hi) as [Hin Hlt].
    rewrite Hin in H. injection H as H _.
    pose proof (length_takeBytes i (p +:+ "/" +:+ r)) as Hlen. rewrite H in Hlen. lia.
  - intros H. destruct (Index p "/") as [i|] eqn:Hi; [done|].
    rewrite (Index_slash_after p r Hi).
    by rewrite takeBytes_app, dropBytes_slash.
Qed.

(** ** The handlers of the binding *)

(** Delete of the binding on a server that is not a Community edition. *)
Lemma binding_delete_run (m : ProviderConfiguration) (st : State BindingData) :
  checkGitlabBindingSupport m = None ->
  resourceSonarqubeGitlabBindingDelete m st
  = match reply (httpClient m) (history st) (bindingDeleteRequest m (data st)) with
    | inl cause =>
        (Err (TransportError "resourceSonarqubeGitlabBindingDelete" cause),
         pushRequests [bindingDeleteRequest m (data st)] st)
    | inr _ => (Ok tt, pushRequests [bindingDeleteRequest m (data st)] st)
    end.
Proof.
  intros Hcheck. unfold resourceSonarqubeGitlabBindingDelete, requireGitlabBindingSupport.
  rewrite Hcheck. unfold bind, ret, getData. cbv beta iota zeta.
  rewrite httpRequestHelper_run. fold (bindingDeleteRequest m (data st)).
  destruct (reply (httpClient m) (history st) (bindingDeleteRequest m (data st))); reflexivity.
Qed.

Lemma binding_gate_closed {A} (m : ProviderConfiguration) (st : State BindingData)
    (k : unit -> M BindingData A) :
  checkGitlabBindingSupport m = Some (editionError m) ->
  bind (requireGitlabBindingSupport m) k st = (Err (editionError m), st).
Proof. intros H. unfold bind, requireGitlabBindingSupport. by rewrite H. Qed.

(** What Read of the binding does to the state, on a server that is not a
    Community edition: one request, and the declaration is touched only
    when Read succeeds. *)
Lemma binding_read_effect (m : ProviderConfiguration) (st : State BindingData) :
  checkGitlabBindingSupport m = None ->
  exists id0 d,
    snd (resourceSonarqubeGitlabBindingRead m st)
    = withData d (pushRequests [bindingReadRequest m id0] st)
    /\ (fst (resourceSonarqubeGitlabBindingRead m st) <> Ok tt -> d = data st).
Proof.
  intros Hc. destruct (SplitN_first (BindingId (data st)) "/") as (id0 & rest & Hs).
  rewrite (binding_read_run m st id0 rest Hc Hs). cbv zeta. exists id0.
  destruct (reply _ _ _) as [cause|resp]; [by exists (data st)|].
  destruct (decodeGetBinding (Body resp)) as [b|]; [|by exists (data st)].
  destruct rest as [|id1 rest']; [by exists (data st)|].
  destruct (String.eqb id1 (Repository b) && String.eqb (Alm b) "gitlab");
    [eexists; split; [reflexivity|done] | by exists (data st)].
Qed.

(** Read of the binding panics on an identity without a slash only. *)
Lemma binding_read_panic (m : ProviderConfiguration) (st : State BindingData) (p : panicValue) :
  fst (resourceSonarqubeGitlabBindingRead m st) = Panic p ->
  Contains (BindingId (data st)) "/" = false /\ p = IndexOutOfRange 1 1.
Proof.
  destruct (check_cases m) as [Hc|Hc].
  - destruct (Contains (BindingId (data st)) "/") eqn:Hcont.
    + destruct (SplitN_with_slash _ Hcont) as (a & b & Hs).
      rewrite (binding_read_run m st a [b] Hc Hs). cbv zeta.
      destruct (reply _ _ _) as [cause|resp]; [done|].
      destruct (decodeGetBinding (Body resp)) as [bd|]; [|done].
      by destruct (String.eqb b (Repository bd) && String.eqb (Alm bd) "gitlab").
    + rewrite (binding_read_run m st _ [] Hc (SplitN_no_separator _ _ Hcont)). cbv zeta.
      destruct (reply _ _ _) as [cause|resp]; [done|].
      destruct (decodeGetBinding (Body resp)) as [bd|]; [|done].
      simpl. by intros [= <-].
  - unfold resourceSonarqubeGitlabBindingRead. by rewrite (binding_gate_closed m st _ Hc).
Qed.

(** X8. Create, Update and Delete of the binding never panic: the identity
    Create reads back always holds a slash.  Read and Import panic only on
    an identity without a slash, and then with the index 1 out of range. *)
Theorem binding_panics_only_without_slash (m : ProviderConfiguration) (st : State BindingData) :
  (forall p, fst (resourceSonarqubeGitlabBindingCreate m st) <> Panic p)
  /\ (forall p, fst (resourceSonarqubeGitlabBindingUpdate m st) <> Panic p)
  /\ (forall p, fst (resourceSonarqubeGitlabBindingDelete m st) <> Panic p)
  /\ (forall p, fst (resourceSonarqubeGitlabBindingRead m st) = Panic p ->
        Contains (BindingId (data st)) "/" = false /\ p = IndexOutOfRange 1 1)
  /\ (forall p, fst (resourceSonarqubeGitlabBindingImport m st) = Panic p ->
        Contains (BindingId (data st)) "/" = false /\ p = IndexOutOfRange 1 1).
Proof.
  assert (C : forall p, fst (resourceSonarqubeGitlabBindingCreate m st) <> Panic p).
  { intros p H. destruct (check_cases m) as [Hc|Hc].
    - rewrite (binding_create_run m st Hc) in H. cbv zeta in H.
      destruct (reply _ _ _) as [cause|resp]; [done|].
      destruct (binding_read_panic m _ p H) as [H' _]. simpl in H'.
      by rewrite Contains_identity in H'.
    - unfold resourceSonarqubeGitlabBindingCreate in H.
      by rewrite (binding_gate_closed m st _ Hc) in H. }
  split; [exact C|]. split; [exact C|]. split; [|split].
  - intros p H. destruct (check_cases m) as [Hc|Hc].
    + rewrite (binding_delete_run m st Hc) in H. by destruct (reply _ _ _).
    + unfold resourceSonarqubeGitlabBindingDelete in H.
      by rewrite (binding_gate_closed m st _ Hc) in H.
  - intros p. apply binding_read_panic.
  - intros p H. apply (binding_read_panic m st p).
    unfold resourceSonarqubeGitlabBindingImport, bind, getData, ret in H.
    destruct (resourceSonarqubeGitlabBindingRead m st) as [[[]|e|q] st']; simpl in *;
      (discriminate H || (by injection H as ->)).
Qed.

(** Import returns what Read left in the resource data. *)
Lemma binding_import_run (m : ProviderConfiguration) (st : State BindingData) :
  resourceSonarqubeGitlabBindingImport m st
  = match fst (resourceSonarqubeGitlabBindingRead m st) with
    | Ok _ => (Ok [data (snd (resourceSonarqubeGitlabBindingRead m st))],
               snd (resourceSonarqubeGitlabBindingRead m st))
    | Err e => (Err e, snd (resourceSonarqubeGitlabBindingRead m st))
    | Panic p => (Panic p, snd (resourceSonarqubeGitlabBindingRead m st))
    end.
Proof.
  unfold resourceSonarqubeGitlabBindingImport, bind.
  by destruct (resourceSonarqubeGitlabBindingRead m st) as [[[]|e|p] st'].
Qed.

Lemma binding_read_same_identity (m : ProviderConfiguration)
    (hist : list Request) (ent : nat -> string) (n : nat) (d1 d2 : BindingData) :
  BindingId d1 = BindingId d2 ->
  fst (resourceSonarqubeGitlabBindingRead m (mkState d1 hist ent n))
  = fst (resourceSonarqubeGitlabBindingRead m (mkState d2 hist ent n))
  /\ history (snd (resourceSonarqubeGitlabBindingRead m (mkState d1 hist ent n)))
     = history (snd (resourceSonarqubeGitlabBindingRead m (mkState d2 hist ent n)))
  /\ (fst (resourceSonarqubeGitlabBindingRead m (mkState d1 hist ent n)) = Ok tt ->
      data (snd (resourceSonarqubeGitlabBindingRead m (mkState d1 hist ent n)))
      = data (snd (resourceSonarqubeGitlabBindingRead m (mkState d2 hist ent n)))).
Proof.
  intros Hid. destruct (check_cases m) as [Hc|Hc].
  - destruct (SplitN_first (BindingId d1) "/") as (id0 & rest & Hs1).
    assert (Hs2 : SplitN (BindingId d2) "/" 2 = id0 :: rest) by (by rewrite <- Hid).
    rewrite (binding_read_run m (mkState d1 hist ent n) id0 rest Hc Hs1).
    rewrite (binding_read_run m (mkState d2 hist ent n) id0 rest Hc Hs2).
    cbv zeta. simpl data. simpl history. rewrite Hid.
    destruct (reply _ _ _) as [cause|resp]; [done|].
    destruct (decodeGetBinding (Body resp)) as [b|]; [|done].
    destruct rest as [|id1 rest']; [done|].
    by destruct (String.eqb id1 (Repository b) && String.eqb (Alm b) "gitlab").
  - unfold resourceSonarqubeGitlabBindingRead.
    rewrite !(binding_gate_closed m _ _ Hc). done.
Qed.

(** X9. Read of the binding works from the identity alone: two resource
    data with the same identity get the same result and the same request,
    and when Read succeeds the same refreshed fields, whatever they held
    before.  Import therefore recovers a binding from its identity. *)
Theorem binding_read_depends_on_identity (m : ProviderConfiguration)
    (hist : list Request) (ent : nat -> string) (n : nat) (d1 d2 : BindingData) :
  BindingId d1 = BindingId d2 ->
  fst (resourceSonarqubeGitlabBindingRead m (mkState d1 hist ent n))
  = fst (resourceSonarqubeGitlabBindingRead m (mkState d2 hist ent n))
  /\ history (snd (resourceSonarqubeGitlabBindingRead m (mkState d1 hist ent n)))
     = history (snd (resourceSonarqubeGitlabBindingRead m (mkState d2 hist ent n)))
  /\ (fst (resourceSonarqubeGitlabBindingRead m (mkState d1 hist ent n)) = Ok tt ->
      data (snd (resourceSonarqubeGitlabBindingRead m (mkState d1 hist ent n)))
      = data (snd (resourceSonarqubeGitlabBindingRead m (mkState d2 hist ent n))))
  /\ fst (resourceSonarqubeGitlabBindingImport m (mkState d1 hist ent n))
     = fst (resourceSonarqubeGitlabBindingImport m (mkState d2 hist ent n)).
Proof.
  intros Hid.
  destruct (binding_read_same_identity m hist ent n d1 d2 Hid) as (Hr & Hh & Hd).
  split; [exact Hr|]. split; [exact Hh|]. split; [exact Hd|].
  rewrite !binding_import_run. rewrite <- Hr.
  destruct (fst (resourceSonarqubeGitlabBindingRead m (mkState d1 hist ent n)))
    as [[]|e|p] eqn:E; simpl; [|done|done].
  by rewrite (Hd eq_refl).
Qed.

(** ** Create of the binding *)

Lemma identity_round_trip_holds (p r : string) :
  Contains p "/" = false -> SplitN (p +:+ "/" +:+ r) "/" 2 = [p; r].
Proof.
  unfold Contains. rewrite SplitN_two. intros H.
  destruct (Index p "/") as [i|] eqn:Hi; [done|].
  by rewrite (Index_slash_after p r Hi), takeBytes_app, dropBytes_slash.
Qed.

(** X10. Create of a binding whose project key holds no slash, on a server
    that accepts the POST and then reports that very repository bound
    through GitLab: Create succeeds with exactly the POST and the GET for
    the declared project, stores the identity [project/repository], keeps
    the declared project and repository, and replaces the ALM setting and
    the monorepo flag by what the server reports. *)
Theorem binding_create_then_read (m : ProviderConfiguration) (st : State BindingData)
    (r1 r2 : Response) (b : GetBinding) :
  ToLower (sonarQubeEdition m) <> "community"%string ->
  Contains (project (data st)) "/" = false ->
  httpClient m (history st) (bindingCreateRequest m (data st)) = Replied r1 ->
  StatusCode r1 = StatusNoContent ->
  httpClient m (history st ++ [bindingCreateRequest m (data st)])
             (bindingReadRequest m (project (data st))) = Replied r2 ->
  StatusCode r2 = StatusOK ->
  decodeGetBinding (Body r2) = Some b ->
  Repository b = repository (data st) ->
  Alm b = "gitlab"%string ->
  resourceSonarqubeGitlabBindingCreate m st
  = (Ok tt,
     withData (mkBindingData (bindingIdentity (data st)) (BindingKey b) (FormatBool (Monorepo b))
                 (project (data st)) (repository (data st)))
       (pushRequests [bindingCreateRequest m (data st);
                      bindingReadRequest m (project (data st))] st)).
Proof.
  intros Hed Hslash H1 Hs1 H2 Hs2 Hd Hrepo Halm.
  rewrite (binding_create_run m st (check_other m Hed)). cbv zeta.
  rewrite (reply_replied _ _ _ _ H1 Hs1).
  rewrite (binding_read_run m _ (project (data st)) [repository (data st)] (check_other m Hed))
    by (simpl; by apply identity_round_trip_holds).
  cbv zeta. simpl history.
  rewrite (reply_replied _ _ (bindingReadRequest m (project (data st))) _ H2 Hs2), Hd, Hrepo, Halm.
  rewrite !String.eqb_refl. simpl. unfold withData, pushRequests. simpl.
  by rewrite <- app_assoc.
Qed.

(** X11. Create of the binding stores the identity only once the POST is
    accepted.  When the POST fails nothing is stored and nothing is read
    back; when the POST is accepted the identity is stored whatever the
    read-back does, and a read-back that does not succeed leaves every
    other field as declared. *)
Theorem binding_create_stores_identity_after_post
    (m : ProviderConfiguration) (st : State BindingData) :
  ToLower (sonarQubeEdition m) <> "community"%string ->
  (forall cause,
     failure (httpClient m) (history st) (bindingCreateRequest m (data st)) = Some cause ->
     resourceSonarqubeGitlabBindingCreate m st
     = (Err (TransportError "resourceSonarqubeGitlabBindingCreate" cause),
        pushRequests [bindingCreateRequest m (data st)] st))
  /\ (failure (httpClient m) (history st) (bindingCreateRequest m (data st)) = None ->
      BindingId (data (snd (resourceSonarqubeGitlabBindingCreate m st))) = bindingIdentity (data st)
      /\ length (issued st (snd (resourceSonarqubeGitlabBindingCreate m st))) = 2%nat
      /\ (fst (resourceSonarqubeGitlabBindingCreate m st) <> Ok tt ->
          data (snd (resourceSonarqubeGitlabBindingCreate m st))
          = SetBindingId (bindingIdentity (data st)) (data st))).
Proof.
  intros Hed. pose proof (check_other m Hed) as Hc.
  rewrite (binding_create_run m st Hc). cbv zeta. unfold failure.
  destruct (reply _ _ _) as [cause|resp]; (split; [intros c Hf | intros Hf]); try done.
  - by injection Hf as ->.
  - match goal with
    | |- context [resourceSonarqubeGitlabBindingRead m ?s] =>
        destruct (binding_read_effect m s Hc) as (id0 & d & Hs & Hfail);
        pose proof (binding_read_identity m s) as Hid
    end.
    split; [exact Hid|]. split.
    + rewrite Hs. unfold issued, withData, pushRequests. simpl.
      rewrite <- app_assoc, drop_app_length. reflexivity.
    + intros Hko. rewrite Hs. simpl. exact (Hfail Hko).
Qed.

(** X12. The edition gate is the only thing that keeps the binding
    handlers from the network: on a Community edition no handler issues a
    request, and on any other edition Read and Delete issue exactly one
    request and Create one or two.  Delete never reads first, and it leaves
    the resource data as it was. *)
Theorem binding_requests_by_edition (m : ProviderConfiguration) (st : State BindingData) :
  (ToLower (sonarQubeEdition m) = "community"%string ->
   issued st (snd (resourceSonarqubeGitlabBindingCreate m st)) = []
   /\ issued st (snd (resourceSonarqubeGitlabBindingRead m st)) = []
   /\ issued st (snd (resourceSonarqubeGitlabBindingDelete m st)) = [])
  /\ (ToLower (sonarQubeEdition m) <> "community"%string ->
      (length (issued st (snd (resourceSonarqubeGitlabBindingCreate m st))) = 1%nat
       \/ length (issued st (snd (resourceSonarqubeGitlabBindingCreate m st))) = 2%nat)
      /\ length (issued st (snd (resourceSonarqubeGitlabBindingRead m st))) = 1%nat
      /\ issued st (snd (resourceSonarqubeGitlabBindingDelete m st))
         = [bindingDeleteRequest m (data st)])
  /\ data (snd (resourceSonarqubeGitlabBindingDelete m st)) = data st.
Proof.
  split; [|split].
  - intros Hed. pose proof (check_community m Hed) as Hc.
    unfold resourceSonarqubeGitlabBindingCreate, resourceSonarqubeGitlabBindingRead,
      resourceSonarqubeGitlabBindingDelete.
    rewrite !(binding_gate_closed m st _ Hc). simpl. by rewrite issued_same.
  - intros Hed. pose proof (check_other m Hed) as Hc. split; [|split].
    + rewrite (binding_create_run m st Hc). cbv zeta.
      destruct (reply _ _ _) as [cause|resp].
      * left. simpl. by rewrite issued_push.
      * right.
        match goal with
        | |- context [resourceSonarqubeGitlabBindingRead m ?s] =>
            destruct (binding_read_effect m s Hc) as (id0 & d & -> & _)
        end.
        unfold issued, withData, pushRequests. simpl.
        rewrite <- app_assoc, drop_app_length. reflexivity.
    + destruct (binding_read_effect m st Hc) as (id0 & d & -> & _).
      unfold issued, withData, pushRequests. simpl. by rewrite drop_app_length.
    + rewrite (binding_delete_run m st Hc).
      destruct (reply _ _ _); simpl; by rewrite issued_push.
  - destruct (check_cases m) as [Hc|Hc].
    + rewrite (binding_delete_run m st Hc). by destruct (reply _ _ _).
    + unfold resourceSonarqubeGitlabBindingDelete. by rewrite (binding_gate_closed m st _ Hc).
Qed.

(** ** What the permissions handlers leave alone *)

(** The requests Create and Delete issue, as initial parts of their
    plans. *)
Lemma create_issued (m : ProviderConfiguration) (st : State PermissionsData) :
  issued st (snd (resourceSonarqubePermissionsCreate m st))
    `prefix_of` (addRequest m (data st) <$> permissions (data st)) ++ [readRequest m (data st)].
Proof.
  destruct (lacksTemplateScope_dec (data st)) as [(Hl & Hg & Hi & Hn)|Hscope].
  { rewrite (create_without_template m st Hl Hg Hi Hn). simpl. rewrite issued_same.
    apply prefix_nil. }
  destruct (create_run m st Hscope) as [[_ ->]|[_ (k & p & cause & _ & ->)]].
  - destruct (read_state m (afterLoop (addRequest m (data st) <$> permissions (data st)) st))
      as (d & -> & _).
    rewrite (issued_app st _ ((addRequest m (data st) <$> permissions (data st))
                              ++ [readRequest m (data st)])); [done|].
    simpl. by rewrite <- app_assoc.
  - simpl. rewrite issued_push. apply prefix_app_r. rewrite fmap_take. apply prefix_take.
Qed.

Lemma delete_issued (m : ProviderConfiguration) (st : State PermissionsData) :
  issued st (snd (resourceSonarqubePermissionsDelete m st))
    `prefix_of` (removeRequest m (data st) <$> permissions (data st)).
Proof.
  destruct (lacksTemplateScope_dec (data st)) as [(Hl & Hg & Hi & Hn)|Hscope].
  { rewrite (delete_without_template m st Hl Hg Hi Hn). simpl. rewrite issued_same.
    apply prefix_nil. }
  destruct (delete_run m st Hscope) as [[_ ->]|[_ (k & p & cause & _ & ->)]]; simpl;
    rewrite issued_push; [done|]. rewrite fmap_take. apply prefix_take.
Qed.

Lemma Forall_prefix {A} (P : A -> Prop) (l1 l2 : list A) :
  l1 `prefix_of` l2 -> Forall P l2 -> Forall P l1.
Proof. intros [k ->] H. by apply Forall_app in H as [H _]. Qed.

(** X13. Delete of the permissions never reads first and never touches the
    resource data or the random source, whether it succeeds or fails: all
    it does is issue POSTs that expect 204, at most one per declared value.
    Neither Create nor Delete ever panics. *)
Theorem delete_only_posts (m : ProviderConfiguration) (st : State PermissionsData) :
  data (snd (resourceSonarqubePermissionsDelete m st)) = data st
  /\ drawn (snd (resourceSonarqubePermissionsDelete m st)) = drawn st
  /\ Forall (fun r => method r = "POST"%string /\ expectedStatus r = StatusNoContent)
       (issued st (snd (resourceSonarqubePermissionsDelete m st)))
  /\ (length (issued st (snd (resourceSonarqubePermissionsDelete m st)))
      <= length (permissions (data st)))%nat
  /\ (forall p, fst (resourceSonarqubePermissionsDelete m st) <> Panic p)
  /\ (forall p, fst (resourceSonarqubePermissionsCreate m st) <> Panic p).
Proof.
  assert (Hframe : data (snd (resourceSonarqubePermissionsDelete m st)) = data st
                   /\ drawn (snd (resourceSonarqubePermissionsDelete m st)) = drawn st
                   /\ (forall p, fst (resourceSonarqubePermissionsDelete m st) <> Panic p)).
  { destruct (lacksTemplateScope_dec (data st)) as [(Hl & Hg & Hi & Hn)|Hscope].
    - by rewrite (delete_without_template m st Hl Hg Hi Hn).
    - by destruct (delete_run m st Hscope) as [[_ ->]|[_ (k & p & cause & _ & ->)]]. }
  destruct Hframe as (Hd & Hn & Hp).
  split; [exact Hd|]. split; [exact Hn|]. split; [|split; [|split; [exact Hp|]]].
  - apply (Forall_prefix _ _ _ (delete_issued m st)).
    apply Forall_fmap, Forall_forall. intros p _. by split.
  - pose proof (prefix_length _ _ (delete_issued m st)) as H.
    by rewrite length_fmap in H.
  - intros p. destruct (lacksTemplateScope_dec (data st)) as [(Hl & Hg & Hi & Hn')|Hscope].
    + by rewrite (create_without_template m st Hl Hg Hi Hn').
    + destruct (create_run m st Hscope) as [[_ ->]|[_ (k & q & cause & _ & ->)]]; [|done].
      destruct (read_state m (afterLoop (addRequest m (data st) <$> permissions (data st)) st))
        as (d & _ & _ & Hpanic).
      apply Hpanic.
Qed.

(** A refreshed declaration keeps the declared selector or spells it as
    the server does, and [strings.EqualFold] relates that spelling to the
    declared one. *)
Lemma readOutcome_selector (d d' : PermissionsData) (body : ResponseBody) :
  readOutcome d body = inr d' ->
  (login_name d' = login_name d \/ EqualFold (login_name d') (login_name d) = true)
  /\ (group_name d' = group_name d \/ EqualFold (group_name d') (group_name d) = true).
Proof.
  unfold readOutcome.
  destruct (GetOk (login_name d)); [|destruct (GetOk (group_name d))].
  - destruct (decodeGetUser body) as [users|]; [|done].
    destruct (find _ (Users users)) as [value|] eqn:Hf; [|done]. intros [= <-].
    destruct (find_some _ _ Hf) as [_ Hm]. simpl. by auto.
  - destruct (decodeGetGroupPermissions body) as [groups|]; [|done].
    destruct (find _ (Groups groups)) as [value|] eqn:Hf; [|done]. intros [= <-].
    destruct (find_some _ _ Hf) as [_ Hm]. simpl. by auto.
  - destruct (decodeGetPermissionTemplates body) as [templates|]; [|done].
    destruct (find _ (PermissionTemplates templates)); [|done]. intros [= <-].
    simpl. by auto.
Qed.

Lemma read_ok_outcome (m : ProviderConfiguration) (st : State PermissionsData) :
  fst (resourceSonarqubePermissionsRead m st) = Ok tt ->
  exists body, readOutcome (data st) body
               = inr (data (snd (resourceSonarqubePermissionsRead m st))).
Proof.
  rewrite read_run. destruct (reply _ _ _) as [cause|resp]; [done|].
  destruct (readOutcome (data st) (Body resp)) as [e|d] eqn:Ho; [done|].
  intros _. by exists (Body resp).
Qed.

(** X14. What a successful Read, and a successful Create through its
    read-back, may change in the declaration besides the permissions: the
    login and the group name are kept as declared or stored as the server
    spells them, in a spelling that [strings.EqualFold] relates to the
    declared one; the project key and the template are kept. *)
Theorem selector_changes_in_case_only
    (m : ProviderConfiguration) (st : State PermissionsData)
    (m' : ProviderConfiguration) (st' : State PermissionsData) :
  fst (resourceSonarqubePermissionsRead m st) = Ok tt ->
  fst (resourceSonarqubePermissionsCreate m' st') = Ok tt ->
  ((login_name (data (snd (resourceSonarqubePermissionsRead m st))) = login_name (data st)
    \/ EqualFold (login_name (data (snd (resourceSonarqubePermissionsRead m st))))
                 (login_name (data st)) = true)
   /\ (group_name (data (snd (resourceSonarqubePermissionsRead m st))) = group_name (data st)
       \/ EqualFold (group_name (data (snd (resourceSonarqubePermissionsRead m st))))
                    (group_name (data st)) = true))
  /\ ((login_name (data (snd (resourceSonarqubePermissionsCreate m' st'))) = login_name (data st')
       \/ EqualFold (login_name (data (snd (resourceSonarqubePermissionsCreate m' st'))))
                    (login_name (data st')) = true)
      /\ (group_name (data (snd (resourceSonarqubePermissionsCreate m' st'))) = group_name (data st')
          \/ EqualFold (group_name (data (snd (resourceSonarqubePermissionsCreate m' st'))))
                       (group_name (data st')) = true)
      /\ project_key (data (snd (resourceSonarqubePermissionsCreate m' st')))
         = project_key (data st')
      /\ template_id (data (snd (resourceSonarqubePermissionsCreate m' st')))
         = template_id (data st')
      /\ template_name (data (snd (resourceSonarqubePermissionsCreate m' st')))
         = template_name (data st')).
Proof.
  intros HR HC. split.
  - destruct (read_ok_outcome m st HR) as (body & Ho). exact (readOutcome_selector _ _ _ Ho).
  - destruct (lacksTemplateScope_dec (data st')) as [(Hl & Hg & Hi & Hn)|Hscope].
    { by rewrite (create_without_template m' st' Hl Hg Hi Hn) in HC. }
    destruct (create_run m' st' Hscope) as [[_ E]|[_ (k & p & cause & _ & E)]];
      rewrite E in *; [|done].
    destruct (read_ok_outcome m' _ HC) as (body & Ho).
    destruct (readOutcome_selector _ _ _ Ho) as [H1 H2].
    destruct (readOutcome_frame _ _ _ Ho) as (_ & H3 & H4 & H5).
    simpl in *. done.
Qed.

(** ** Where the requests go *)

Lemma createAPI_area (d : PermissionsData) : HasPrefix (createAPI d) "/api/permissions/" = true.
Proof.
  unfold createAPI, templateScoped.
  destruct (GetOk (login_name d)); [|destruct (GetOk (group_name d))];
    destruct (GetOk (template_id d)); destruct (GetOk (template_name d)); reflexivity.
Qed.

Lemma deleteAPI_area (d : PermissionsData) : HasPrefix (deleteAPI d) "/api/permissions/" = true.
Proof.
  unfold deleteAPI, templateScoped.
  destruct (GetOk (login_name d)); [|destruct (GetOk (group_name d))];
    destruct (GetOk (template_id d)); destruct (GetOk (template_name d)); reflexivity.
Qed.

Lemma readAPI_area (d : PermissionsData) : HasPrefix (readAPI d) "/api/permissions/" = true.
Proof.
  unfold readAPI, templateScoped.
  destruct (GetOk (login_name d)); [|destruct (GetOk (group_name d))];
    destruct (GetOk (template_id d)); destruct (GetOk (template_name d)); reflexivity.
Qed.

Lemma onServer_api (m : ProviderConfiguration) (area api query : string)
    (method : string) (code : Z) (caller : string) :
  HasPrefix api area = true ->
  onServer m area (mkRequest method (withRawQuery (apiPath (sonarQubeURL m) api) query) code caller).
Proof. intros H. split; [done|]. split; [done|]. by exists api. Qed.

(** X15. Every request of the handlers goes to the configured server --
    the scheme and the host of the provider's URL, its path less one
    trailing slash -- and to an API of the resource's own area: the
    permissions handlers call [/api/permissions/...] only, the binding
    handlers [/api/alm_settings/...] only. *)
Theorem requests_stay_on_server
    (m : ProviderConfiguration) (st : State PermissionsData) (stb : State BindingData) :
  Forall (onServer m "/api/permissions/")
         (issued st (snd (resourceSonarqubePermissionsCreate m st)))
  /\ Forall (onServer m "/api/permissions/")
            (issued st (snd (resourceSonarqubePermissionsRead m st)))
  /\ Forall (onServer m "/api/permissions/")
            (issued st (snd (resourceSonarqubePermissionsDelete m st)))
  /\ Forall (onServer m "/api/alm_settings/")
            (issued stb (snd (resourceSonarqubeGitlabBindingCreate m stb)))
  /\ Forall (onServer m "/api/alm_settings/")
            (issued stb (snd (resourceSonarqubeGitlabBindingRead m stb)))
  /\ Forall (onServer m "/api/alm_settings/")
            (issued stb (snd (resourceSonarqubeGitlabBindingDelete m stb))).
Proof.
  assert (HR : forall s, Forall (onServer m "/api/alm_settings/")
                 (issued s (snd (resourceSonarqubeGitlabBindingRead m s)))).
  { intros s. destruct (check_cases m) as [Hc|Hc].
    - destruct (binding_read_effect m s Hc) as (id0 & d & -> & _).
      rewrite (issued_app s _ [bindingReadRequest m id0]) by done.
      repeat constructor. by apply onServer_api.
    - unfold resourceSonarqubeGitlabBindingRead. rewrite (binding_gate_closed m s _ Hc).
      simpl. by rewrite issued_same. }
  split; [|split; [|split; [|split; [|split]]]].
  - apply (Forall_prefix _ _ _ (create_issued m st)). apply Forall_app. split.
    + apply Forall_fmap, Forall_forall. intros p _. apply onServer_api, createAPI_area.
    + repeat constructor. apply onServer_api, readAPI_area.
  - destruct (read_state m st) as (d & -> & _).
    rewrite (issued_app st _ [readRequest m (data st)]) by done.
    repeat constructor. apply onServer_api, readAPI_area.
  - apply (Forall_prefix _ _ _ (delete_issued m st)).
    apply Forall_fmap, Forall_forall. intros p _. apply onServer_api, deleteAPI_area.
  - destruct (check_cases m) as [Hc|Hc].
    + rewrite (binding_create_run m stb Hc). cbv zeta.
      destruct (reply _ _ _) as [cause|resp].
      * simpl. rewrite issued_push. repeat constructor. by apply onServer_api.
      * match goal with
        | |- context [resourceSonarqubeGitlabBindingRead m ?s] =>
            destruct (binding_read_effect m s Hc) as (id0 & d & -> & _)
        end.
        rewrite (issued_app stb _ [bindingCreateRequest m (data stb); bindingReadRequest m id0])
          by (simpl; by rewrite <- app_assoc).
        repeat constructor; by apply onServer_api.
    + unfold resourceSonarqubeGitlabBindingCreate. rewrite (binding_gate_closed m stb _ Hc).
      simpl. by rewrite issued_same.
  - apply HR.
  - destruct (check_cases m) as [Hc|Hc].
    + rewrite (binding_delete_run m stb Hc).
      destruct (reply _ _ _); simpl; rewrite issued_push; repeat constructor;
        by apply onServer_api.
    + unfold resourceSonarqubeGitlabBindingDelete. rewrite (binding_gate_closed m stb _ Hc).
      simpl. by rewrite issued_same.
Qed.

(** ** A trailing slash in the configured URL *)

Lemma length_append_slash (p : string) : String.length (p +:+ "/") = S (String.length p).
Proof. induction p as [|c p IH]; simpl; [done | by rewrite IH]. Qed.

Lemma TrimSuffix_added_slash (p : string) : TrimSuffix (p +:+ "/") "/" = p.
Proof.
  unfold TrimSuffix, HasSuffix. rewrite length_append_slash.
  change (String.length "/") with 1%nat.
  replace (S (String.length p) - 1)%nat with (String.length p) by lia.
  by rewrite dropBytes_app, takeBytes_app.
Qed.

Lemma apiPath_added_slash (u : URL) (api : string) :
  HasSuffix (Path u) "/" = false ->
  apiPath (withPath u (Path u +:+ "/")) api = apiPath u api.
Proof.
  intros H. unfold apiPath, withPath. simpl. rewrite TrimSuffix_added_slash.
  unfold TrimSuffix. by rewrite H.
Qed.

Lemma permissionLoop_client {D} (m m' : ProviderConfiguration) (caller : string) (u : URL)
    (q : Values) (perms : list string) (st : State D) :
  httpClient m' = httpClient m ->
  permissionLoop m' caller u q perms st = permissionLoop m caller u q perms st.
Proof.
  intros H. revert u q st. induction perms as [|p rest IH]; intros u q st; [done|].
  simpl. unfold bind, onError. rewrite H.
  destruct (httpRequestHelper _ _ _ _ _ st) as [[r|e|pv] st1]; [apply IH|done|done].
Qed.

Section TrailingSlash.
(** A configuration whose base path has no trailing slash, and the same
    configuration with one added. *)
Variable m : ProviderConfiguration.
Hypothesis Hbare : HasSuffix (Path (sonarQubeURL m)) "/" = false.

Let m' := withBasePath m (Path (sonarQubeURL m) +:+ "/").

Lemma slash_apiPath (api : string) :
  apiPath (sonarQubeURL m') api = apiPath (sonarQubeURL m) api.
Proof. apply apiPath_added_slash, Hbare. Qed.

Lemma slash_read (st : State PermissionsData) :
  resourceSonarqubePermissionsRead m' st = resourceSonarqubePermissionsRead m st.
Proof. rewrite !read_run. unfold readRequest. by rewrite slash_apiPath. Qed.

Lemma slash_create (st : State PermissionsData) :
  resourceSonarqubePermissionsCreate m' st = resourceSonarqubePermissionsCreate m st.
Proof.
  destruct (lacksTemplateScope_dec (data st)) as [(Hl & Hg & Hi & Hn)|Hscope].
  { by rewrite !create_without_template. }
  rewrite !create_endpoint by done. unfold bind.
  rewrite slash_apiPath, (permissionLoop_client m m') by done.
  destruct (permissionLoop _ _ _ _ _ st) as [[r|e|p] st1]; [|done|done].
  unfold createEpilogue, bind, NewV4String, modifyData. apply slash_read.
Qed.

Lemma slash_delete (st : State PermissionsData) :
  resourceSonarqubePermissionsDelete m' st = resourceSonarqubePermissionsDelete m st.
Proof.
  destruct (lacksTemplateScope_dec (data st)) as [(Hl & Hg & Hi & Hn)|Hscope].
  { by rewrite !delete_without_template. }
  rewrite !delete_endpoint by done.
  by rewrite slash_apiPath, (permissionLoop_client m m').
Qed.

Lemma slash_binding_read (st : State BindingData) :
  resourceSonarqubeGitlabBindingRead m' st = resourceSonarqubeGitlabBindingRead m st.
Proof.
  destruct (check_cases m) as [Hc|Hc].
  - destruct (SplitN_first (BindingId (data st)) "/") as (id0 & rest & Hs).
    rewrite (binding_read_run m' st id0 rest Hc Hs), (binding_read_run m st id0 rest Hc Hs).
    unfold bindingReadRequest. by rewrite slash_apiPath.
  - unfold resourceSonarqubeGitlabBindingRead.
    by rewrite (binding_gate_closed m st _ Hc), (binding_gate_closed m' st _ Hc).
Qed.

Lemma slash_binding_create (st : State BindingData) :
  resourceSonarqubeGitlabBindingCreate m' st = resourceSonarqubeGitlabBindingCreate m st.
Proof.
  destruct (check_cases m) as [Hc|Hc].
  - rewrite (binding_create_run m' st Hc), (binding_create_run m st Hc).
    unfold bindingCreateRequest. rewrite slash_apiPath. cbv zeta.
    destruct (reply _ _ _); [done|]. apply slash_binding_read.
  - unfold resourceSonarqubeGitlabBindingCreate.
    by rewrite (binding_gate_closed m st _ Hc), (binding_gate_closed m' st _ Hc).
Qed.

Lemma slash_binding_delete (st : State BindingData) :
  resourceSonarqubeGitlabBindingDelete m' st = resourceSonarqubeGitlabBindingDelete m st.
Proof.
  destruct (check_cases m) as [Hc|Hc].
  - rewrite (binding_delete_run m' st Hc), (binding_delete_run m st Hc).
    unfold bindingDeleteRequest. by rewrite slash_apiPath.
  - unfold resourceSonarqubeGitlabBindingDelete.
    by rewrite (binding_gate_closed m st _ Hc), (binding_gate_closed m' st _ Hc).
Qed.
End TrailingSlash.

(** X16. One trailing slash in the path of the configured URL makes no
    difference: with [https://host/sonar/] in place of [https://host/sonar]
    every handler returns the same result, leaves the same state and has
    issued the same requests. *)
Theorem trailing_slash_is_ignored
    (m : ProviderConfiguration) (st : State PermissionsData) (stb : State BindingData) :
  HasSuffix (Path (sonarQubeURL m)) "/" = false ->
  resourceSonarqubePermissionsCreate (withBasePath m (Path (sonarQubeURL m) +:+ "/")) st
  = resourceSonarqubePermissionsCreate m st
  /\ resourceSonarqubePermissionsRead (withBasePath m (Path (sonarQubeURL m) +:+ "/")) st
     = resourceSonarqubePermissionsRead m st
  /\ resourceSonarqubePermissionsDelete (withBasePath m (Path (sonarQubeURL m) +:+ "/")) st
     = resourceSonarqubePermissionsDelete m st
  /\ resourceSonarqubeGitlabBindingCreate (withBasePath m (Path (sonarQubeURL m) +:+ "/")) stb
     = resourceSonarqubeGitlabBindingCreate m stb
  /\ resourceSonarqubeGitlabBindingRead (withBasePath m (Path (sonarQubeURL m) +:+ "/")) stb
     = resourceSonarqubeGitlabBindingRead m stb
  /\ resourceSonarqubeGitlabBindingDelete (withBasePath m (Path (sonarQubeURL m) +:+ "/")) stb
     = resourceSonarqubeGitlabBindingDelete m stb.
Proof.
  intros H. split; [by apply slash_create|]. split; [by apply slash_read|].
  split; [by apply slash_delete|]. split; [by apply slash_binding_create|].
  split; [by apply slash_binding_read | by apply slash_binding_delete].
Qed.

End Handlers.

(** * The properties on concrete runs

    The runs below are on ASCII strings, where [strings.ToLower] and
    [strings.EqualFold] are [asciiToLower] and [asciiEqualFold]. *)

#[global] Existing Instance asciiFolding.


Lemma asciiFolding_foldClasses : foldClasses.
Proof. exact asciiEqualFold_same_class. Qed.

Lemma asciiFolding_foldOfEmpty : foldOfEmpty.
Proof. exact asciiEqualFold_empty. Qed.

Example Values_Encode_sorts_and_escapes :
  Values_Encode (Values_Add "permission" "user" (Values_Add "login" "alice"
     (Values_Add "projectKey" "proj 1" ∅))) = "login=alice&permission=user&projectKey=proj+1"%string.
Proof. vm_compute. reflexivity. Qed.

Example SplitN_examples :
  SplitN "proj1/123" "/" 2 = ["proj1"; "123"]%string
  /\ SplitN "a/b/c" "/" 2 = ["a"; "b/c"]%string
  /\ SplitN "noslash" "/" 2 = ["noslash"%string]
  /\ SplitN "" "/" 2 = [""%string]
  /\ TrimSuffix "/sonar/" "/" = "/sonar"%string
  /\ TrimSuffix "" "/" = ""%string.
Proof. vm_compute. repeat split. Qed.

Example project_creator_read :
  let run := resourceSonarqubePermissionsRead
               (exampleConf (alwaysReply (mkResponse 200 templatesBody)) "Developer")
               (start (mkPermissionsData "id-3" "" "" "project_creator" "" "au-1" "" ["admin"%string])) in
  fst run = Ok tt
  /\ permissions (data (snd run)) = ["admin"%string]
  /\ (RawQuery ∘ target) <$> history (snd run) = ["ps=100"%string]
  /\ (Path ∘ target) <$> history (snd run) = ["/api/permissions/search_templates"%string].
Proof. vm_compute. repeat split. Qed.

Example community_in_any_case :
  checkGitlabBindingSupport (exampleConf unreachable "COMMUNITY")
  = Some (editionError (exampleConf unreachable "COMMUNITY"))
  /\ checkGitlabBindingSupport (exampleConf unreachable "Developer") = None.
Proof. vm_compute. repeat split. Qed.

Lemma special_group_needs_template_witness :
  resourceSonarqubePermissionsCreate (exampleConf (exampleServer noBody) "Developer")
    (start projectCreator)
  = (Err createConfigError, start projectCreator)
  /\ resourceSonarqubePermissionsDelete (exampleConf (exampleServer noBody) "Developer")
       (start projectCreator)
     = (Err deleteConfigError, start projectCreator)
  /\ issued (start projectCreator)
       (snd (resourceSonarqubePermissionsCreate (exampleConf (exampleServer noBody) "Developer")
               (start projectCreator))) = []
  /\ issued (start projectCreator)
       (snd (resourceSonarqubePermissionsDelete (exampleConf (exampleServer noBody) "Developer")
               (start projectCreator))) = [].
Proof.
  apply (special_group_needs_template (exampleConf (exampleServer noBody) "Developer")
           (start projectCreator)); reflexivity.
Defined.

(** A declaration with one permission value for which Create and Delete
    issue no request: the special group without a template, on a server
    that would accept every request. *)
Lemma special_group_issues_no_request :
  permissions projectCreator = ["admin"%string]
  /\ issued (start projectCreator)
       (snd (resourceSonarqubePermissionsCreate (exampleConf (exampleServer noBody) "Developer")
               (start projectCreator))) = []
  /\ issued (start projectCreator)
       (snd (resourceSonarqubePermissionsDelete (exampleConf (exampleServer noBody) "Developer")
               (start projectCreator))) = [].
Proof. vm_compute. repeat split. Qed.

Lemma one_request_per_permission_value_witness :
  ~ lacksTemplateScope (aliceDeclaration "")
  /\ resourceSonarqubePermissionsDelete (exampleConf (alwaysReply (mkResponse 500 noBody)) "Developer")
       (start (aliceDeclaration ""))
     = (Err (permissionError "resourceSonarqubePermissionsDelete" (UnexpectedStatus 500 204)),
        snd (resourceSonarqubePermissionsDelete
               (exampleConf (alwaysReply (mkResponse 500 noBody)) "Developer")
               (start (aliceDeclaration ""))))
  /\ length (issued (start (aliceDeclaration ""))
       (snd (resourceSonarqubePermissionsDelete
               (exampleConf (alwaysReply (mkResponse 500 noBody)) "Developer")
               (start (aliceDeclaration ""))))) = 1%nat.
Proof.
  assert (H : ~ lacksTemplateScope (aliceDeclaration "")) by (intros (H & _); discriminate H).
  split; [exact H|].
  destruct (one_request_per_permission_value
              (exampleConf (alwaysReply (mkResponse 500 noBody)) "Developer")
              (start (aliceDeclaration "")) H)
    as (uc & qc & ud & qd & _ & _ & _ & _ & HD).
  rewrite (HD O "user"%string (UnexpectedStatus 500 204) eq_refl eq_refl eq_refl).
  split; [reflexivity|]. simpl snd. rewrite issued_push. reflexivity.
Defined.

Lemma community_edition_blocks_binding_witness :
  ToLower "Community" = "community"%string
  /\ resourceSonarqubeGitlabBindingCreate (exampleConf (exampleServer bindingBody) "Community")
       (start (exampleBinding ""))
     = (Err (editionError (exampleConf (exampleServer bindingBody) "Community")),
        start (exampleBinding ""))
  /\ issued (start (exampleBinding ""))
       (snd (resourceSonarqubeGitlabBindingRead (exampleConf (exampleServer bindingBody) "Community")
               (start (exampleBinding "")))) = [].
Proof.
  split; [reflexivity|].
  destruct (community_edition_blocks_binding (folding := asciiFolding)
              (exampleConf (exampleServer bindingBody) "Community")
              (start (exampleBinding "")) eq_refl)
    as (HC & _ & _ & _ & _ & _ & _ & HR & _).
  split; [exact HC | exact HR].
Defined.


Lemma alice_scenario_witness :
  resourceSonarqubePermissionsCreate
    (mkProviderConfiguration (exampleServer usersBody) exampleURL "10.4" "Developer")
    (mkState (aliceDeclaration "") [] exampleEntropy 0)
  = (Ok tt,
     mkState (mkPermissionsData "6ba7b810-9dad-41d1-80b4-00c04fd430c8" "Alice" "" "" "proj1" "" ""
                ["scan"; "user"]%string)
             [aliceAdd exampleURL "login=alice&permission=user&projectKey=proj1";
              aliceAdd exampleURL "login=alice&permission=scan&projectKey=proj1";
              aliceGet exampleURL]
             exampleEntropy 1).
Proof.
  apply (alice_scenario (exampleServer usersBody) exampleURL "10.4" "Developer" [] exampleEntropy 0
           "" noBody noBody usersBody
           (mkGetUser (mkPaging 1 100 2)
              [mkUser "bob" ["admin"%string]; mkUser "Alice" ["scan"; "user"]%string])
           (mkUser "Alice" ["scan"; "user"]%string)); reflexivity.
Defined.

(** C6. A Read that cannot find a matching record and yet returns no
    not-found error: the identity ["proj1"] of a binding has no slash, so
    that no repository can match it, and the server answers the GET with the
    binding of another project.  Read reaches the comparison of
    [idSlice[1]] with the repository and panics there, on a slice of length
    one; it returns no error at all, and so not the not-found error of the
    line below the comparison. *)
Theorem read_without_match_panics_on_bare_identity :
  SplitN "proj1" "/" 2 = ["proj1"%string]
  /\ ToLower "Developer" <> "community"%string
  /\ resourceSonarqubeGitlabBindingRead
       (exampleConf (alwaysReply (mkResponse 200 bindingBody)) "Developer")
       (start (exampleBinding "proj1"))
     = (Panic (IndexOutOfRange 1 1),
        pushRequests
          [bindingReadRequest (exampleConf (alwaysReply (mkResponse 200 bindingBody)) "Developer")
             "proj1"]
          (start (exampleBinding "proj1")))
  /\ fst (resourceSonarqubeGitlabBindingRead
            (exampleConf (alwaysReply (mkResponse 200 bindingBody)) "Developer")
            (start (exampleBinding "proj1")))
     <> Err (bindingNotFoundError "proj1")
  /\ (forall e, fst (resourceSonarqubeGitlabBindingRead
                       (exampleConf (alwaysReply (mkResponse 200 bindingBody)) "Developer")
                       (start (exampleBinding "proj1")))
                <> Err e).
Proof.
  split; [vm_compute; reflexivity|]. split; [discriminate|].
  assert (E : resourceSonarqubeGitlabBindingRead
                (exampleConf (alwaysReply (mkResponse 200 bindingBody)) "Developer")
                (start (exampleBinding "proj1"))
              = (Panic (IndexOutOfRange 1 1),
                 pushRequests
                   [bindingReadRequest
                      (exampleConf (alwaysReply (mkResponse 200 bindingBody)) "Developer") "proj1"]
                   (start (exampleBinding "proj1"))))
    by (vm_compute; reflexivity).
  rewrite E. split; [reflexivity|]. split; [discriminate|]. intros e. discriminate.
Qed.

Lemma identity_after_create_witness :
  Id (data (snd (resourceSonarqubePermissionsCreate
                   (exampleConf (exampleServer usersBody) "Developer")
                   (start (aliceDeclaration "")))))
  = "6ba7b810-9dad-41d1-80b4-00c04fd430c8"%string
  /\ drawn (snd (resourceSonarqubePermissionsCreate
                   (exampleConf (exampleServer usersBody) "Developer")
                   (start (aliceDeclaration "")))) = 1%nat
  /\ BindingId (data (snd (resourceSonarqubeGitlabBindingCreate
                             (exampleConf (exampleServer bindingBody) "Developer")
                             (start (exampleBinding "")))))
     = "proj1/123"%string.
Proof.
  apply (identity_after_create
           (exampleConf (exampleServer usersBody) "Developer") (start (aliceDeclaration ""))
           (exampleConf (exampleServer bindingBody) "Developer") (start (exampleBinding "")));
    vm_compute; reflexivity.
Defined.

(** An identity without a slash for which Read and Import return an error
    and do not panic: the server cannot be reached, or it is a Community
    edition. *)
Lemma identity_without_slash_may_return_error :
  Contains "noslash" "/" = false
  /\ fst (resourceSonarqubeGitlabBindingRead (exampleConf unreachable "Developer")
            (start (exampleBinding "noslash")))
     = Err (TransportError "resourceSonarqubeGitlabBindingRead" (NetworkFailure "connection refused"))
  /\ fst (resourceSonarqubeGitlabBindingRead
            (exampleConf (alwaysReply (mkResponse 200 bindingBody)) "Community")
            (start (exampleBinding "noslash")))
     = Err (editionError (exampleConf (alwaysReply (mkResponse 200 bindingBody)) "Community"))
  /\ fst (resourceSonarqubeGitlabBindingImport (exampleConf unreachable "Developer")
            (start (exampleBinding "noslash")))
     = Err (TransportError "resourceSonarqubeGitlabBindingRead" (NetworkFailure "connection refused")).
Proof. vm_compute. repeat split. Qed.

Lemma identity_without_slash_panics_witness :
  Contains "noslash" "/" = false
  /\ resourceSonarqubeGitlabBindingRead
       (exampleConf (alwaysReply (mkResponse 200 bindingBody)) "Developer")
       (start (exampleBinding "noslash"))
     = (Panic (IndexOutOfRange 1 1),
        pushRequests
          [bindingReadRequest (exampleConf (alwaysReply (mkResponse 200 bindingBody)) "Developer")
             "noslash"]
          (start (exampleBinding "noslash")))
  /\ fst (resourceSonarqubeGitlabBindingImport
            (exampleConf (alwaysReply (mkResponse 200 bindingBody)) "Developer")
            (start (exampleBinding "noslash")))
     = Panic (IndexOutOfRange 1 1).
Proof.
  assert (Hed : ToLower "Developer" <> "community"%string) by discriminate.
  destruct (identity_without_slash_panics
              (exampleConf (alwaysReply (mkResponse 200 bindingBody)) "Developer")
              (start (exampleBinding "noslash")) (mkResponse 200 bindingBody)
              (mkGetBinding "my-gitlab" "123" "gitlab" true)
              eq_refl Hed eq_refl eq_refl eq_refl) as (_ & HR & HI).
  split; [reflexivity|]. split; [exact HR|]. by rewrite HI.
Defined.

(** ** The further properties on concrete runs *)

Lemma success_means_all_values_applied_witness :
  accepted (exampleServer usersBody) []
    (addRequest (exampleConf (exampleServer usersBody) "Developer") (aliceDeclaration "")
     <$> ["user"; "scan"]%string) = true
  /\ length (issued (start (aliceDeclaration ""))
       (snd (resourceSonarqubePermissionsCreate (exampleConf (exampleServer usersBody) "Developer")
               (start (aliceDeclaration ""))))) = 3%nat
  /\ length (issued (start (aliceDeclaration ""))
       (snd (resourceSonarqubePermissionsDelete (exampleConf (exampleServer usersBody) "Developer")
               (start (aliceDeclaration ""))))) = 2%nat.
Proof.
  assert (HC : fst (resourceSonarqubePermissionsCreate
                      (exampleConf (exampleServer usersBody) "Developer")
                      (start (aliceDeclaration ""))) = Ok tt) by (vm_compute; reflexivity).
  assert (HD : fst (resourceSonarqubePermissionsDelete
                      (exampleConf (exampleServer usersBody) "Developer")
                      (start (aliceDeclaration ""))) = Ok tt) by (vm_compute; reflexivity).
  destruct (success_means_all_values_applied _ _ _ _ HC HD) as ((E1 & Hacc & _) & (E2 & _)).
  split; [exact Hacc|]. rewrite E1, E2. simpl snd. rewrite issued_push. split; reflexivity.
Defined.

Lemma delete_mirrors_create_witness :
  (RawQuery ∘ target)
    <$> issued (start (aliceDeclaration "6ba7b810-9dad-41d1-80b4-00c04fd430c8"))
          (snd (resourceSonarqubePermissionsDelete (subPathConf (exampleServer noBody))
                  (start (aliceDeclaration "6ba7b810-9dad-41d1-80b4-00c04fd430c8"))))
  = ["login=alice&permission=user&projectKey=proj1";
     "login=alice&permission=scan&projectKey=proj1"]%string.
Proof.
  assert (HC : fst (resourceSonarqubePermissionsCreate
                      (exampleConf (exampleServer usersBody) "Developer")
                      (mkState (aliceDeclaration "6ba7b810-9dad-41d1-80b4-00c04fd430c8")
                         [] exampleEntropy 1)) = Ok tt) by (vm_compute; reflexivity).
  assert (HD : fst (resourceSonarqubePermissionsDelete (subPathConf (exampleServer noBody))
                      (start (aliceDeclaration "6ba7b810-9dad-41d1-80b4-00c04fd430c8"))) = Ok tt)
    by (vm_compute; reflexivity).
  rewrite (delete_mirrors_create
             (exampleConf (exampleServer usersBody) "Developer")
             (mkState (aliceDeclaration "6ba7b810-9dad-41d1-80b4-00c04fd430c8") [] exampleEntropy 1)
             (subPathConf (exampleServer noBody))
             (start (aliceDeclaration "6ba7b810-9dad-41d1-80b4-00c04fd430c8")) eq_refl HC HD).
  vm_compute. reflexivity.
Defined.

Lemma create_stores_identity_before_read_back_witness :
  ~ lacksTemplateScope carolDeclaration
  /\ fst (resourceSonarqubePermissionsCreate (exampleConf (exampleServer usersBody) "Developer")
            (start carolDeclaration))
     = Err (notFoundError "6ba7b810-9dad-41d1-80b4-00c04fd430c8")
  /\ data (snd (resourceSonarqubePermissionsCreate (exampleConf (exampleServer usersBody) "Developer")
                  (start carolDeclaration)))
     = SetId "6ba7b810-9dad-41d1-80b4-00c04fd430c8" carolDeclaration.
Proof.
  assert (H : ~ lacksTemplateScope carolDeclaration) by (intros (H & _); discriminate H).
  assert (E : fst (resourceSonarqubePermissionsCreate
                     (exampleConf (exampleServer usersBody) "Developer") (start carolDeclaration))
              = Err (notFoundError "6ba7b810-9dad-41d1-80b4-00c04fd430c8"))
    by (vm_compute; reflexivity).
  split; [exact H|]. split; [exact E|].
  destruct (create_stores_identity_before_read_back
              (exampleConf (exampleServer usersBody) "Developer") (start carolDeclaration) H)
    as [Hacc _].
  destruct Hacc as (_ & _ & Hdata); [vm_compute; reflexivity|].
  apply Hdata. rewrite E. discriminate.
Defined.

Lemma read_twice_changes_nothing_witness :
  foldClasses /\ foldOfEmpty
  /\ login_name (data (snd (resourceSonarqubePermissionsRead
                           (exampleConf (alwaysReply (mkResponse 200 usersBody)) "Developer")
                           (start (aliceDeclaration "id-1"))))) = "Alice"%string
  /\ data (snd (resourceSonarqubePermissionsRead
                  (exampleConf (alwaysReply (mkResponse 200 usersBody)) "Developer")
                  (snd (resourceSonarqubePermissionsRead
                          (exampleConf (alwaysReply (mkResponse 200 usersBody)) "Developer")
                          (start (aliceDeclaration "id-1"))))))
     = data (snd (resourceSonarqubePermissionsRead
                    (exampleConf (alwaysReply (mkResponse 200 usersBody)) "Developer")
                    (start (aliceDeclaration "id-1")))).
Proof.
  split; [exact asciiFolding_foldClasses|]. split; [exact asciiFolding_foldOfEmpty|].
  split; [vm_compute; reflexivity|].
  apply (read_twice_changes_nothing
           (exampleConf (alwaysReply (mkResponse 200 usersBody)) "Developer")
           (start (aliceDeclaration "id-1")) (mkResponse 200 usersBody)
           asciiFolding_foldClasses asciiFolding_foldOfEmpty);
    [intros hist g; reflexivity | reflexivity | vm_compute; reflexivity].
Defined.

Lemma binding_read_depends_on_identity_witness :
  fst (resourceSonarqubeGitlabBindingImport
         (exampleConf (alwaysReply (mkResponse 200 bindingBody)) "Developer")
         (mkState (mkBindingData "proj1/123" "" "" "" "") [] exampleEntropy 0))
  = fst (resourceSonarqubeGitlabBindingImport
           (exampleConf (alwaysReply (mkResponse 200 bindingBody)) "Developer")
           (mkState (exampleBinding "proj1/123") [] exampleEntropy 0)).
Proof.
  apply (binding_read_depends_on_identity
           (exampleConf (alwaysReply (mkResponse 200 bindingBody)) "Developer")
           [] exampleEntropy 0 (mkBindingData "proj1/123" "" "" "" "") (exampleBinding "proj1/123")).
  reflexivity.
Defined.

Lemma binding_create_then_read_witness :
  resourceSonarqubeGitlabBindingCreate (exampleConf (exampleServer bindingBody) "Developer")
    (start (exampleBinding ""))
  = (Ok tt,
     withData (mkBindingData "proj1/123" "my-gitlab" "true" "proj1" "123")
       (pushRequests
          [bindingCreateRequest (exampleConf (exampleServer bindingBody) "Developer")
             (exampleBinding "");
           bindingReadRequest (exampleConf (exampleServer bindingBody) "Developer") "proj1"]
          (start (exampleBinding "")))).
Proof.
  apply (binding_create_then_read (exampleConf (exampleServer bindingBody) "Developer")
           (start (exampleBinding "")) (mkResponse 204 noBody) (mkResponse 200 bindingBody)
           (mkGetBinding "my-gitlab" "123" "gitlab" true));
    (discriminate || reflexivity).
Defined.

Lemma binding_create_stores_identity_after_post_witness :
  fst (resourceSonarqubeGitlabBindingCreate (exampleConf (exampleServer bindingBody) "Developer")
         (start (mkBindingData "" "my-gitlab" "false" "proj1" "456")))
  = Err (bindingNotFoundError "proj1/456")
  /\ data (snd (resourceSonarqubeGitlabBindingCreate
                  (exampleConf (exampleServer bindingBody) "Developer")
                  (start (mkBindingData "" "my-gitlab" "false" "proj1" "456"))))
     = mkBindingData "proj1/456" "my-gitlab" "false" "proj1" "456".
Proof.
  assert (E : fst (resourceSonarqubeGitlabBindingCreate
                     (exampleConf (exampleServer bindingBody) "Developer")
                     (start (mkBindingData "" "my-gitlab" "false" "proj1" "456")))
              = Err (bindingNotFoundError "proj1/456")) by (vm_compute; reflexivity).
  split; [exact E|].
  assert (Hed : ToLower "Developer" <> "community"%string) by discriminate.
  destruct (binding_create_stores_identity_after_post
              (exampleConf (exampleServer bindingBody) "Developer")
              (start (mkBindingData "" "my-gitlab" "false" "proj1" "456")) Hed) as [_ H].
  destruct H as (_ & _ & Hdata); [vm_compute; reflexivity|].
  rewrite Hdata; [reflexivity|]. rewrite E. discriminate.
Defined.

Lemma selector_changes_in_case_only_witness :
  login_name (data (snd (resourceSonarqubePermissionsCreate
                           (exampleConf (exampleServer usersBody) "Developer")
                           (start (aliceDeclaration ""))))) = "Alice"%string
  /\ EqualFold
       (login_name (data (snd (resourceSonarqubePermissionsCreate
                                 (exampleConf (exampleServer usersBody) "Developer")
                                 (start (aliceDeclaration ""))))))
       "alice" = true
  /\ project_key (data (snd (resourceSonarqubePermissionsCreate
                              (exampleConf (exampleServer usersBody) "Developer")
                              (start (aliceDeclaration ""))))) = "proj1"%string.
Proof.
  split; [vm_compute; reflexivity|].
  destruct (selector_changes_in_case_only
              (exampleConf (alwaysReply (mkResponse 200 usersBody)) "Developer")
              (start (aliceDeclaration "id-1"))
              (exampleConf (exampleServer usersBody) "Developer")
              (start (aliceDeclaration "")))
    as (_ & H1 & _ & H2 & _); [vm_compute; reflexivity | vm_compute; reflexivity |].
  split; [|exact H2].
  destruct H1 as [H1|H1]; [vm_compute in H1; discriminate H1 | exact H1].
Defined.

Lemma trailing_slash_is_ignored_witness :
  HasSuffix "/sonar" "/" = false
  /\ resourceSonarqubePermissionsRead
       (withBasePath (subPathConf (exampleServer usersBody)) "/sonar/")
       (start (aliceDeclaration "id-1"))
     = resourceSonarqubePermissionsRead (subPathConf (exampleServer usersBody))
         (start (aliceDeclaration "id-1"))
  /\ resourceSonarqubeGitlabBindingDelete
       (withBasePath (subPathConf (exampleServer usersBody)) "/sonar/")
       (start (exampleBinding "proj1/123"))
     = resourceSonarqubeGitlabBindingDelete (subPathConf (exampleServer usersBody))
         (start (exampleBinding "proj1/123")).
Proof.
  split; [reflexivity|].
  destruct (trailing_slash_is_ignored (subPathConf (exampleServer usersBody))
              (start (aliceDeclaration "id-1")) (start (exampleBinding "proj1/123")) eq_refl)
    as (_ & HR & _ & _ & _ & HD).
  split; [exact HR | exact HD].
Defined.
